(** * HB04 CNC pendant driver ([hb04.py]): shallow embedding and properties

    The driver is modelled as it is written: Python exceptions are values of
    an error type, methods that touch the driver object are state-passing
    functions over a record of its attributes, and the numeric codec works
    on Python numbers, where a [float] is an IEEE-754 binary64 value
    ([SpecFloat] with precision 53 and maximal exponent 1024). *)

From Stdlib Require Import ZArith QArith Qabs Lia Bool.
From Stdlib Require Import Floats.SpecFloat.
From stdpp Require Import base option list strings pretty gmap.

Local Open Scope string_scope.
Local Open Scope list_scope.
Local Open Scope Z_scope.

(** ** Python values and exceptions *)

Inductive exn_class :=
  | AssertionError | KeyError | IndexError | ValueError | OverflowError
  | ZeroDivisionError | NameError | AttributeError | RuntimeError
  | SystemExit | OtherError.

Record exn := Exn { exn_cls : exn_class; exn_msg : string }.

(** [except Exception] lets [SystemExit] through; a bare [except:] does not. *)
Definition is_Exception (e : exn) : bool :=
  match exn_cls e with SystemExit => false | _ => true end.

Inductive result (A : Type) : Type :=
  | Ok (a : A)
  | Raise (e : exn).
Arguments Ok {A} a.
Arguments Raise {A} e.

Definition rbind {A B} (c : result A) (k : A -> result B) : result B :=
  match c with Ok a => k a | Raise e => Raise e end.

Declare Scope result_scope.
Delimit Scope result_scope with result.
Notation "x <- c ;; k" := (rbind c (fun x => k))
  (at level 100, c at next level, right associativity) : result_scope.

(** A Python number is an [int] (unbounded) or a [float] (binary64). *)
Inductive pynum :=
  | PyInt (n : Z)
  | PyFloat (f : spec_float).

Definition binary64_mul : spec_float -> spec_float -> spec_float := SFmul 53 1024.
Definition binary64_div : spec_float -> spec_float -> spec_float := SFdiv 53 1024.

(** The literals [10000.0] and [9999.9999] as binary64 values. *)
Definition f10000 : spec_float := S754_finite false 5497558138880000 (-39).
Definition f9999_9999 : spec_float := S754_finite false 5497558083904419 (-39).

(** [float(n)] for an [int]: correctly rounded, [OverflowError] when the
    magnitude is beyond binary64. *)
Definition float_of_int (n : Z) : result spec_float :=
  match binary_normalize 53 1024 n 0 false with
  | S754_infinity _ => Raise (Exn OverflowError "int too large to convert to float")
  | f => Ok f
  end.

(** [math.fabs(v)]: always a float. *)
Definition math_fabs (v : pynum) : result spec_float :=
  match v with
  | PyInt n => (f <- float_of_int n ;; Ok (SFabs f))%result
  | PyFloat f => Ok (SFabs f)
  end.

Definition cond_neg (s : bool) (n : Z) : Z := if s then - n else n.

(** Truncation toward zero of [m * 2^e]. *)
Definition trunc_mag (m : positive) (e : Z) : Z :=
  if 0 <=? e then Z.pos m * 2 ^ e else Z.pos m / 2 ^ (- e).

(** Nearest integer to [n / d] ([d > 0]), ties to the even one. *)
Definition round_half_even (n d : Z) : Z :=
  let q := n / d in
  let r := n mod d in
  match 2 * r ?= d with
  | Lt => q
  | Gt => q + 1
  | Eq => if Z.even q then q else q + 1
  end.

(** Nearest integer to [m * 2^e], ties to the even one. *)
Definition round_half_even_mag (m : positive) (e : Z) : Z :=
  if 0 <=? e then Z.pos m * 2 ^ e else round_half_even (Z.pos m) (2 ^ (- e)).

(** [int(x)] *)
Definition py_int (x : pynum) : result Z :=
  match x with
  | PyInt n => Ok n
  | PyFloat S754_nan => Raise (Exn ValueError "cannot convert float NaN to integer")
  | PyFloat (S754_infinity _) =>
      Raise (Exn OverflowError "cannot convert float infinity to integer")
  | PyFloat (S754_zero _) => Ok 0
  | PyFloat (S754_finite s m e) => Ok (cond_neg s (trunc_mag m e))
  end.

(** [round(x)] with one argument: an [int], ties to even. *)
Definition py_round (x : pynum) : result Z :=
  match x with
  | PyInt n => Ok n
  | PyFloat S754_nan => Raise (Exn ValueError "cannot convert float NaN to integer")
  | PyFloat (S754_infinity _) =>
      Raise (Exn OverflowError "cannot convert float infinity to integer")
  | PyFloat (S754_zero _) => Ok 0
  | PyFloat (S754_finite s m e) => Ok (cond_neg s (round_half_even_mag m e))
  end.

(** [a / b] on two [int]s: the correctly rounded quotient as a float.  The
    division is applied to the integers themselves (mantissa [|a|], exponent
    0), so the exact quotient is rounded once, whatever the size of [a]. *)
Definition int_truediv (a b : Z) : result spec_float :=
  let of_int n :=
    match n with
    | Z0 => S754_zero false
    | Zpos p => S754_finite false p 0
    | Zneg p => S754_finite true p 0
    end in
  if b =? 0 then Raise (Exn ZeroDivisionError "division by zero")
  else
    match binary64_div (of_int a) (of_int b) with
    | S754_infinity _ =>
        Raise (Exn OverflowError "integer division result too large for a float")
    | f => Ok f
    end.

(** Exact comparison of an [int] with a float. *)
Definition int_float_compare (n : Z) (f : spec_float) : option comparison :=
  match f with
  | S754_nan => None
  | S754_infinity s => Some (if s then Gt else Lt)
  | S754_zero _ => Some (n ?= 0)
  | S754_finite s m e =>
      Some (if 0 <=? e then n ?= cond_neg s (Z.pos m * 2 ^ e)
            else n * 2 ^ (- e) ?= cond_neg s (Z.pos m))
  end.

Definition py_compare (a b : pynum) : option comparison :=
  match a, b with
  | PyInt x, PyInt y => Some (x ?= y)
  | PyFloat x, PyFloat y => SFcompare x y
  | PyInt x, PyFloat y => int_float_compare x y
  | PyFloat x, PyInt y => CompOpp <$> int_float_compare y x
  end.

(** [a < b] and [a > b]; both are [False] when a NaN is involved. *)
Definition py_lt (a b : pynum) : bool :=
  match py_compare a b with Some Lt => true | _ => false end.
Definition py_gt (a b : pynum) : bool :=
  match py_compare a b with Some Gt => true | _ => false end.

(** Unary minus. *)
Definition py_neg (a : pynum) : pynum :=
  match a with
  | PyInt n => PyInt (- n)
  | PyFloat f => PyFloat (SFopp f)
  end.

(** Little-endian base-256 digits. *)
Fixpoint le_bytes (len : nat) (n : Z) : list Z :=
  match len with
  | O => []
  | S k => n mod 256 :: le_bytes k (n / 256)
  end.

(** [n.to_bytes(length, 'little', signed=...)] *)
Definition to_bytes (n : Z) (length : nat) (signed : bool) : result (list Z) :=
  let span := 256 ^ Z.of_nat length in
  if signed then
    if (- (span / 2) <=? n) && (n <? span / 2)
    then Ok (le_bytes length (n mod span))
    else Raise (Exn OverflowError "int too big to convert")
  else if n <? 0 then Raise (Exn OverflowError "can't convert negative int to unsigned")
  else if n <? span then Ok (le_bytes length n)
  else Raise (Exn OverflowError "int too big to convert").

(** ** class Axis *)

Record Axis := {
  name : string;
  integerAxis : bool;
  work_coordinate : pynum;
  machine_coordinate : pynum
}.

Definition encode_float (self : Axis) (v : pynum) : result (list Z) :=
  (a <- math_fabs v ;;
   int_v <- py_round (PyFloat (binary64_mul a f10000)) ;;
   q <- int_truediv int_v 10000 ;;
   ip <- py_int (PyFloat q) ;;
   let int_part := Z.land ip 0xFFFF in
   let fract_part := Z.land (int_v mod 10000) 0xFFFF in
   let fract_part :=
     if py_lt v (PyInt 0) then Z.lor fract_part 0x8000 else fract_part in
   result <- to_bytes int_part 2 false ;;
   ext <- to_bytes fract_part 2 false ;;
   Ok (result ++ ext))%result.

Definition limit_num (self : Axis) (x : pynum) : result pynum :=
  (mx <- (if integerAxis self then
            x <- py_int x ;;
            Ok (PyInt 0xFFFF, PyInt (if x <? 0 then 0 else x))
          else Ok (PyFloat f9999_9999, x)) ;;
   let '(max_units, x) := mx in
   if py_gt x max_units then Ok max_units
   else if py_lt x (py_neg max_units) then Ok (py_neg max_units)
   else Ok x)%result.

Definition encode_s16 (self : Axis) (v : pynum) : result (list Z) :=
  (l <- limit_num self v ;;
   v <- py_int l ;;
   to_bytes v 2 true)%result.

Definition display (self : Axis) (v : pynum) : result (list Z) :=
  if integerAxis self then encode_s16 self v else encode_float self v.

Definition wc_display (self : Axis) := display self (work_coordinate self).
Definition mc_display (self : Axis) := display self (machine_coordinate self).
Definition actual (self : Axis) := work_coordinate self.
Definition setrate (self : Axis) := machine_coordinate self.
Definition actual_display (self : Axis) := display self (actual self).
Definition setrate_display (self : Axis) := display self (setrate self).

Definition sign_extend (value : Z) : Z :=
  if 127 <? value then (256 - value) * (-1) else value.

(** ** class hb04 *)

(** A dict literal, and a dict comprehension over [items()]: later entries
    win.  None of the driver's tables repeats a key or a code. *)
Definition dict `{Countable K} {V} (items : list (K * V)) : gmap K V :=
  foldl (fun m kv => <[kv.1 := kv.2]> m) ∅ items.

Definition inverse_items {K V} (items : list (K * V)) : list (V * K) :=
  map (fun kv => (kv.2, kv.1)) items.

Definition keys {K V} (items : list (K * V)) : list K := map fst items.

Definition button_names_items : list (string * Z) :=
  [ ("", 0x0);
    ("reset", 0x17); ("stop", 0x16);
    ("go-zero", 0x01); ("start", 0x02); ("rewind", 0x03); ("probe-z", 0x04);
    ("spindle", 0x0C); ("half", 0x06); ("zero", 0x07); ("safe-z", 0x08);
    ("go-home", 0x09); ("macro1", 0x0A); ("macro2", 0x0B); ("macro3", 0x05);
    ("step", 0x0D); ("mode", 0x0E); ("macro6", 0x0F); ("macro7", 0x10) ].

Definition multiplier_values_items : list (string * Z) :=
  [ ("", 0x0);
    ("1", 0x1); ("5", 0x2);
    ("10", 0x3); ("20", 0x4); ("30", 0x5); ("40", 0x6); ("50", 0x7);
    ("100", 0x8); ("500", 0x9);
    ("1000", 0xA);
    ("P6", 0xB) ].

Definition icon_values_items : list (string * Z) :=
  [ ("no-icon", 0x0); ("go-zero", 0x10); ("no-touchoff", 0x20);
    ("go-home", 0x50); ("j-squiggily", 0x60) ].

Definition units_values_items : list (string * Z) :=
  [ ("mm", 0); ("inch", 0x80) ].

Definition axis_select_switch_items : list (string * Z) :=
  [ ("off", 0x00); ("x", 0x11); ("y", 0x12); ("z", 0x13); ("a", 0x18);
    ("spindle", 0x14); ("feed", 0x15) ].

Definition button_names : gmap string Z := dict button_names_items.
Definition multiplier_values : gmap string Z := dict multiplier_values_items.
Definition icon_values : gmap string Z := dict icon_values_items.
Definition units_values : gmap string Z := dict units_values_items.
Definition axis_select_switch : gmap string Z := dict axis_select_switch_items.

(** The inverse tables. *)
Definition code2Button : gmap Z string := dict (inverse_items button_names_items).
Definition code2Axis : gmap Z string := dict (inverse_items axis_select_switch_items).
Definition code2Range : gmap Z string := dict (inverse_items multiplier_values_items).

(** The USB device object, as far as the driver looks at it: whether the
    kernel driver holds it, which control transfers it will accept (the
    others fail with a [USBError]), and whether it lets the kernel driver be
    attached again when the driver disconnects (a device that has gone, or
    a system that refuses, makes the calls made then fail with a
    [USBError]). *)
Record usb_device := {
  kernel_driver_active : bool;
  accepts : list Z -> bool;
  attaches : bool
}.

(** What the driver writes to standard output: a printed line, or the
    output of [traceback.print_exc] for the exception being handled. *)
Inductive output :=
  | Line (s : string)
  | Traceback (e : option exn).

(** The dict handed to the event handler. *)
Record Event := {
  button : string;
  button2 : string;
  axis : string;
  increment : Z
}.

(** The attributes of the driver object.  [axis_list] holds the eight axis
    objects; the attributes [self.x], [self.feed], ... name the same objects,
    so they are read through [axis_list] too.  [stdout], [usb_out] (the
    packets handed to [ctrl_transfer]) and [handler_calls] (the events the
    handler was called with) record what the driver did. *)
Record hb04 := {
  axis_list : gmap string Axis;
  icon : Z;
  units : Z;
  multiplier_code : Z;
  axis_switch : string;
  reattach : bool;
  reconnecting : bool;
  running : bool;
  disconnecting : bool;
  dev : option usb_device;
  stdout : list output;
  usb_out : list (list Z);
  handler_calls : list Event
}.

Definition set_axis_list (v : gmap string Axis) (s : hb04) : hb04 :=
  {| axis_list := v; icon := icon s; units := units s;
     multiplier_code := multiplier_code s; axis_switch := axis_switch s;
     reattach := reattach s; reconnecting := reconnecting s;
     running := running s; disconnecting := disconnecting s; dev := dev s;
     stdout := stdout s; usb_out := usb_out s;
     handler_calls := handler_calls s |}.

Definition set_icon (v : Z) (s : hb04) : hb04 :=
  {| axis_list := axis_list s; icon := v; units := units s;
     multiplier_code := multiplier_code s; axis_switch := axis_switch s;
     reattach := reattach s; reconnecting := reconnecting s;
     running := running s; disconnecting := disconnecting s; dev := dev s;
     stdout := stdout s; usb_out := usb_out s;
     handler_calls := handler_calls s |}.

Definition set_units (v : Z) (s : hb04) : hb04 :=
  {| axis_list := axis_list s; icon := icon s; units := v;
     multiplier_code := multiplier_code s; axis_switch := axis_switch s;
     reattach := reattach s; reconnecting := reconnecting s;
     running := running s; disconnecting := disconnecting s; dev := dev s;
     stdout := stdout s; usb_out := usb_out s;
     handler_calls := handler_calls s |}.

Definition set_multiplier_code (v : Z) (s : hb04) : hb04 :=
  {| axis_list := axis_list s; icon := icon s; units := units s;
     multiplier_code := v; axis_switch := axis_switch s;
     reattach := reattach s; reconnecting := reconnecting s;
     running := running s; disconnecting := disconnecting s; dev := dev s;
     stdout := stdout s; usb_out := usb_out s;
     handler_calls := handler_calls s |}.

Definition set_axis_switch (v : string) (s : hb04) : hb04 :=
  {| axis_list := axis_list s; icon := icon s; units := units s;
     multiplier_code := multiplier_code s; axis_switch := v;
     reattach := reattach s; reconnecting := reconnecting s;
     running := running s; disconnecting := disconnecting s; dev := dev s;
     stdout := stdout s; usb_out := usb_out s;
     handler_calls := handler_calls s |}.

Definition set_running (v : bool) (s : hb04) : hb04 :=
  {| axis_list := axis_list s; icon := icon s; units := units s;
     multiplier_code := multiplier_code s; axis_switch := axis_switch s;
     reattach := reattach s; reconnecting := reconnecting s;
     running := v; disconnecting := disconnecting s; dev := dev s;
     stdout := stdout s; usb_out := usb_out s;
     handler_calls := handler_calls s |}.

Definition set_disconnecting (v : bool) (s : hb04) : hb04 :=
  {| axis_list := axis_list s; icon := icon s; units := units s;
     multiplier_code := multiplier_code s; axis_switch := axis_switch s;
     reattach := reattach s; reconnecting := reconnecting s;
     running := running s; disconnecting := v; dev := dev s;
     stdout := stdout s; usb_out := usb_out s;
     handler_calls := handler_calls s |}.

Definition set_dev (v : option usb_device) (s : hb04) : hb04 :=
  {| axis_list := axis_list s; icon := icon s; units := units s;
     multiplier_code := multiplier_code s; axis_switch := axis_switch s;
     reattach := reattach s; reconnecting := reconnecting s;
     running := running s; disconnecting := disconnecting s; dev := v;
     stdout := stdout s; usb_out := usb_out s;
     handler_calls := handler_calls s |}.

Definition set_stdout (v : list output) (s : hb04) : hb04 :=
  {| axis_list := axis_list s; icon := icon s; units := units s;
     multiplier_code := multiplier_code s; axis_switch := axis_switch s;
     reattach := reattach s; reconnecting := reconnecting s;
     running := running s; disconnecting := disconnecting s; dev := dev s;
     stdout := v; usb_out := usb_out s;
     handler_calls := handler_calls s |}.

Definition set_usb_out (v : list (list Z)) (s : hb04) : hb04 :=
  {| axis_list := axis_list s; icon := icon s; units := units s;
     multiplier_code := multiplier_code s; axis_switch := axis_switch s;
     reattach := reattach s; reconnecting := reconnecting s;
     running := running s; disconnecting := disconnecting s; dev := dev s;
     stdout := stdout s; usb_out := v;
     handler_calls := handler_calls s |}.

Definition set_handler_calls (v : list Event) (s : hb04) : hb04 :=
  {| axis_list := axis_list s; icon := icon s; units := units s;
     multiplier_code := multiplier_code s; axis_switch := axis_switch s;
     reattach := reattach s; reconnecting := reconnecting s;
     running := running s; disconnecting := disconnecting s; dev := dev s;
     stdout := stdout s; usb_out := usb_out s;
     handler_calls := v |}.

(** *** Methods: state passing with exceptions

    A method takes the driver object and returns it, changed or not,
    together with its result or the exception it raised: what a method did
    before raising stays done. *)
Definition M (A : Type) : Type := hb04 -> result A * hb04.

Definition ret {A} (a : A) : M A := fun s => (Ok a, s).

Definition bind {A B} (c : M A) (k : A -> M B) : M B :=
  fun s => match c s with
           | (Ok a, s') => k a s'
           | (Raise e, s') => (Raise e, s')
           end.

Definition raise {A} (e : exn) : M A := fun s => (Raise e, s).

Definition lift {A} (r : result A) : M A := fun s => (r, s).

Definition gets {A} (f : hb04 -> A) : M A := fun s => (Ok (f s), s).

Definition modify (f : hb04 -> hb04) : M unit := fun s => (Ok tt, f s).

(** [try: body  except <catch> as e: handler e] *)
Definition try_except {A} (body : M A) (catch : exn -> bool) (handler : exn -> M A) : M A :=
  fun s => match body s with
           | (Raise e, s') => if catch e then handler e s' else (Raise e, s')
           | r => r
           end.

Definition any_exn (e : exn) : bool := true.

Declare Scope method_scope.
Delimit Scope method_scope with method.
Notation "x <- c ;; k" := (bind c (fun x => k))
  (at level 100, c at next level, right associativity) : method_scope.
Notation "c ;; k" := (bind c (fun _ => k))
  (at level 100, right associativity) : method_scope.
Notation "'pass'" := (ret tt) (at level 0) : method_scope.

Definition print (s : string) : M unit :=
  modify (fun st => set_stdout (stdout st ++ [Line s]) st).

Definition print_exc (e : option exn) : M unit :=
  modify (fun st => set_stdout (stdout st ++ [Traceback e]) st).

Definition sys_exit {A} (code : Z) : M A :=
  raise (Exn SystemExit (pretty code)).

(** [self.dev]: an [AttributeError] until [connect_hb04] has found a device. *)
Definition get_dev : M usb_device :=
  (d <- gets dev ;;
   match d with
   | Some d => ret d
   | None => raise (Exn AttributeError "'hb04' object has no attribute 'dev'")
   end)%method.

(** [self.dev.is_kernel_driver_active(0)] and
    [self.dev.attach_kernel_driver(0)] as [disconnect] calls them: either
    may fail. *)
Definition is_kernel_driver_active (d : usb_device) : M bool :=
  if attaches d then ret (kernel_driver_active d)
  else raise (Exn OtherError "USBError").

Definition attach_kernel_driver (d : usb_device) : M unit :=
  if attaches d
  then modify (set_dev (Some {| kernel_driver_active := true;
                                accepts := accepts d; attaches := attaches d |}))
  else raise (Exn OtherError "USBError").

(** The re-attachment is attempted inside [try: ... except: pass]: when
    there is no device, or when one of the two calls fails, nothing is
    attached and nothing is reported. *)
Definition disconnect : M unit :=
  (modify (set_running false) ;;
   modify (set_disconnecting true) ;;
   r <- gets reattach ;;
   if r then
     try_except
       (d <- get_dev ;;
        active <- is_kernel_driver_active d ;;
        if negb active then attach_kernel_driver d else pass)
       any_exn (fun _ => pass)
   else pass)%method.

(** [exc] is the exception being handled when [fatal] is called, which is
    what [traceback.print_exc] prints. *)
Definition fatal {A} (exc : option exn) (msg : string) : M A :=
  (print ("### FATAL: " +:+ msg) ;;
   print_exc exc ;;
   disconnect ;;
   sys_exit 1)%method.

Definition isRunning : M bool :=
  (r <- gets running ;; c <- gets reconnecting ;; ret (r || c))%method.

(** [data[i]] on a list. *)
Definition getitem (data : list Z) (i : nat) : M Z :=
  match data !! i with
  | Some b => ret b
  | None => raise (Exn IndexError "list index out of range")
  end.

(** [table[code]] on one of the inverse tables. *)
Definition table_lookup (table : gmap Z string) (code : Z) : M string :=
  match table !! code with
  | Some v => ret v
  | None => raise (Exn KeyError (pretty code))
  end.

Definition py_assert (b : bool) : M unit :=
  if b then ret tt else raise (Exn AssertionError "").

(** The registered callback: it receives the event, may do anything to the
    driver object it has a reference to, and returns or raises. *)
Definition handler : Type := Event -> M unit.

Definition call_handler (h : handler) (ev : Event) : M unit :=
  (modify (fun st => set_handler_calls (handler_calls st ++ [ev]) st) ;;
   h ev)%method.

Definition newUSBEvent (machine_event_handler : option handler) (data : list Z) : M unit :=
  (py_assert (length data =? 6)%nat ;;
   d3 <- getitem data 3 ;;
   sw <- table_lookup code2Axis d3 ;;
   modify (set_axis_switch sw) ;;
   try_except
     match machine_event_handler with
     | Some h =>
         d1 <- getitem data 1 ;;
         b1 <- table_lookup code2Button d1 ;;
         d2 <- getitem data 2 ;;
         b2 <- table_lookup code2Button d2 ;;
         ax <- gets axis_switch ;;
         d4 <- getitem data 4 ;;
         call_handler h {| button := b1; button2 := b2; axis := ax;
                           increment := sign_extend d4 |}
     | None => pass
     end
     any_exn (fun _ => pass))%method.

(** What [receiveUSBEvents] does with a report it has read (the second
    [try] of the loop body). *)
Definition receiveUSBEvents_dispatch (machine_event_handler : option handler)
    (data : list Z) : M unit :=
  try_except (newUSBEvent machine_event_handler data)
    any_exn (fun e => fatal (Some e) "### Programmer error!!###").

(** [bytes(p)] on a list of ints. *)
Definition bytes (p : list Z) : M (list Z) :=
  if forallb (fun b => (0 <=? b) && (b <? 256)) p then ret p
  else raise (Exn ValueError "bytes must be in range(0, 256)").

(** [self.dev.ctrl_transfer(0x21, 0x09, 0x0306, 0x00, _data, 1000)]: the
    packet is handed to the device, which takes all of it or fails. *)
Definition ctrl_transfer (_data : list Z) : M Z :=
  (d <- get_dev ;;
   modify (fun st => set_usb_out (usb_out st ++ [_data]) st) ;;
   if accepts d _data then ret (Z.of_nat (length _data))
   else raise (Exn OtherError "USBError"))%method.

(** The packet-building loops of [sendData].  [pd] refers to the list object
    that was appended to [packets], so [pd.append] changes the packet inside
    [packets]: list objects live in [heap] and are referred to by index. *)
Record pk_state := {
  heap : list (list Z);
  packets : list nat;
  pd : option nat;
  data_idx : nat
}.

Definition pk_body (data : list Z) (i : nat) (s : pk_state) : result pk_state :=
  if (i =? 0)%nat then
    let a := length (heap s) in
    Ok {| heap := heap s ++ [[0x6]]; packets := packets s ++ [a];
          pd := Some a; data_idx := data_idx s |}
  else
    match pd s with
    | None => Raise (Exn NameError "name 'pd' is not defined")
    | Some a =>
        match data !! data_idx s with
        | None => Raise (Exn IndexError "list index out of range")
        | Some b =>
            Ok {| heap := alter (fun l => l ++ [b]) a (heap s);
                  packets := packets s; pd := pd s;
                  data_idx := S (data_idx s) |}
        end
    end.

(** [for i in range(n): body] *)
Fixpoint for_range {St} (body : nat -> St -> result St) (i : nat) (n : nat) (s : St) : result St :=
  match n with
  | O => Ok s
  | S n' => (s' <- body i s ;; for_range body (S i) n' s')%result
  end.

Definition build_packets (data : list Z) : result (list (list Z)) :=
  (s <- for_range (fun packet => for_range (pk_body data) 0 8) 0 6
          {| heap := []; packets := []; pd := None; data_idx := 0%nat |} ;;
   Ok (map (fun a => default [] (heap s !! a)) (packets s)))%result.

(** [for p in packets: ...]: a packet with an element outside a byte stops
    the loop with [ValueError]; a failed transfer is ignored. *)
Fixpoint send_packets (packets : list (list Z)) : M unit :=
  match packets with
  | [] => ret tt
  | p :: rest =>
      (_data <- bytes p ;;
       try_except
         (result <- ctrl_transfer _data ;;
          py_assert (result =? Z.of_nat (length _data)))
         is_Exception (fun _ => pass) ;;
       send_packets rest)%method
  end.

Definition sendData (data : list Z) : M unit :=
  (let data := data ++ replicate (42 - length data) 0 in
   packets <- lift (build_packets data) ;;
   send_packets packets)%method.

(** [self.x], [self.feed], ...: the axis object of that name. *)
Definition getattr_axis (al : gmap string Axis) (name : string) : result Axis :=
  match al !! name with
  | Some a => Ok a
  | None =>
      Raise (Exn AttributeError
               ("'hb04' object has no attribute '" +:+ name +:+ "'"))
  end.

Definition axis_attr (name : string) : M Axis :=
  (al <- gets axis_list ;; lift (getattr_axis al name))%method.

(** [updateLock] only keeps two threads from interleaving their packets; one
    call is modelled, so taking and releasing it leaves no trace. *)
Definition updateDisplay : M unit :=
  (let data := [0xFE; 0xFD; 0x0C] in
   sw <- gets axis_switch ;;
   xa <- axis_attr (if String.eqb sw "a" then "a" else "x") ;;
   d <- lift (wc_display xa) ;; let data := data ++ d in
   y <- axis_attr "y" ;;
   d <- lift (wc_display y) ;; let data := data ++ d in
   z <- axis_attr "z" ;;
   d <- lift (wc_display z) ;; let data := data ++ d in
   sw <- gets axis_switch ;;
   xa <- axis_attr (if String.eqb sw "a" then "a" else "x") ;;
   d <- lift (mc_display xa) ;; let data := data ++ d in
   y <- axis_attr "y" ;;
   d <- lift (mc_display y) ;; let data := data ++ d in
   z <- axis_attr "z" ;;
   d <- lift (mc_display z) ;; let data := data ++ d in
   feed <- axis_attr "feed" ;;
   d <- lift (actual_display feed) ;; let data := data ++ d in
   spindle <- axis_attr "spindle" ;;
   d <- lift (actual_display spindle) ;; let data := data ++ d in
   feed <- axis_attr "feed" ;;
   d <- lift (setrate_display feed) ;; let data := data ++ d in
   spindle <- axis_attr "spindle" ;;
   d <- lift (setrate_display spindle) ;; let data := data ++ d in
   ic <- gets icon ;;
   mc <- gets multiplier_code ;;
   let data := data ++ [Z.lor ic mc] in
   u <- gets units ;;
   let data := data ++ [u] in
   sendData data)%method.

(** The list [updateDisplay] has built when it calls [sendData], or the
    exception that stops it before. *)
Definition frame_data (st : hb04) : result (list Z) :=
  (let data := [0xFE; 0xFD; 0x0C] in
   let xa := if String.eqb (axis_switch st) "a" then "a" else "x" in
   a <- getattr_axis (axis_list st) xa ;;
   d <- wc_display a ;; let data := data ++ d in
   a <- getattr_axis (axis_list st) "y" ;;
   d <- wc_display a ;; let data := data ++ d in
   a <- getattr_axis (axis_list st) "z" ;;
   d <- wc_display a ;; let data := data ++ d in
   a <- getattr_axis (axis_list st) xa ;;
   d <- mc_display a ;; let data := data ++ d in
   a <- getattr_axis (axis_list st) "y" ;;
   d <- mc_display a ;; let data := data ++ d in
   a <- getattr_axis (axis_list st) "z" ;;
   d <- mc_display a ;; let data := data ++ d in
   a <- getattr_axis (axis_list st) "feed" ;;
   d <- actual_display a ;; let data := data ++ d in
   a <- getattr_axis (axis_list st) "spindle" ;;
   d <- actual_display a ;; let data := data ++ d in
   a <- getattr_axis (axis_list st) "feed" ;;
   d <- setrate_display a ;; let data := data ++ d in
   a <- getattr_axis (axis_list st) "spindle" ;;
   d <- setrate_display a ;; let data := data ++ d in
   Ok (data ++ [Z.lor (icon st) (multiplier_code st)] ++ [units st]))%result.

Definition forceDisplayUpdate : M unit :=
  try_except updateDisplay is_Exception
    (fun e => fatal (Some e) ("updateDisplay failing with " +:+ exn_msg e)).

(** *** The Pendant interface *)

Definition set_event_handler (h : handler) (slot : option handler) : option handler :=
  Some h.

Definition get_events_types : list string :=
  ["button"; "button2"; "axis"; "increment"].

Definition set_work_coordinate (v : pynum) (a : Axis) : Axis :=
  {| name := name a; integerAxis := integerAxis a;
     work_coordinate := v; machine_coordinate := machine_coordinate a |}.

Definition set_machine_coordinate (v : pynum) (a : Axis) : Axis :=
  {| name := name a; integerAxis := integerAxis a;
     work_coordinate := work_coordinate a; machine_coordinate := v |}.

(** [axis.<field> = v] on the axis object stored under [axis_name]. *)
Definition update_axis (axis_name : string) (f : Axis -> Axis) : M unit :=
  modify (fun st => set_axis_list (alter f axis_name (axis_list st)) st).

Definition axis_value (axis_name : string) (wc mc : option pynum) : M unit :=
  (try_except
     (al <- gets axis_list ;;
      match al !! axis_name with
      | Some _ =>
          match wc with
          | Some w => update_axis axis_name (set_work_coordinate w)
          | None => pass
          end ;;
          match mc with
          | Some m => update_axis axis_name (set_machine_coordinate m)
          | None => pass
          end
      | None => fatal None ("### Can't find axis " +:+ axis_name)
      end)
     any_exn (fun _ => pass) ;;
   forceDisplayUpdate)%method.

Definition display_attributes : list string :=
  keys units_values_items ++ keys icon_values_items ++ keys multiplier_values_items.

(** The message of the first branch formats [{value}], a name that is bound
    nowhere in the module: evaluating the f-string raises [NameError] before
    [print] is called, and the [return] after it is not reached. *)
Definition set_display_attribute (attribute : string) : M unit :=
  if negb (bool_decide (attribute ∈ display_attributes)) then
    raise (Exn NameError "name 'value' is not defined")
  else
    ((match units_values !! attribute with
      | Some v => modify (set_units v)
      | None =>
          match icon_values !! attribute with
          | Some v => modify (set_icon v)
          | None =>
              match multiplier_values !! attribute with
              | Some v => modify (set_multiplier_code v)
              | None => raise (Exn RuntimeError ("### Can't happen -- missing " +:+ attribute))
              end
          end
      end) ;;
     forceDisplayUpdate)%method.

(** [reset]: the power-up state of the attributes. *)
Definition new_Axis (name : string) (integerAxis : bool) : Axis :=
  {| name := name; integerAxis := integerAxis;
     work_coordinate := PyFloat (S754_zero false);
     machine_coordinate := PyFloat (S754_zero false) |}.

Definition reset_axis_list : gmap string Axis :=
  let al := foldl (fun al n => <[n := new_Axis n false]> al) ∅ ["x"; "y"; "z"; "a"] in
  foldl (fun al n => <[n := new_Axis n true]> al) al
    ["feed"; "feed-actual"; "spindle"; "spindle-actual"].

Definition reset (self : hb04) : hb04 :=
  {| axis_list := reset_axis_list;
     icon := 0; units := 0; multiplier_code := 1;
     axis_switch := "off";
     reattach := false; reconnecting := false; running := false;
     disconnecting := disconnecting self; dev := dev self;
     stdout := stdout self; usb_out := usb_out self;
     handler_calls := handler_calls self |}.

(** A driver object right after [reset], before a device is found. *)
Definition fresh : hb04 :=
  reset {| axis_list := ∅; icon := 0; units := 0; multiplier_code := 0;
           axis_switch := ""; reattach := false; reconnecting := false;
           running := false; disconnecting := false; dev := None;
           stdout := []; usb_out := []; handler_calls := [] |}.

(** The same, once [connect_hb04] has found the device and
    [startListening] has set the running flag. *)
Definition listening : hb04 :=
  set_running true
    (set_dev (Some {| kernel_driver_active := false; accepts := fun _ => true;
                      attaches := true |})
       fresh).

(** *** Connecting, and the two loops

    What comes from outside the driver is given as a script: the results of
    the successive calls of [usb.core.find], the outcome of looking up the
    inbound endpoint, and the outcomes of the successive calls of
    [dev.read].  A loop that has used up its script without leaving is still
    waiting: it yields [None].  [time.sleep] leaves no trace.  A thread
    that a method starts is not run as part of that method; where the
    receive loop starts one, its result says so. *)

Definition set_reattach (v : bool) (s : hb04) : hb04 :=
  {| axis_list := axis_list s; icon := icon s; units := units s;
     multiplier_code := multiplier_code s; axis_switch := axis_switch s;
     reattach := v; reconnecting := reconnecting s;
     running := running s; disconnecting := disconnecting s; dev := dev s;
     stdout := stdout s; usb_out := usb_out s;
     handler_calls := handler_calls s |}.

Definition set_reconnecting (v : bool) (s : hb04) : hb04 :=
  {| axis_list := axis_list s; icon := icon s; units := units s;
     multiplier_code := multiplier_code s; axis_switch := axis_switch s;
     reattach := reattach s; reconnecting := v;
     running := running s; disconnecting := disconnecting s; dev := dev s;
     stdout := stdout s; usb_out := usb_out s;
     handler_calls := handler_calls s |}.

(** [startListening] sets the flag and starts the two threads, which run
    [receiveUSBEvents] and [displayPeriodically]. *)
Definition startListening : M unit := modify (set_running true).

(** The polling loop of [connect_hb04]: [Some true] when a device was
    found, [Some false] when the loop was left because the driver is
    disconnecting. *)
Fixpoint find_loop (finds : list (option usb_device)) (once : bool) : M (option bool) :=
  (dis <- gets disconnecting ;;
   if dis then ret (Some false)
   else
     match finds with
     | [] => ret None
     | found :: finds =>
         modify (set_dev found) ;;
         match found with
         | Some _ => ret (Some true)
         | None =>
             (if negb once
              then print "HB04 not found. Please attach to continue..."
              else pass) ;;
             find_loop finds true
         end
     end)%method.

Definition connect_hb04 (finds : list (option usb_device)) (endpoint_in : result unit)
    : M (option unit) :=
  (modify (set_disconnecting false) ;;
   found <- find_loop finds false ;;
   match found with
   | None => ret None
   | Some false => ret (Some tt)
   | Some true =>
       d <- get_dev ;;
       (if kernel_driver_active d then
          modify (set_reattach true) ;;
          modify (set_dev (Some {| kernel_driver_active := false;
                                   accepts := accepts d;
                                   attaches := attaches d |}))
        else pass) ;;
       try_except (lift endpoint_in) any_exn
         (fun e => fatal (Some e) "Found, but failed to connect to HB04") ;;
       print "Found HB04" ;;
       startListening ;;
       forceDisplayUpdate ;;
       ret (Some tt)
   end)%method.

(** [reconnect], which runs in the thread the receive loop starts when it
    is left on a [USBError]. *)
Definition reconnect (finds : list (option usb_device)) (endpoint_in : result unit)
    : M (option unit) :=
  (modify (set_reconnecting true) ;;
   modify (set_running false) ;;
   modify (set_reconnecting false) ;;
   connect_hb04 finds endpoint_in)%method.

(** [displayPeriodically]: [fuel] bounds the number of refreshes. *)
Fixpoint displayPeriodically (fuel : nat) : M (option unit) :=
  (r <- gets running ;;
   if negb r then ret (Some tt)
   else
     match fuel with
     | O => ret None
     | S fuel => forceDisplayUpdate ;; displayPeriodically fuel
     end)%method.

(** What one call of [dev.read] does: it returns a report, or raises a
    [USBError] with some [errno] (or none), or raises something else. *)
Inductive read_result :=
  | Report (data : list Z)
  | USBError (errno : option Z)
  | ReadRaises (e : exn).

(** The [errno] codes the loop tells apart, with their Linux values. *)
Definition ETIMEDOUT : Z := 110.
Definition ENODEV : Z := 19.
Definition EBUSY : Z := 16.

(** How [receiveUSBEvents] is left: the running flag was found clear, or
    the loop was broken on a [USBError], after
    [threading.Thread(target=self.reconnect).start()]. *)
Inductive loop_exit :=
  | FlagClear
  | ReconnectStarted.

(** [receiveUSBEvents].  [connect] stands for the call of
    [self.connect_hb04()] made when the device has gone. *)
Fixpoint receiveUSBEvents (connect : M (option unit))
    (machine_event_handler : option handler) (reads : list read_result)
    : M (option loop_exit) :=
  (r <- gets running ;;
   if negb r then ret (Some FlagClear)
   else
     match reads with
     | [] => ret None
     | Report data :: reads =>
         receiveUSBEvents_dispatch machine_event_handler data ;;
         receiveUSBEvents connect machine_event_handler reads
     | USBError errno :: reads =>
         if bool_decide (errno = Some ETIMEDOUT) then
           receiveUSBEvents connect machine_event_handler reads
         else if bool_decide (errno = Some ENODEV) then
           print "### USB Device disconnect" ;;
           c <- connect ;;
           match c with
           | None => ret None
           | Some _ =>
               forceDisplayUpdate ;;
               receiveUSBEvents connect machine_event_handler reads
           end
         else
           (if bool_decide (errno = Some EBUSY)
            then print "### Device in use by another program"
            else pass) ;;
           ret (Some ReconnectStarted)
     | ReadRaises e :: reads =>
         if is_Exception e
         then receiveUSBEvents connect machine_event_handler reads
         else raise e
     end)%method.

(** ** Reading the codec's output back

    Not part of the driver, which has no decoder (the pendant's display is
    the reader): [spec_decode_float] and [spec_sign_bit] follow the
    specification's description of the four bytes -- a little-endian integer
    field, then a little-endian fractional field whose high bit is the sign
    and whose remaining bits count ten-thousandths, recombined as
    int + fract / 10000. *)
Definition le_field (lo hi : Z) : Z := lo + 256 * hi.

Definition spec_sign_bit (bs : list Z) : bool :=
  match bs with
  | [_; _; f0; f1] => Z.testbit (le_field f0 f1) 15
  | _ => false
  end.

Definition spec_decode_float (bs : list Z) : Q :=
  match bs with
  | [i0; i1; f0; f1] =>
      let int_part := le_field i0 i1 in
      let fract := Z.land (le_field f0 f1) 0x7FFF in
      let mag := (inject_Z int_part + (fract # 10000))%Q in
      if spec_sign_bit bs then (- mag)%Q else mag
  | _ => 0%Q
  end.

(** The real number a float stands for. *)
Definition float_val (f : spec_float) : Q :=
  match f with
  | S754_finite s m e =>
      if 0 <=? e then inject_Z (cond_neg s (Z.pos m * 2 ^ e))
      else (cond_neg s (Z.pos m) # Z.to_pos (2 ^ (- e)))%Q
  | _ => 0%Q
  end.

Definition num_val (v : pynum) : Q :=
  match v with
  | PyInt n => inject_Z n
  | PyFloat f => float_val f
  end.

Definition is_finite (f : spec_float) : bool :=
  match f with
  | S754_zero _ | S754_finite _ _ _ => true
  | _ => false
  end.

(** A number Python can hold that stands for a real: any [int], or a
    well-formed binary64 value that is neither an infinity nor a NaN. *)
Definition is_real (v : pynum) : bool :=
  match v with
  | PyInt _ => true
  | PyFloat f => valid_binary 53 1024 f && is_finite f
  end.

Definition is_byte (b : Z) : Prop := 0 <= b < 256.

(** ** Vocabulary for the statements *)

(** What a display refresh leaves alone: the axes, the display attributes,
    the switch position and the record of handler calls. *)
Definition same_settings (s s' : hb04) : Prop :=
  axis_list s' = axis_list s /\ icon s' = icon s /\ units s' = units s /\
  multiplier_code s' = multiplier_code s /\ axis_switch s' = axis_switch s /\
  handler_calls s' = handler_calls s.

Definition keeps_settings {A} (c : M A) : Prop :=
  forall s, same_settings s (c s).2.

(** ** Vocabulary for the float arithmetic *)

(** [m] with location [l] stands for the rational [n / d]: [m] is its
    integer part and [l] places the remainder against one half. *)
Definition loc_rep (m : Z) (l : location) (n d : Z) : Prop :=
  m = n / d /\
  match l with
  | loc_Exact => n mod d = 0
  | loc_Inexact c => n mod d <> 0 /\ (2 * (n mod d) ?= d) = c
  end.

Definition rec_rep (r : shr_record) (n d : Z) : Prop :=
  loc_rep (shr_m r) (loc_of_shr_record r) n d.

(** The binary64 value with mantissa [m] and exponent [e] after rounding:
    zero, or a carry into the next binade, and infinity on overflow. *)
Definition pack (s : bool) (m e : Z) : spec_float :=
  if m =? 0 then S754_zero s
  else if m =? 2 ^ 53 then
    if e + 1 <=? 971 then S754_finite s (Z.to_pos (2 ^ 52)) (e + 1) else S754_infinity s
  else if e <=? 971 then S754_finite s (Z.to_pos m) e else S754_infinity s.

Definition int_roundtrip_ok (n : Z) : bool :=
  match encode_float (new_Axis "x" false) (PyInt n) with
  | Ok bs =>
      (length bs =? 4)%nat
      && Qle_bool (Qabs (spec_decode_float bs - inject_Z n)) (1 # 10000)
      && Bool.eqb (spec_sign_bit bs) (n <? 0)
  | Raise _ => false
  end.

(** [f] holds on the [len] integers from [lo] on, checked by halving. *)
Fixpoint forall_range (fuel : nat) (f : Z -> bool) (lo len : Z) : bool :=
  match fuel with
  | O => (len <=? 0) || ((len =? 1) && f lo)
  | S k =>
      if len <=? 1 then (len <=? 0) || f lo
      else
        let h := len / 2 in
        forall_range k f lo h && forall_range k f (lo + h) (len - h)
  end.

(** ** More vocabulary for the statements *)

(** The bound [limit_num] applies on an axis. *)
Definition max_units (self : Axis) : pynum :=
  if integerAxis self then PyInt 0xFFFF else PyFloat f9999_9999.

(** A method that only hands packets to the device: it leaves the driver
    object as it found it but for the record of packets, which grows. *)
Definition only_sends {A} (c : M A) : Prop :=
  forall s, exists out, (c s).2 = set_usb_out (usb_out s ++ out) s.

(** A method that raises exceptions of the classes [P] only. *)
Definition raises_only {A} (P : exn -> bool) (c : M A) : Prop :=
  forall s e, (c s).1 = Raise e -> P e = true.

(** The name and the mode of every axis object, by key. *)
Definition axis_modes (s : hb04) : gmap string (string * bool) :=
  (fun a => (name a, integerAxis a)) <$> axis_list s.

(** The state after [n] unsuccessful polls. *)
Definition after_polls (n : nat) (once : bool) (st : hb04) : hb04 :=
  match n with
  | O => st
  | S _ =>
      set_stdout
        (stdout st ++ (if once then []
                       else [Line "HB04 not found. Please attach to continue..."]))
        (set_dev None st)
  end.

(** The state in which a device [d] has been found after [n] unsuccessful
    polls and taken from the kernel driver. *)
Definition found_state (n : nat) (d : usb_device) (st : hb04) : hb04 :=
  let st1 := set_dev (Some d) (after_polls n false (set_disconnecting false st)) in
  if kernel_driver_active d
  then set_dev (Some {| kernel_driver_active := false; accepts := accepts d;
                        attaches := attaches d |})
         (set_reattach true st1)
  else st1.

(** A report that decodes to the event [ev]. *)
Definition decodes (data : list Z) (ev : Event) : Prop :=
  exists d0 d1 d2 d3 d4 d5,
    data = [d0; d1; d2; d3; d4; d5] /\
    code2Axis !! d3 = Some (axis ev) /\
    code2Button !! d1 = Some (button ev) /\
    code2Button !! d2 = Some (button2 ev) /\
    increment ev = sign_extend d4.

(** The reads the receive loop passes over: timeouts, and exceptions that
    are not [USBError]s. *)
Definition skipped (r : read_result) : bool :=
  match r with
  | Report _ => false
  | USBError errno => bool_decide (errno = Some ETIMEDOUT)
  | ReadRaises e => is_Exception e
  end.

(** A handler that leaves the running flag and the record of calls alone. *)
Definition plain_handler (h : handler) : Prop :=
  forall ev s, running (h ev s).2 = running s /\
               handler_calls (h ev s).2 = handler_calls s.

(** * Properties *)

(** ** Records and the method monad *)

Lemma hb04_eta (s : hb04) :
  {| axis_list := axis_list s; icon := icon s; units := units s;
     multiplier_code := multiplier_code s; axis_switch := axis_switch s;
     reattach := reattach s; reconnecting := reconnecting s;
     running := running s; disconnecting := disconnecting s; dev := dev s;
     stdout := stdout s; usb_out := usb_out s;
     handler_calls := handler_calls s |} = s.
Proof. by destruct s. Qed.

(** ** Packets *)

Lemma bytes_ok (p : list Z) (st : hb04) :
  Forall is_byte p -> bytes p st = (Ok p, st).
Proof.
  intros Hp. unfold bytes.
  replace (forallb _ p) with true; [done|].
  symmetry. apply forallb_forall. intros b Hb.
  rewrite Forall_forall in Hp. apply list_elem_of_In in Hb.
  specialize (Hp b Hb). unfold is_byte in Hp. lia.
Qed.

Lemma send_packets_ok (ps : list (list Z)) (st : hb04) (d : usb_device) :
  dev st = Some d ->
  Forall (Forall is_byte) ps ->
  send_packets ps st = (Ok tt, set_usb_out (usb_out st ++ ps) st).
Proof.
  revert st. induction ps as [|p ps IH]; intros st Hd Hps.
  - simpl. unfold ret, set_usb_out. rewrite app_nil_r. by rewrite hb04_eta.
  - apply Forall_cons in Hps as [Hp Hps].
    cbn [send_packets]. unfold bind at 1. rewrite (bytes_ok _ _ Hp).
    unfold bind at 1, try_except, bind at 1, ctrl_transfer, bind at 1, get_dev,
      bind at 1, gets. rewrite Hd. cbn.
    destruct (accepts d p); cbn.
    + unfold py_assert. rewrite Z.eqb_refl. cbn.
      rewrite IH; [|done|done]. cbn. by rewrite <- app_assoc.
    + rewrite IH; [|done|done]. cbn. by rewrite <- app_assoc.
Qed.

Lemma build_packets_42 (data : list Z) :
  length data = 42%nat ->
  exists ps, build_packets data = Ok ps /\
    length ps = 6%nat /\
    Forall (fun p => length p = 8%nat /\ head p = Some 0x06) ps /\
    concat (map tail ps) = data.
Proof.
  intros Hlen.
  do 42 (destruct data as [|? data]; [discriminate Hlen|]).
  destruct data; [|discriminate Hlen].
  eexists. split; [vm_compute; reflexivity|].
  split; [reflexivity|]. split; [|reflexivity].
  repeat constructor.
Qed.

Lemma packets_are_bytes (ps : list (list Z)) :
  Forall (fun p => length p = 8%nat /\ head p = Some 0x06) ps ->
  Forall is_byte (concat (map tail ps)) ->
  Forall (Forall is_byte) ps.
Proof.
  induction ps as [|p ps IH]; intros Hshape Hb; [constructor|].
  apply Forall_cons in Hshape as [[_ Hhd] Hshape].
  cbn [map concat] in Hb. apply Forall_app in Hb as [Hp Hps].
  constructor; [|by apply IH].
  destruct p as [|b p]; [discriminate|]. injection Hhd as ->.
  constructor; [unfold is_byte; lia | exact Hp].
Qed.

(** C6: on a 42-byte input [sendData] builds exactly 6 packets of 8 bytes,
    each starting with 0x06; bytes 1 to 7 of the packets, concatenated in
    order, are the input; and these packets are what is handed to the
    device, in that order, whether or not it accepts them. *)
Theorem sendData_packets_roundtrip (data : list Z) (st : hb04) (d : usb_device) :
  length data = 42%nat ->
  Forall is_byte data ->
  dev st = Some d ->
  exists ps,
    build_packets data = Ok ps /\
    sendData data st = (Ok tt, set_usb_out (usb_out st ++ ps) st) /\
    length ps = 6%nat /\
    Forall (fun p => length p = 8%nat /\ head p = Some 0x06) ps /\
    concat (map tail ps) = data.
Proof.
  intros Hlen Hbytes Hdev.
  destruct (build_packets_42 data Hlen) as (ps & Hb & Hn & Hshape & Hcat).
  exists ps. repeat split; try done.
  unfold sendData. rewrite Hlen. cbn [Nat.sub replicate]. rewrite app_nil_r.
  unfold bind, lift. rewrite Hb.
  apply (send_packets_ok _ _ d Hdev).
  apply packets_are_bytes; [done|]. by rewrite Hcat.
Qed.

Lemma sendData_packets_roundtrip_witness :
  exists ps,
    build_packets (replicate 42 0x5A) = Ok ps /\
    sendData (replicate 42 0x5A) listening
      = (Ok tt, set_usb_out (usb_out listening ++ ps) listening) /\
    length ps = 6%nat /\
    Forall (fun p => length p = 8%nat /\ head p = Some 0x06) ps /\
    concat (map tail ps) = replicate 42 0x5A.
Proof.
  apply (sendData_packets_roundtrip (replicate 42 0x5A) listening
           {| kernel_driver_active := false; accepts := fun _ => true;
              attaches := true |}).
  - reflexivity.
  - apply Forall_replicate. unfold is_byte. lia.
  - reflexivity.
Defined.

(** ** A display refresh changes no setting *)

Lemma same_settings_refl (s : hb04) : same_settings s s.
Proof. by repeat split. Qed.

Lemma same_settings_trans (s1 s2 s3 : hb04) :
  same_settings s1 s2 -> same_settings s2 s3 -> same_settings s1 s3.
Proof. unfold same_settings. intuition congruence. Qed.

Lemma keeps_ret {A} (a : A) : keeps_settings (ret a).
Proof. intros s. apply same_settings_refl. Qed.

Lemma keeps_raise {A} (e : exn) : keeps_settings (@raise A e).
Proof. intros s. apply same_settings_refl. Qed.

Lemma keeps_lift {A} (r : result A) : keeps_settings (lift r).
Proof. intros s. apply same_settings_refl. Qed.

Lemma keeps_gets {A} (f : hb04 -> A) : keeps_settings (gets f).
Proof. intros s. apply same_settings_refl. Qed.

Lemma keeps_bind {A B} (c : M A) (k : A -> M B) :
  keeps_settings c -> (forall a, keeps_settings (k a)) -> keeps_settings (bind c k).
Proof.
  intros Hc Hk s. unfold bind. specialize (Hc s).
  destruct (c s) as [[a|e] s']; cbn in *; [|done].
  eapply same_settings_trans; [exact Hc | apply Hk].
Qed.

Lemma keeps_try {A} (c : M A) (catch : exn -> bool) (h : exn -> M A) :
  keeps_settings c -> (forall e, keeps_settings (h e)) ->
  keeps_settings (try_except c catch h).
Proof.
  intros Hc Hh s. unfold try_except. specialize (Hc s).
  destruct (c s) as [[a|e] s']; cbn in *; [done|].
  destruct (catch e); [|done].
  eapply same_settings_trans; [exact Hc | apply Hh].
Qed.

Lemma keeps_modify (f : hb04 -> hb04) :
  (forall s, same_settings s (f s)) -> keeps_settings (modify f).
Proof. intros Hf s. apply Hf. Qed.

Lemma keeps_if {A} (b : bool) (c1 c2 : M A) :
  keeps_settings c1 -> keeps_settings c2 -> keeps_settings (if b then c1 else c2).
Proof. by destruct b. Qed.

Create HintDb keeps.
#[local] Hint Resolve keeps_ret keeps_raise keeps_lift keeps_gets keeps_bind
  keeps_try keeps_modify keeps_if same_settings_refl : keeps.

Lemma keeps_print (s : string) : keeps_settings (print s).
Proof. apply keeps_modify. intros st. by repeat split. Qed.

Lemma keeps_print_exc (e : option exn) : keeps_settings (print_exc e).
Proof. apply keeps_modify. intros st. by repeat split. Qed.

Lemma keeps_get_dev : keeps_settings get_dev.
Proof.
  unfold get_dev. apply keeps_bind; [auto with keeps|].
  intros [d|]; auto with keeps.
Qed.

Lemma keeps_disconnect : keeps_settings disconnect.
Proof.
  unfold disconnect.
  apply keeps_bind; [apply keeps_modify; intros s; by repeat split|]. intros _.
  apply keeps_bind; [apply keeps_modify; intros s; by repeat split|]. intros _.
  apply keeps_bind; [auto with keeps|]. intros r.
  apply keeps_if; [|auto with keeps].
  apply keeps_try; [|auto with keeps].
  apply keeps_bind; [apply keeps_get_dev|]. intros d.
  apply keeps_bind.
  { unfold is_kernel_driver_active. auto with keeps. }
  intros active. apply keeps_if; [|auto with keeps].
  unfold attach_kernel_driver. apply keeps_if; [|auto with keeps].
  apply keeps_modify. intros s. by repeat split.
Qed.

Lemma keeps_fatal {A} (exc : option exn) (msg : string) :
  keeps_settings (@fatal A exc msg).
Proof.
  unfold fatal, sys_exit.
  apply keeps_bind; [apply keeps_print|]. intros _.
  apply keeps_bind; [apply keeps_print_exc|]. intros _.
  apply keeps_bind; [apply keeps_disconnect|]. intros _.
  apply keeps_raise.
Qed.

Lemma keeps_send_packets (ps : list (list Z)) : keeps_settings (send_packets ps).
Proof.
  induction ps as [|p ps IH]; cbn [send_packets]; [auto with keeps|].
  apply keeps_bind.
  { unfold bytes. auto with keeps. }
  intros _data. apply keeps_bind; [|intros _; exact IH].
  apply keeps_try; [|auto with keeps].
  unfold ctrl_transfer, py_assert.
  apply keeps_bind.
  - apply keeps_bind; [apply keeps_get_dev|]. intros d.
    apply keeps_bind; [|auto with keeps].
    apply keeps_modify. intros s. by repeat split.
  - intros r. auto with keeps.
Qed.

Lemma keeps_sendData (data : list Z) : keeps_settings (sendData data).
Proof.
  unfold sendData. apply keeps_bind; [auto with keeps|].
  intros ps. apply keeps_send_packets.
Qed.

Lemma keeps_axis_attr (n : string) : keeps_settings (axis_attr n).
Proof.
  unfold axis_attr. apply keeps_bind; auto with keeps.
Qed.

Ltac keeps_step :=
  lazymatch goal with
  | |- keeps_settings (bind _ _) => apply keeps_bind; [|intros ?]
  | |- keeps_settings (axis_attr _) => apply keeps_axis_attr
  | |- keeps_settings (sendData _) => apply keeps_sendData
  | |- keeps_settings (lift _) => apply keeps_lift
  | |- keeps_settings (gets _) => apply keeps_gets
  | |- keeps_settings (ret _) => apply keeps_ret
  end.

Lemma keeps_updateDisplay : keeps_settings updateDisplay.
Proof.
  unfold updateDisplay. repeat keeps_step.
Qed.

Lemma keeps_forceDisplayUpdate : keeps_settings forceDisplayUpdate.
Proof.
  unfold forceDisplayUpdate. apply keeps_try; [apply keeps_updateDisplay|].
  intros e. apply keeps_fatal.
Qed.

(** ** axis_value *)

Lemma axis_value_known (axis_name : string) (ax : Axis) (wc mc : option pynum) (st : hb04) :
  axis_list st !! axis_name = Some ax ->
  axis_value axis_name wc mc st =
    forceDisplayUpdate
      (match mc with
       | Some m => set_axis_list (alter (set_machine_coordinate m) axis_name
                                    (axis_list (match wc with
                                                | Some w => set_axis_list (alter (set_work_coordinate w) axis_name (axis_list st)) st
                                                | None => st
                                                end)))
                     (match wc with
                      | Some w => set_axis_list (alter (set_work_coordinate w) axis_name (axis_list st)) st
                      | None => st
                      end)
       | None => match wc with
                 | Some w => set_axis_list (alter (set_work_coordinate w) axis_name (axis_list st)) st
                 | None => st
                 end
       end).
Proof.
  intros Hax.
  cbv [axis_value bind try_except gets]. rewrite Hax.
  destruct wc as [w|], mc as [m|]; reflexivity.
Qed.

Lemma disconnect_returns (st : hb04) :
  exists st1,
    disconnect st = (Ok tt, st1) /\
    running st1 = false /\ disconnecting st1 = true /\
    stdout st1 = stdout st /\ usb_out st1 = usb_out st.
Proof.
  destruct st as [al ic un mu sw re rc ru di d so uo hc].
  destruct re, d as [[[] w []]|]; eexists; (split; [reflexivity|]);
    by repeat split.
Qed.

(** [fatal] prints, disconnects and always ends by raising [SystemExit]. *)
Lemma fatal_raises {A} (exc : option exn) (msg : string) (st : hb04) :
  exists st1,
    fatal (A := A) exc msg st = (Raise (Exn SystemExit "1"), st1) /\
    running st1 = false /\
    stdout st1 = stdout st ++ [Line ("### FATAL: " +:+ msg); Traceback exc] /\
    usb_out st1 = usb_out st.
Proof.
  unfold fatal. unfold bind at 1. unfold print at 1, modify at 1.
  unfold bind at 1. unfold print_exc at 1, modify at 1.
  unfold bind at 1.
  destruct (disconnect_returns
              (set_stdout (stdout (set_stdout (stdout st ++ [Line ("### FATAL: " +:+ msg)]) st)
                           ++ [Traceback exc])
                 (set_stdout (stdout st ++ [Line ("### FATAL: " +:+ msg)]) st)))
    as (st1 & Hd & Hrun & _ & Hout & Husb).
  rewrite Hd. exists st1. split; [reflexivity|].
  split; [exact Hrun|]. split; [|exact Husb].
  rewrite Hout. cbn [stdout set_stdout]. by rewrite <- app_assoc.
Qed.

(** An unknown name: [fatal] is called, but the [SystemExit] it raises is
    caught by the bare [except: pass] around it, and the method goes on to
    the display refresh. *)
Lemma unknown_axis_falls_through (axis_name : string) (wc mc : option pynum) (st : hb04) :
  axis_list st !! axis_name = None ->
  exists st1,
    fatal (A := unit) None ("### Can't find axis " +:+ axis_name) st
      = (Raise (Exn SystemExit "1"), st1) /\
    axis_value axis_name wc mc st = forceDisplayUpdate st1.
Proof.
  intros Hax.
  destruct (fatal_raises (A := unit) None ("### Can't find axis " +:+ axis_name) st)
    as (st1 & Hfat & _).
  exists st1. split; [exact Hfat|].
  cbv [axis_value]. unfold bind at 1. unfold try_except.
  unfold bind at 1. unfold gets at 1. rewrite Hax, Hfat. reflexivity.
Qed.

(** The refresh carries the new value: after setting x's work coordinate
    to 1.5 the first packet sent holds its encoding, 01 00 88 13. *)
Lemma axis_value_refresh_sends_new_value :
  let v := PyFloat (S754_finite false 6755399441055744 (-52)) in
  let r := axis_value "x" (Some v) None listening in
  r.1 = Ok tt /\
  length (usb_out r.2) = 6%nat /\
  head (usb_out r.2) = Some [0x06; 0xFE; 0xFD; 0x0C; 0x01; 0x00; 0x88; 0x13].
Proof. vm_compute. by repeat split. Qed.

(** C7: an unknown axis name on a connected driver.  [fatal] runs (it
    prints and clears the running flag), but its [SystemExit] does not leave
    [axis_value]: the display is refreshed and the call returns normally. *)
Theorem axis_value_unknown_name_returns :
  axis_list listening !! "q" = None /\
  let r := axis_value "q" None None listening in
  r.1 = Ok tt /\
  stdout r.2 = [Line "### FATAL: ### Can't find axis q"; Traceback None] /\
  running r.2 = false /\
  length (usb_out r.2) = 6%nat.
Proof. vm_compute. by repeat split. Qed.

(** ** set_display_attribute *)

Lemma display_attributes_known (attribute : string) :
  attribute ∈ display_attributes ->
  is_Some (units_values !! attribute) \/
  is_Some (icon_values !! attribute) \/
  is_Some (multiplier_values !! attribute).
Proof.
  unfold display_attributes. cbn [keys map fst app units_values_items
    icon_values_items multiplier_values_items].
  rewrite !elem_of_cons, elem_of_nil.
  intros H. repeat (destruct H as [->|H]; [vm_compute; eauto|]).
  destruct H.
Qed.

(** C8: for a name found in none of the three tables,
    [set_display_attribute] does not return: formatting the warning raises
    [NameError], nothing is printed, and the driver object is unchanged. *)
Theorem set_display_attribute_unknown (attribute : string) (st : hb04) :
  units_values !! attribute = None ->
  icon_values !! attribute = None ->
  multiplier_values !! attribute = None ->
  set_display_attribute attribute st
    = (Raise (Exn NameError "name 'value' is not defined"), st).
Proof.
  intros Hu Hi Hm. unfold set_display_attribute.
  destruct (bool_decide (attribute ∈ display_attributes)) eqn:Hin; [|reflexivity].
  apply bool_decide_eq_true in Hin.
  destruct (display_attributes_known _ Hin) as [[x Hx]|[[x Hx]|[x Hx]]]; congruence.
Qed.

Lemma set_display_attribute_unknown_witness :
  set_display_attribute "bogus" listening
    = (Raise (Exn NameError "name 'value' is not defined"), listening).
Proof.
  apply (set_display_attribute_unknown "bogus" listening); reflexivity.
Defined.

(** ** Inbound reports *)

Lemma newUSBEvent_bad_length (h : option handler) (data : list Z) (st : hb04) :
  length data <> 6%nat ->
  newUSBEvent h data st = (Raise (Exn AssertionError ""), st).
Proof.
  intros Hlen. unfold newUSBEvent. unfold bind at 1.
  destruct (Nat.eqb_spec (length data) 6) as [?|_]; [done|]. reflexivity.
Qed.

Lemma newUSBEvent_bad_axis (h : option handler) (d0 d1 d2 d3 d4 d5 : Z) (st : hb04) :
  code2Axis !! d3 = None ->
  newUSBEvent h [d0; d1; d2; d3; d4; d5] st = (Raise (Exn KeyError (pretty d3)), st).
Proof.
  intros Hax. unfold newUSBEvent.
  unfold bind at 1. cbn [length Nat.eqb py_assert ret].
  unfold bind at 1. cbn [getitem lookup list_lookup ret].
  unfold bind at 1. unfold table_lookup at 1. rewrite Hax. reflexivity.
Qed.

Lemma newUSBEvent_bad_button (h : option handler) (d0 d1 d2 d3 d4 d5 : Z) (sw : string) (st : hb04) :
  code2Axis !! d3 = Some sw ->
  code2Button !! d1 = None \/ code2Button !! d2 = None ->
  newUSBEvent h [d0; d1; d2; d3; d4; d5] st = (Ok tt, set_axis_switch sw st).
Proof.
  intros Hax Hb. unfold newUSBEvent.
  unfold bind at 1. cbn [length Nat.eqb py_assert ret].
  unfold bind at 1. cbn [getitem lookup list_lookup ret].
  unfold bind at 1. unfold table_lookup at 1. rewrite Hax. cbn [ret].
  unfold bind at 1. cbn [modify].
  destruct h as [h|]; [|reflexivity].
  unfold try_except.
  unfold bind at 1. cbn [getitem lookup list_lookup ret].
  unfold bind at 1. unfold table_lookup at 1.
  destruct (code2Button !! d1) as [b1|] eqn:H1; [|reflexivity].
  cbn [ret].
  unfold bind at 1. cbn [getitem lookup list_lookup ret].
  unfold bind at 1. unfold table_lookup at 1.
  destruct Hb as [Hb|Hb]; [discriminate|]. rewrite Hb. reflexivity.
Qed.

Lemma newUSBEvent_decoded (h : handler) (d0 d1 d2 d3 d4 d5 : Z) (sw b1 b2 : string) (st : hb04) :
  code2Axis !! d3 = Some sw ->
  code2Button !! d1 = Some b1 ->
  code2Button !! d2 = Some b2 ->
  newUSBEvent (Some h) [d0; d1; d2; d3; d4; d5] st =
    let ev := {| button := b1; button2 := b2; axis := sw; increment := sign_extend d4 |} in
    let r := h ev (set_handler_calls (handler_calls st ++ [ev]) (set_axis_switch sw st)) in
    (Ok tt, r.2).
Proof.
  intros Hax H1 H2. unfold newUSBEvent.
  unfold bind at 1. cbn [length Nat.eqb py_assert ret].
  unfold bind at 1. cbn [getitem lookup list_lookup ret].
  unfold bind at 1. unfold table_lookup at 1. rewrite Hax. cbn [ret].
  unfold bind at 1. cbn [modify].
  unfold try_except.
  unfold bind at 1. cbn [getitem lookup list_lookup ret].
  unfold bind at 1. unfold table_lookup at 1. rewrite H1. cbn [ret].
  unfold bind at 1. cbn [getitem lookup list_lookup ret].
  unfold bind at 1. unfold table_lookup at 1. rewrite H2. cbn [ret].
  unfold bind at 1. cbn [gets axis_switch set_axis_switch].
  unfold bind at 1. cbn [getitem lookup list_lookup ret].
  unfold call_handler, bind, modify. cbn [handler_calls set_axis_switch].
  cbv zeta.
  destruct (h _ _) as [[[]|e] s']; reflexivity.
Qed.

Lemma dispatch_fatal (h : option handler) (data : list Z) (e : exn) (st : hb04) :
  newUSBEvent h data st = (Raise e, st) ->
  let r := receiveUSBEvents_dispatch h data st in
  handler_calls r.2 = handler_calls st /\
  r.1 = Raise (Exn SystemExit "1") /\
  running r.2 = false /\
  stdout r.2 = stdout st
                 ++ [Line "### FATAL: ### Programmer error!!###"; Traceback (Some e)].
Proof.
  intros Hn. cbv zeta. unfold receiveUSBEvents_dispatch, try_except.
  rewrite Hn. cbn [any_exn].
  destruct (keeps_fatal (A := unit) (Some e) "### Programmer error!!###" st)
    as (_ & _ & _ & _ & _ & Hcalls).
  destruct (fatal_raises (A := unit) (Some e) "### Programmer error!!###" st)
    as (st1 & Hf & Hrun & Hout & _).
  rewrite Hf in *. by repeat split.
Qed.

(** C1, as stated, fails: a report with an unmapped axis-switch byte, and a
    report that is not 6 bytes long, both end on the fatal path. *)
Lemma decode_failure_reaches_fatal :
  let h : handler := fun _ => ret tt in
  code2Axis !! 0x33 = None /\
  (let r := receiveUSBEvents_dispatch (Some h) [0x04; 0; 0; 0x33; 0; 0] listening in
   r.1 = Raise (Exn SystemExit "1") /\ running r.2 = false /\
   stdout r.2 = [Line "### FATAL: ### Programmer error!!###";
                 Traceback (Some (Exn KeyError "51"))]) /\
  (let r := receiveUSBEvents_dispatch (Some h) [0x04; 0; 0; 0x11; 0] listening in
   r.1 = Raise (Exn SystemExit "1") /\ running r.2 = false /\
   stdout r.2 = [Line "### FATAL: ### Programmer error!!###";
                 Traceback (Some (Exn AssertionError ""))]).
Proof. vm_compute. by repeat split. Qed.

(** C1, amended: a report whose length is not 6, or whose axis-switch,
    button1 or button2 byte has no entry in its table, never reaches the
    handler.  When the length is not 6 or the axis-switch byte is unmapped,
    the error leaves [newUSBEvent] and the receive loop takes the fatal
    path.  Otherwise (an unmapped button byte) the event is dropped and
    nothing is propagated: only the switch position is recorded. *)
Theorem decode_failure_outcome (h : option handler) (data : list Z) (st : hb04) :
  (length data <> 6%nat \/
   (exists b, data !! 3%nat = Some b /\ code2Axis !! b = None) \/
   (exists b, (data !! 1%nat = Some b \/ data !! 2%nat = Some b) /\
              code2Button !! b = None)) ->
  let r := receiveUSBEvents_dispatch h data st in
  handler_calls r.2 = handler_calls st /\
  ((length data <> 6%nat \/
    (exists b, data !! 3%nat = Some b /\ code2Axis !! b = None)) ->
   r.1 = Raise (Exn SystemExit "1") /\ running r.2 = false /\
   exists e, stdout r.2 = stdout st
               ++ [Line "### FATAL: ### Programmer error!!###"; Traceback (Some e)]) /\
  (forall b sw, length data = 6%nat ->
     data !! 3%nat = Some b -> code2Axis !! b = Some sw ->
     r = (Ok tt, set_axis_switch sw st)).
Proof.
  intros Hfail. cbv zeta.
  destruct (decide (length data = 6%nat)) as [Hlen|Hlen].
  - do 6 (destruct data as [|? data]; [discriminate Hlen|]).
    destruct data; [|discriminate Hlen].
    rename z into d0, z0 into d1, z1 into d2, z2 into d3, z3 into d4, z4 into d5.
    destruct (code2Axis !! d3) as [sw|] eqn:Hax.
    + assert (Hb : code2Button !! d1 = None \/ code2Button !! d2 = None).
      { destruct Hfail as [Hf|[(b & Hb & Hn)|(b & [Hb|Hb] & Hn)]].
        - done.
        - cbn in Hb. injection Hb as <-. congruence.
        - cbn in Hb. injection Hb as <-. by left.
        - cbn in Hb. injection Hb as <-. by right. }
      assert (Hr : receiveUSBEvents_dispatch h [d0; d1; d2; d3; d4; d5] st
                   = (Ok tt, set_axis_switch sw st)).
      { unfold receiveUSBEvents_dispatch, try_except.
        by rewrite (newUSBEvent_bad_button h d0 d1 d2 d3 d4 d5 sw st Hax Hb). }
      rewrite Hr. split; [reflexivity|]. split.
      * intros [Hf|(b & Hb' & Hn)]; [done|].
        cbn in Hb'. injection Hb' as <-. congruence.
      * intros b sw' _ Hb' Hsw. cbn in Hb'. injection Hb' as <-. congruence.
    + pose proof (dispatch_fatal h _ _ st (newUSBEvent_bad_axis h d0 d1 d2 d3 d4 d5 st Hax))
        as (Hc & Hr & Hrun & Hout).
      split; [exact Hc|]. split.
      * intros _. split; [exact Hr|]. split; [exact Hrun|]. eexists. exact Hout.
      * intros b sw _ Hb' Hsw. cbn in Hb'. injection Hb' as <-. congruence.
  - pose proof (dispatch_fatal h _ _ st (newUSBEvent_bad_length h data st Hlen))
      as (Hc & Hr & Hrun & Hout).
    split; [exact Hc|]. split.
    + intros _. split; [exact Hr|]. split; [exact Hrun|]. eexists. exact Hout.
    + intros b sw Hl. done.
Qed.

Lemma decode_failure_outcome_witness :
  let h : option handler := Some (fun _ => ret tt) in
  let data := [0x04; 0x55; 0; 0x11; 0; 0] in
  let r := receiveUSBEvents_dispatch h data listening in
  handler_calls r.2 = handler_calls listening /\
  ((length data <> 6%nat \/
    (exists b, data !! 3%nat = Some b /\ code2Axis !! b = None)) ->
   r.1 = Raise (Exn SystemExit "1") /\ running r.2 = false /\
   exists e, stdout r.2 = stdout listening
               ++ [Line "### FATAL: ### Programmer error!!###"; Traceback (Some e)]) /\
  (forall b sw, length data = 6%nat ->
     data !! 3%nat = Some b -> code2Axis !! b = Some sw ->
     r = (Ok tt, set_axis_switch sw listening)).
Proof.
  intros h data.
  apply (decode_failure_outcome h data listening).
  right; right. exists 0x55. split; [left|]; reflexivity.
Defined.

(** C2, as stated, fails: a handler that raises on a well-formed report is
    called once, and the dispatch returns normally; nothing is printed and
    the running flag stays set. *)
Lemma handler_exception_not_fatal :
  let h : handler := fun _ => raise (Exn RuntimeError "handler failed") in
  let r := receiveUSBEvents_dispatch (Some h) [0x04; 0x01; 0; 0x11; 0x01; 0x01] listening in
  r.1 = Ok tt /\ stdout r.2 = [] /\ running r.2 = true /\
  handler_calls r.2 =
    [{| button := "go-zero"; button2 := ""; axis := "x"; increment := 1 |}].
Proof. vm_compute. by repeat split. Qed.

(** C2, amended: when the handler raises on a successfully decoded 6-byte
    report, the exception (whatever it is) is caught inside [newUSBEvent]
    and discarded: the dispatch returns normally with the driver object as
    the handler left it, and the fatal path is not taken. *)
Theorem handler_exception_is_discarded
    (h : handler) (d0 d1 d2 d3 d4 d5 : Z) (sw b1 b2 : string)
    (st st' : hb04) (e : exn) :
  code2Axis !! d3 = Some sw ->
  code2Button !! d1 = Some b1 ->
  code2Button !! d2 = Some b2 ->
  (let ev := {| button := b1; button2 := b2; axis := sw;
                increment := sign_extend d4 |} in
   h ev (set_handler_calls (handler_calls st ++ [ev]) (set_axis_switch sw st))
     = (Raise e, st')) ->
  receiveUSBEvents_dispatch (Some h) [d0; d1; d2; d3; d4; d5] st = (Ok tt, st').
Proof.
  intros Hax H1 H2 Hh. cbv zeta in Hh.
  unfold receiveUSBEvents_dispatch, try_except.
  rewrite (newUSBEvent_decoded h d0 d1 d2 d3 d4 d5 sw b1 b2 st Hax H1 H2).
  cbv zeta. by rewrite Hh.
Qed.

Lemma handler_exception_is_discarded_witness :
  let h : handler := fun _ => raise (Exn RuntimeError "handler failed") in
  let ev := {| button := "go-zero"; button2 := ""; axis := "x"; increment := 1 |} in
  receiveUSBEvents_dispatch (Some h) [0x04; 0x01; 0; 0x11; 0x01; 0x01] listening
    = (Ok tt, set_handler_calls [ev] (set_axis_switch "x" listening)).
Proof.
  intros h ev.
  apply (handler_exception_is_discarded h 0x04 0x01 0 0x11 0x01 0x01
           "x" "go-zero" "" listening _ (Exn RuntimeError "handler failed"));
    reflexivity.
Defined.

(** ** The integer encoder *)

Lemma limit_num_integer (self : Axis) (v : pynum) (n : Z) :
  integerAxis self = true ->
  py_int v = Ok n ->
  limit_num self v = Ok (PyInt (Z.min (Z.max n 0) 0xFFFF)).
Proof.
  intros Hint Hv. unfold limit_num. rewrite Hint, Hv. cbn [rbind].
  unfold py_gt, py_lt, py_compare, py_neg.
  destruct (Z.ltb_spec n 0).
  - cbn. do 2 f_equal. lia.
  - repeat match goal with
           | |- context [?a ?= ?b] => destruct (Z.compare_spec a b)
           end; do 2 f_equal; lia.
Qed.

(** Below 32768 the clamped value is encoded, low byte first. *)
Lemma encode_s16_in_range (self : Axis) (v : pynum) (n : Z) :
  integerAxis self = true ->
  py_int v = Ok n ->
  n < 32768 ->
  encode_s16 self v = Ok [Z.max n 0 mod 256; Z.max n 0 / 256 mod 256].
Proof.
  intros Hint Hv Hn. unfold encode_s16.
  rewrite (limit_num_integer self v n Hint Hv). cbn [rbind py_int].
  replace (Z.min (Z.max n 0) 0xFFFF) with (Z.max n 0) by lia.
  unfold to_bytes. change (256 ^ Z.of_nat 2) with 65536.
  change (65536 / 2) with 32768.
  repeat match goal with
         | |- context [?a <=? ?b] => destruct (Z.leb_spec a b); [|lia]
         | |- context [?a <? ?b] => destruct (Z.ltb_spec a b); [|lia]
         end.
  cbn [andb le_bytes]. rewrite (Z.mod_small (Z.max n 0) 65536) by lia.
  reflexivity.
Qed.

(** C5: an integer axis clamps to [0, 65535], but the signed 2-byte field
    holds at most 32767: for every input whose integer value is 32768 or
    more, [encode_s16] raises [OverflowError] instead of returning bytes. *)
Theorem encode_s16_overflows (self : Axis) (v : pynum) (n : Z) :
  integerAxis self = true ->
  py_int v = Ok n ->
  32768 <= n ->
  encode_s16 self v = Raise (Exn OverflowError "int too big to convert").
Proof.
  intros Hint Hv Hn. unfold encode_s16.
  rewrite (limit_num_integer self v n Hint Hv). cbn [rbind py_int].
  unfold to_bytes. change (256 ^ Z.of_nat 2) with 65536.
  change (65536 / 2) with 32768.
  destruct (Z.ltb_spec (Z.min (Z.max n 0) 0xFFFF) 32768); [lia|].
  by rewrite andb_false_r.
Qed.

Lemma encode_s16_overflows_witness :
  encode_s16 (new_Axis "feed" true) (PyInt 40000)
    = Raise (Exn OverflowError "int too big to convert").
Proof.
  apply (encode_s16_overflows (new_Axis "feed" true) (PyInt 40000) 40000);
    [reflexivity | reflexivity | lia].
Defined.

(** ** The fixed-point encoder *)

(** C4: [encode_float] does not clamp.  At 10000.0 it encodes 10000 and 0,
    not the fields of 9999.9999, although [limit_num] on the same axis
    would have clamped the value to 9999.9999. *)
Theorem encode_float_does_not_saturate :
  let x := new_Axis "x" false in
  encode_float x (PyFloat f10000) = Ok [0x10; 0x27; 0x00; 0x00] /\
  encode_float x (PyFloat f9999_9999) = Ok [0x0F; 0x27; 0x0F; 0x27] /\
  limit_num x (PyFloat f10000) = Ok (PyFloat f9999_9999).
Proof. vm_compute. by repeat split. Qed.

(** * The arithmetic of [encode_float] *)

(** ** Binary digits *)

Lemma Zdigits2_bounds (p : positive) :
  2 ^ (Zdigits2 (Z.pos p) - 1) <= Z.pos p < 2 ^ Zdigits2 (Z.pos p).
Proof.
  cbn [Zdigits2]. induction p as [p IH|p IH|]; cbn [digits2_pos].
  - rewrite Pos2Z.inj_succ. replace (Z.succ (Z.pos (digits2_pos p)) - 1)
      with (Z.succ (Z.pos (digits2_pos p) - 1)) by lia.
    rewrite !Z.pow_succ_r by lia. lia.
  - rewrite Pos2Z.inj_succ. replace (Z.succ (Z.pos (digits2_pos p)) - 1)
      with (Z.succ (Z.pos (digits2_pos p) - 1)) by lia.
    rewrite !Z.pow_succ_r by lia. lia.
  - cbn. lia.
Qed.

Lemma Zdigits2_pos (m : Z) : 0 < m -> 0 < Zdigits2 m.
Proof. destruct m; cbn; lia. Qed.

Lemma Zdigits2_bounds_Z (m : Z) :
  0 < m -> 2 ^ (Zdigits2 m - 1) <= m < 2 ^ Zdigits2 m.
Proof. destruct m as [|p|p]; try lia. intros _. apply Zdigits2_bounds. Qed.

Lemma Zdigits2_le (m k : Z) : 0 < m -> m < 2 ^ k -> Zdigits2 m <= k.
Proof.
  intros Hm Hk. pose proof (Zdigits2_bounds_Z m Hm) as [Hlo _].
  pose proof (Zdigits2_pos m Hm).
  destruct (Z.le_gt_cases (Zdigits2 m) k) as [|Hgt]; [done|].
  assert (0 <= k).
  { destruct (Z.lt_ge_cases k 0); [|done]. rewrite Z.pow_neg_r in Hk by lia. lia. }
  assert (2 ^ k <= 2 ^ (Zdigits2 m - 1)) by (apply Z.pow_le_mono_r; lia).
  lia.
Qed.

Lemma Zdigits2_ge (m k : Z) : 0 <= k -> 2 ^ k <= m -> k < Zdigits2 m.
Proof.
  intros Hk Hm. assert (0 < m) by (pose proof (Z.pow_pos_nonneg 2 k); lia).
  pose proof (Zdigits2_bounds_Z m H) as [_ Hhi].
  pose proof (Zdigits2_pos m H).
  destruct (Z.lt_ge_cases k (Zdigits2 m)) as [|Hge]; [done|].
  assert (2 ^ Zdigits2 m <= 2 ^ k) by (apply Z.pow_le_mono_r; lia).
  lia.
Qed.

(** ** Nearest-even rounding of a quotient *)

Lemma round_half_even_bounds (n d : Z) :
  0 < d ->
  n / d <= round_half_even n d <= n / d + 1 /\
  2 * n - d <= 2 * d * round_half_even n d <= 2 * n + d.
Proof.
  intros Hd. unfold round_half_even.
  pose proof (Z.div_mod n d ltac:(lia)) as Hdm.
  pose proof (Z.mod_pos_bound n d Hd) as Hr.
  destruct (Z.compare_spec (2 * (n mod d)) d); [destruct (Z.even _)|..]; nia.
Qed.

Lemma round_half_even_le (n d c : Z) :
  0 < d -> n <= c * d -> round_half_even n d <= c.
Proof.
  intros Hd Hn. unfold round_half_even.
  pose proof (Z.div_mod n d ltac:(lia)) as Hdm.
  pose proof (Z.mod_pos_bound n d Hd) as Hr.
  assert (n / d <= c) by nia.
  assert (n / d = c -> n mod d = 0) by nia.
  destruct (Z.compare_spec (2 * (n mod d)) d); [destruct (Z.even _)|..]; nia.
Qed.

Lemma round_half_even_ge (n d c : Z) :
  0 < d -> c * d <= n -> c <= round_half_even n d.
Proof.
  intros Hd Hn. pose proof (round_half_even_bounds n d Hd) as [[Hlo _] _].
  assert (c <= n / d) by (apply Z.div_le_lower_bound; lia). lia.
Qed.

Lemma round_half_even_scale (n d : Z) :
  0 < d -> round_half_even (2 * n) (2 * d) = round_half_even n d.
Proof.
  intros Hd. unfold round_half_even.
  rewrite Z.div_mul_cancel_l by lia.
  rewrite Zmult_mod_distr_l.
  replace (2 * (2 * (n mod d)) ?= 2 * d) with (2 * (n mod d) ?= d); [done|].
  destruct (Z.compare_spec (2 * (n mod d)) d);
    destruct (Z.compare_spec (2 * (2 * (n mod d))) (2 * d)); try reflexivity; lia.
Qed.

(** ** Right shifts with sticky bits *)

Lemma rec_rep_of_loc (m : Z) (l : location) (n d : Z) :
  loc_rep m l n d -> rec_rep (shr_record_of_loc m l) n d.
Proof. unfold rec_rep. by destruct l as [|[]]. Qed.

Lemma shr_1_m (r : shr_record) : 0 <= shr_m r -> shr_m (shr_1 r) = shr_m r / 2.
Proof.
  destruct r as [m r s]. cbn [shr_m]. intros Hm.
  destruct m as [|[p|p|]|]; cbn [shr_1 shr_m];
    first [ reflexivity
          | rewrite Pos2Z.inj_xI; apply (Z.div_unique_pos _ _ _ 1); lia
          | rewrite Pos2Z.inj_xO; apply (Z.div_unique_pos _ _ _ 0); lia
          | lia ].
Qed.

Lemma shr_1_r (r : shr_record) : 0 <= shr_m r -> shr_r (shr_1 r) = Z.odd (shr_m r).
Proof. destruct r as [m r s]. cbn [shr_m]. by destruct m as [|[p|p|]|]. Qed.

Lemma shr_1_s (r : shr_record) : shr_s (shr_1 r) = shr_r r || shr_s r.
Proof. destruct r as [m r s]. by destruct m as [|[p|p|]|[p|p|]]. Qed.

Lemma rec_rep_sticky (r : shr_record) (n d : Z) :
  rec_rep r n d -> (shr_r r || shr_s r = false <-> n mod d = 0).
Proof.
  destruct r as [m [] []]; unfold rec_rep, loc_rep; cbn; intuition congruence.
Qed.

Lemma shr_1_rep (r : shr_record) (n d : Z) :
  0 <= n -> 0 < d -> rec_rep r n d -> rec_rep (shr_1 r) n (2 * d).
Proof.
  intros Hn Hd Hrep. pose proof (rec_rep_sticky r n d Hrep) as Hst.
  destruct Hrep as [Hm _].
  assert (Hm0 : 0 <= shr_m r) by (rewrite Hm; apply Z.div_pos; lia).
  pose proof (shr_1_m r Hm0) as Hm1. pose proof (shr_1_r r Hm0) as Hr1.
  pose proof (shr_1_s r) as Hs1.
  pose proof (Z.mod_pos_bound n d Hd) as Hrd.
  assert (Hdiv : n / (2 * d) = shr_m r / 2).
  { rewrite Hm, Z.div_div by lia. f_equal. lia. }
  assert (Hmod : n mod (2 * d) = n mod d + d * (shr_m r mod 2)).
  { rewrite Hm, (Z.mul_comm 2 d). apply Z.rem_mul_r; lia. }
  destruct (shr_1 r) as [m1 r1 s1]. cbn [shr_m shr_r shr_s] in *.
  unfold rec_rep, loc_rep. cbn [shr_m loc_of_shr_record].
  split; [congruence|].
  rewrite Hmod. rewrite Zmod_odd, <- Hr1.
  destruct r1.
  - (* odd: the remainder is at least one half *)
    destruct s1; rewrite <- Hs1 in Hst.
    + assert (n mod d <> 0) by (intros E; apply Hst in E; discriminate).
      split; [lia|]. apply Z.compare_gt_iff. lia.
    + assert (n mod d = 0) by (by apply Hst).
      split; [lia|]. apply Z.compare_eq_iff. lia.
  - destruct s1; rewrite <- Hs1 in Hst.
    + assert (n mod d <> 0) by (intros E; apply Hst in E; discriminate).
      split; [lia|]. apply Z.compare_lt_iff. lia.
    + assert (n mod d = 0) by (by apply Hst). lia.
Qed.

Lemma iter_shr_1_rep (p : positive) (r : shr_record) (n d : Z) :
  0 <= n -> 0 < d -> rec_rep r n d ->
  rec_rep (SpecFloat.iter_pos shr_1 p r) n (d * 2 ^ Z.pos p).
Proof.
  intros Hn. revert r d.
  induction p as [p IH|p IH|]; intros r d Hd Hrep; cbn [SpecFloat.iter_pos].
  - apply (shr_1_rep _ _ _ Hn Hd) in Hrep.
    apply (IH _ (2 * d)) in Hrep; [|lia].
    apply (IH _ (2 * d * 2 ^ Z.pos p)) in Hrep; [|nia].
    replace (d * 2 ^ Z.pos p~1) with (2 * d * 2 ^ Z.pos p * 2 ^ Z.pos p); [done|].
    replace (Z.pos p~1) with (Z.pos p + Z.pos p + 1) by lia.
    rewrite !Z.pow_add_r by lia. ring.
  - apply (IH _ d) in Hrep; [|lia].
    apply (IH _ (d * 2 ^ Z.pos p)) in Hrep; [|nia].
    replace (d * 2 ^ Z.pos p~0) with (d * 2 ^ Z.pos p * 2 ^ Z.pos p); [done|].
    replace (Z.pos p~0) with (Z.pos p + Z.pos p) by lia.
    rewrite !Z.pow_add_r by lia. ring.
  - apply (shr_1_rep _ _ _ Hn Hd) in Hrep.
    replace (d * 2 ^ 1) with (2 * d) by lia. done.
Qed.

Lemma round_nearest_even_rep (r : shr_record) (n d : Z) :
  0 < d -> rec_rep r n d ->
  round_nearest_even (shr_m r) (loc_of_shr_record r) = round_half_even n d.
Proof.
  intros Hd [Hm Hl]. unfold round_half_even. rewrite <- Hm.
  destruct (loc_of_shr_record r) as [|c]; cbn [round_nearest_even].
  - rewrite Hl. destruct (Z.compare_spec (2 * 0) d); lia.
  - destruct Hl as [_ ->]. by destruct c.
Qed.

(** The first shift of [binary_round_aux], then the rounding. *)
Lemma shr_round (m e : Z) (l : location) (n d sh : Z) :
  0 <= n -> 0 < d -> loc_rep m l n d ->
  let '(mrs, e') := shr (shr_record_of_loc m l) e sh in
  round_nearest_even (shr_m mrs) (loc_of_shr_record mrs)
    = round_half_even n (d * 2 ^ Z.max sh 0) /\
  e' = e + Z.max sh 0.
Proof.
  intros Hn Hd Hrep. apply rec_rep_of_loc in Hrep.
  destruct sh as [|p|p]; cbn [shr].
  - rewrite Z.mul_1_r, Z.add_0_r. split; [|done].
    by apply round_nearest_even_rep.
  - rewrite Z.max_l by lia. split; [|done].
    apply round_nearest_even_rep; [nia|]. by apply iter_shr_1_rep.
  - rewrite Z.max_r by lia. rewrite Z.mul_1_r, Z.add_0_r. split; [|done].
    by apply round_nearest_even_rep.
Qed.

Lemma fexp_binary64 (x : Z) : fexp 53 1024 x = Z.max (x - 53) (-1074).
Proof. reflexivity. Qed.

Lemma shr_nonpos (r : shr_record) (e x : Z) : x <= 0 -> shr r e x = (r, e).
Proof. destruct x; [done|lia|done]. Qed.

(** [binary_round_aux] rounds the rational it is given to nearest-even at
    the exponent the format asks for. *)
Lemma binary_round_aux_spec (s : bool) (m e : Z) (l : location) (n d : Z) :
  0 <= n -> 0 < d -> loc_rep m l n d ->
  let sh := fexp 53 1024 (Zdigits2 m + e) - e in
  l = loc_Exact \/ 0 <= sh ->
  binary_round_aux 53 1024 s m e l
    = pack s (round_half_even n (d * 2 ^ Z.max sh 0)) (e + Z.max sh 0) /\
  0 <= round_half_even n (d * 2 ^ Z.max sh 0) <= 2 ^ 53.
Proof.
  intros Hn Hd Hrep sh Hsh.
  unfold binary_round_aux, shr_fexp. fold sh.
  pose proof (shr_round m e l n d sh Hn Hd Hrep) as Hfirst.
  destruct (shr (shr_record_of_loc m l) e sh) as [mrs e'].
  destruct Hfirst as [-> ->].
  set (k := Z.max sh 0). set (e1 := e + k).
  assert (Hk : 0 <= k) by lia.
  assert (Hpk : 0 < 2 ^ k) by (apply Z.pow_pos_nonneg; lia).
  assert (Hdk : 0 < d * 2 ^ k) by nia.
  set (m1 := round_half_even n (d * 2 ^ k)).
  assert (Hm1lo : 0 <= m1) by (apply round_half_even_ge; lia).
  assert (He1 : -1074 <= e1).
  { subst e1 k sh. rewrite fexp_binary64 in *. lia. }
  assert (Hm1hi : m1 <= 2 ^ 53).
  { apply round_half_even_le; [done|].
    destruct Hrep as [Hm Hl].
    pose proof (Z.div_mod n d ltac:(lia)) as Hdm.
    pose proof (Z.mod_pos_bound n d Hd) as Hr.
    assert (Hm0 : 0 <= m) by (rewrite Hm; apply Z.div_pos; lia).
    assert (Hmk : m + 1 <= 2 ^ 53 * 2 ^ k).
    { destruct (Z.eq_dec m 0) as [->|Hne].
      - assert (1 <= 2 ^ 53 * 2 ^ k) by nia. lia.
      - pose proof (Zdigits2_bounds_Z m ltac:(lia)) as [_ Hhi].
        assert (Zdigits2 m <= 53 + k).
        { subst k sh. rewrite fexp_binary64 in *.
          pose proof (Zdigits2_pos m ltac:(lia)).
          destruct Hsh as [->|Hsh]; lia. }
        assert (2 ^ Zdigits2 m <= 2 ^ (53 + k)) by (apply Z.pow_le_mono_r; lia).
        rewrite Z.pow_add_r in * by lia. lia. }
    rewrite <- Hm in Hdm. nia. }
  split; [|done].
  destruct (Z.eq_dec m1 0) as [Hz|Hnz].
  - (* the rounded mantissa is zero *)
    rewrite Hz. unfold pack; cbn [Z.eqb].
    rewrite shr_nonpos; [reflexivity|].
    cbn [Zdigits2]. rewrite fexp_binary64. lia.
  - destruct (Z.eq_dec m1 (2 ^ 53)) as [Hc|Hnc].
    + (* a carry: 2^53 is renormalised to 2^52 one exponent up *)
      rewrite Hc. unfold pack.
      change (2 ^ 53 =? 0) with false. rewrite Z.eqb_refl. cbv iota.
      change (Zdigits2 (2 ^ 53)) with 54. rewrite fexp_binary64.
      replace (Z.max (54 + e1 - 53) (-1074) - e1) with 1 by lia.
      reflexivity.
    + unfold pack.
      destruct (Z.eqb_spec m1 0); [done|]. destruct (Z.eqb_spec m1 (2 ^ 53)); [done|].
      rewrite shr_nonpos.
      * cbn [shr_m shr_record_of_loc].
        destruct m1 as [|p|p]; [done| |lia]. reflexivity.
      * rewrite fexp_binary64.
        assert (Zdigits2 m1 <= 53) by (apply Zdigits2_le; lia). lia.
Qed.

(** ** The product with 10000.0 *)

Lemma mul_10000_spec (ma : positive) (ea : Z) :
  let M := Z.pos ma * 5497558138880000 in
  let E := ea - 39 in
  let sh := fexp 53 1024 (Zdigits2 M + E) - E in
  binary64_mul (S754_finite false ma ea) f10000
    = pack false (round_half_even M (2 ^ Z.max sh 0)) (E + Z.max sh 0) /\
  0 <= round_half_even M (2 ^ Z.max sh 0) <= 2 ^ 53.
Proof.
  intros M E sh. unfold binary64_mul, f10000, SFmul. cbn [xorb].
  rewrite Pos2Z.inj_mul. change (ea + -39) with E. fold M.
  destruct (binary_round_aux_spec false M E loc_Exact M 1) as [-> Hb]; try lia.
  - split; [by rewrite Z.div_1_r | by rewrite Z.mod_1_r].
  - by left.
  - fold sh in Hb |- *. by rewrite Z.mul_1_l in *.
Qed.

Lemma is_finite_pack (s : bool) (m e : Z) :
  e + 1 <= 971 -> is_finite (pack s m e) = true.
Proof.
  intros He. unfold pack.
  destruct (m =? 0); [done|]. destruct (m =? 2 ^ 53).
  - destruct (Z.leb_spec (e + 1) 971); [done|lia].
  - destruct (Z.leb_spec e 971); [done|lia].
Qed.

Lemma round_half_even_0 (d : Z) : 0 < d -> round_half_even 0 d = 0.
Proof.
  intros Hd. unfold round_half_even. rewrite Z.div_0_l, Z.mod_0_l by lia.
  destruct (Z.compare_spec (2 * 0) d); lia.
Qed.

(** [round] of a rounded product below one. *)
Lemma py_round_pack (m e : Z) :
  0 <= m -> e < -1 ->
  py_round (PyFloat (pack false m e)) = Ok (round_half_even m (2 ^ (- e))).
Proof.
  intros Hm He. unfold pack.
  assert (Hp : 0 < 2 ^ (- e)) by (apply Z.pow_pos_nonneg; lia).
  destruct (Z.eqb_spec m 0) as [->|Hnz].
  { cbn [py_round]. by rewrite round_half_even_0. }
  destruct (Z.eqb_spec m (2 ^ 53)) as [->|Hnc].
  - destruct (Z.leb_spec (e + 1) 971); [|lia].
    cbn [py_round cond_neg]. unfold round_half_even_mag.
    destruct (Z.leb_spec 0 (e + 1)); [lia|].
    rewrite Z2Pos.id by done.
    replace (2 ^ (- e)) with (2 * 2 ^ (- (e + 1))).
    + change (2 ^ 53) with (2 * 2 ^ 52).
      rewrite round_half_even_scale; [done|]. apply Z.pow_pos_nonneg; lia.
    + rewrite <- Z.pow_succ_r by lia. f_equal. lia.
  - destruct (Z.leb_spec e 971); [|lia].
    cbn [py_round cond_neg]. unfold round_half_even_mag.
    destruct (Z.leb_spec 0 e); [lia|].
    rewrite Z2Pos.id by lia. reflexivity.
Qed.

(** [round] of any finite rounded product: an integer of at most 1024 bits. *)
Lemma py_round_pack_bounded (m e : Z) :
  0 <= m <= 2 ^ 53 ->
  is_finite (pack false m e) = true ->
  exists iv, py_round (PyFloat (pack false m e)) = Ok iv /\ 0 <= iv <= 2 ^ 1024.
Proof.
  intros Hm. unfold pack.
  assert (Hmag : forall p x, Z.pos p <= 2 ^ 53 -> x <= 971 ->
            0 <= round_half_even_mag p x <= 2 ^ 1024).
  { intros p x Hp Hx. unfold round_half_even_mag.
    destruct (Z.leb_spec 0 x).
    - assert (2 ^ x <= 2 ^ 971) by (apply Z.pow_le_mono_r; lia).
      assert (0 < 2 ^ x) by (apply Z.pow_pos_nonneg; lia).
      change (2 ^ 1024) with (2 ^ 53 * 2 ^ 971). nia.
    - assert (0 < 2 ^ (- x)) by (apply Z.pow_pos_nonneg; lia).
      pose proof (round_half_even_bounds (Z.pos p) (2 ^ (- x)) ltac:(lia)) as [[Hlo Hhi] _].
      assert (0 <= Z.pos p / 2 ^ (- x) <= Z.pos p).
      { split; [apply Z.div_pos; lia|]. apply Z.div_le_upper_bound; nia. }
      assert (2 ^ 53 + 1 <= 2 ^ 1024) by (vm_compute; discriminate).
      lia. }
  destruct (Z.eqb_spec m 0) as [->|Hnz].
  { intros _. exists 0. cbn [py_round]. split; [done|]. split; [lia|]. by vm_compute. }
  destruct (Z.eqb_spec m (2 ^ 53)) as [->|Hnc].
  - destruct (Z.leb_spec (e + 1) 971); [|discriminate]. intros _.
    eexists. cbn [py_round cond_neg]. split; [reflexivity|].
    apply Hmag; [|done]. by vm_compute.
  - destruct (Z.leb_spec e 971); [|discriminate]. intros _.
    eexists. cbn [py_round cond_neg]. split; [reflexivity|].
    apply Hmag; [|done]. rewrite Z2Pos.id by lia. lia.
Qed.

(** ** The true division by 10000 *)

Lemma new_location_10000 (n : Z) :
  loc_rep (n / 10000) (new_location 10000 (n mod 10000)) n 10000.
Proof.
  unfold new_location. change (Z.even 10000) with true. cbv iota.
  unfold new_location_even, loc_rep. split; [done|].
  destruct (Z.eqb_spec (n mod 10000) 0); [done|]. by split.
Qed.

Lemma div_10000_spec (a : positive) :
  let e' := Z.min (Zdigits2 (Z.pos a) - 67) 0 in
  let m' := Z.pos a * 2 ^ (- e') in
  let sh := Zdigits2 (m' / 10000) - 53 in
  binary64_div (S754_finite false a 0) (S754_finite false 10000 0)
    = pack false (round_half_even m' (10000 * 2 ^ sh)) (e' + sh) /\
  0 <= sh /\ 2 ^ 66 <= m'.
Proof.
  intros e' m' sh.
  pose proof (Zdigits2_bounds a) as [Hlo Hhi].
  pose proof (Zdigits2_pos (Z.pos a) ltac:(lia)) as Hd1.
  set (d1 := Zdigits2 (Z.pos a)) in *.
  assert (He' : e' <= 0) by (subst e'; lia).
  assert (Hp : 0 < 2 ^ (- e')) by (apply Z.pow_pos_nonneg; lia).
  assert (Hm' : 2 ^ 66 <= m').
  { subst m' e'. destruct (Z.le_gt_cases d1 67).
    - rewrite Z.min_l by lia.
      replace (2 ^ 66) with (2 ^ (d1 - 1) * 2 ^ (- (d1 - 67))).
      + apply Z.mul_le_mono_nonneg_r; lia.
      + rewrite <- Z.pow_add_r by lia. f_equal. lia.
    - rewrite Z.min_r by lia. change (2 ^ (- 0)) with 1.
      assert (2 ^ 66 <= 2 ^ (d1 - 1)) by (apply Z.pow_le_mono_r; lia). lia. }
  assert (Hq : 2 ^ 52 <= m' / 10000).
  { apply Z.div_le_lower_bound; [lia|].
    assert (10000 * 2 ^ 52 <= 2 ^ 66) by (vm_compute; discriminate). lia. }
  assert (Hsh : 0 <= sh).
  { subst sh. pose proof (Zdigits2_ge (m' / 10000) 52 ltac:(lia) Hq). lia. }
  split; [|done].
  unfold binary64_div, SFdiv, SFdiv_core_binary. cbn [xorb].
  change (Zdigits2 10000) with 14. fold d1.
  rewrite fexp_binary64.
  replace (Z.min (Z.max (d1 + 0 - (14 + 0) - 53) (-1074)) (0 - 0)) with e'
    by (subst e'; lia).
  replace (match 0 - 0 - e' with
           | 0 => Z.pos a
           | Z.pos _ => Z.shiftl (Z.pos a) (0 - 0 - e')
           | Z.neg _ => 0
           end) with m'.
  2:{ subst m'. replace (0 - 0 - e') with (- e') by lia.
      destruct (- e') as [|p|p] eqn:E; [lia| |lia].
      by rewrite Z.shiftl_mul_pow2. }
  assert (Hde : Z.div_eucl m' 10000 = (m' / 10000, m' mod 10000)).
  { unfold Z.div, Z.modulo. by destruct (Z.div_eucl m' 10000). }
  rewrite Hde.
  destruct (binary_round_aux_spec false (m' / 10000) e'
              (new_location 10000 (m' mod 10000)) m' 10000) as [-> _];
    [lia|lia|apply new_location_10000| |].
  - right. rewrite fexp_binary64. subst sh e'. lia.
  - rewrite fexp_binary64.
    replace (Z.max (Z.max (Zdigits2 (m' / 10000) + e' - 53) (-1074) - e') 0) with sh.
    + reflexivity.
    + subst sh e'. lia.
Qed.

Lemma py_int_finite (q : spec_float) :
  is_finite q = true -> exists ip, py_int (PyFloat q) = Ok ip.
Proof. destruct q; try discriminate; intros _; eexists; reflexivity. Qed.

Lemma int_truediv_pack (a : positive) (m e : Z) :
  binary64_div (S754_finite false a 0) (S754_finite false 10000 0) = pack false m e ->
  e + 1 <= 971 ->
  int_truediv (Z.pos a) 10000 = Ok (pack false m e).
Proof.
  intros Hdiv He. unfold int_truediv. cbn [Z.eqb]. rewrite Hdiv.
  pose proof (is_finite_pack false m e He) as Hfin.
  by destruct (pack false m e).
Qed.

(** The quotient of an integer of at most 1024 bits by 10000 is finite. *)
Lemma int_truediv_finite (a : Z) :
  0 <= a <= 2 ^ 1024 ->
  exists q ip, int_truediv a 10000 = Ok q /\ py_int (PyFloat q) = Ok ip.
Proof.
  intros Ha. destruct a as [|a|a]; [by exists (S754_zero false), 0| |lia].
  pose proof (div_10000_spec a) as (Hdiv & Hsh & Hm'). cbv zeta in *.
  set (e' := Z.min (Zdigits2 (Z.pos a) - 67) 0) in *.
  set (m' := Z.pos a * 2 ^ (- e')) in *.
  set (sh := Zdigits2 (m' / 10000) - 53) in *.
  assert (He : e' + sh + 1 <= 971).
  { assert (Zdigits2 (m' / 10000) <= 1011); [|subst sh e'; lia].
    assert (0 < m' / 10000).
    { apply Z.div_str_pos. assert (10000 < 2 ^ 66) by (by vm_compute). lia. }
    apply Zdigits2_le; [done|].
    apply Z.div_lt_upper_bound; [lia|].
    assert (2 ^ 1024 < 10000 * 2 ^ 1011) by (by vm_compute).
    assert (2 ^ 67 < 10000 * 2 ^ 1011) by (by vm_compute).
    destruct (Z.le_gt_cases (Zdigits2 (Z.pos a)) 67).
    - subst m' e'. rewrite Z.min_l by lia.
      pose proof (Zdigits2_bounds a) as [_ Hhi].
      set (d1 := Zdigits2 (Z.pos a)) in *.
      assert (0 < d1) by (apply Zdigits2_pos; lia).
      assert (Z.pos a * 2 ^ (- (d1 - 67)) < 2 ^ 67); [|lia].
      replace (2 ^ 67) with (2 ^ d1 * 2 ^ (- (d1 - 67))).
      + apply Z.mul_lt_mono_pos_r; [apply Z.pow_pos_nonneg|]; lia.
      + rewrite <- Z.pow_add_r by lia. f_equal. lia.
    - subst m' e'. rewrite Z.min_r by lia. change (2 ^ (- 0)) with 1. lia. }
  pose proof (int_truediv_pack a _ _ Hdiv He) as Hq.
  destruct (py_int_finite _ (is_finite_pack false (round_half_even m' (10000 * 2 ^ sh)) _ He))
    as [ip Hip].
  eauto.
Qed.

(** Below 2^52 the float quotient truncates to the integer quotient. *)
Lemma int_truediv_floor (a : Z) :
  0 <= a < 2 ^ 52 ->
  exists q, int_truediv a 10000 = Ok q /\ py_int (PyFloat q) = Ok (a / 10000).
Proof.
  intros Ha. destruct a as [|a|a]; [by exists (S754_zero false)| |lia].
  pose proof (div_10000_spec a) as (Hdiv & Hsh & Hm'). cbv zeta in *.
  pose proof (Zdigits2_bounds a) as [Hlo Hhi].
  pose proof (Zdigits2_pos (Z.pos a) ltac:(lia)) as Hd1pos.
  assert (Hd1 : Zdigits2 (Z.pos a) <= 52) by (apply Zdigits2_le; lia).
  set (d1 := Zdigits2 (Z.pos a)) in *.
  replace (Z.min (d1 - 67) 0) with (d1 - 67) in * by lia.
  replace (- (d1 - 67)) with (67 - d1) in * by lia.
  set (m' := Z.pos a * 2 ^ (67 - d1)) in *.
  set (sh := Zdigits2 (m' / 10000) - 53) in *.
  assert (Hm'hi : m' < 2 ^ 67).
  { subst m'. replace (2 ^ 67) with (2 ^ d1 * 2 ^ (67 - d1)).
    - apply Z.mul_lt_mono_pos_r; [apply Z.pow_pos_nonneg|]; lia.
    - rewrite <- Z.pow_add_r by lia. f_equal. lia. }
  assert (Hshhi : sh <= 1).
  { assert (Zdigits2 (m' / 10000) <= 54); [|lia].
    assert (0 < m' / 10000) by (apply Z.div_str_pos; lia).
    apply Zdigits2_le; [done|]. apply Z.div_lt_upper_bound; lia. }
  set (t := 67 - d1 - sh).
  assert (Ht : 14 <= t) by (subst t; lia).
  set (m1 := round_half_even m' (10000 * 2 ^ sh)) in *.
  assert (HT : 2 ^ 14 <= 2 ^ t) by (apply Z.pow_le_mono_r; lia).
  assert (HS : 0 < 2 ^ sh) by (apply Z.pow_pos_nonneg; lia).
  assert (HP : 2 ^ (67 - d1) = 2 ^ t * 2 ^ sh).
  { rewrite <- Z.pow_add_r by lia. f_equal. lia. }
  pose proof (Z.div_mod (Z.pos a) 10000 ltac:(lia)) as Hdm.
  pose proof (Z.mod_pos_bound (Z.pos a) 10000 ltac:(lia)) as Hr.
  assert (HQ : 0 <= Z.pos a / 10000) by (apply Z.div_pos; lia).
  set (Q := Z.pos a / 10000) in *. set (R := Z.pos a mod 10000) in *.
  assert (Hlo1 : Q * 2 ^ t <= m1).
  { apply round_half_even_ge; [lia|]. subst m'. rewrite HP. nia. }
  assert (Hhi1 : m1 <= Q * 2 ^ t + 2 ^ t - 1).
  { apply round_half_even_le; [lia|]. subst m'. rewrite HP.
    change (2 ^ 14) with 16384 in HT. nia. }
  assert (Hm1 : 0 < m1).
  { assert (2 ^ 51 <= m1); [|lia].
    apply round_half_even_ge; [lia|].
    assert (2 ^ sh <= 2 ^ 1) by (apply Z.pow_le_mono_r; lia).
    assert (2 ^ 51 * 10000 * 2 <= 2 ^ 66) by (vm_compute; discriminate).
    change (2 ^ 1) with 2 in *. nia. }
  assert (He : d1 - 67 + sh + 1 <= 971) by lia.
  exists (pack false m1 (d1 - 67 + sh)).
  split; [by apply int_truediv_pack|].
  assert (Hdivt : m1 / 2 ^ t = Q).
  { symmetry. apply (Z.div_unique_pos _ _ _ (m1 - Q * 2 ^ t)); lia. }
  unfold pack. destruct (Z.eqb_spec m1 0); [lia|].
  destruct (Z.eqb_spec m1 (2 ^ 53)) as [Hc|Hnc].
  - destruct (Z.leb_spec (d1 - 67 + sh + 1) 971); [|lia].
    cbn [py_int cond_neg]. unfold trunc_mag.
    destruct (Z.leb_spec 0 (d1 - 67 + sh + 1)); [lia|].
    rewrite Z2Pos.id by done. f_equal.
    rewrite <- Hdivt, Hc. change (2 ^ 53) with (2 * 2 ^ 52).
    replace (2 ^ t) with (2 * 2 ^ (- (d1 - 67 + sh + 1))).
    + rewrite Z.div_mul_cancel_l; [done| |lia].
      apply Z.pow_nonzero; lia.
    + rewrite <- Z.pow_succ_r by lia. f_equal. lia.
  - destruct (Z.leb_spec (d1 - 67 + sh) 971); [|lia].
    cbn [py_int cond_neg]. unfold trunc_mag.
    destruct (Z.leb_spec 0 (d1 - 67 + sh)); [lia|].
    rewrite Z2Pos.id by done. f_equal.
    rewrite <- Hdivt. subst t. do 2 f_equal. lia.
Qed.

(** ** Fields and bytes *)

Lemma to_bytes_u16 (x : Z) :
  0 <= x < 65536 -> to_bytes x 2 false = Ok (le_bytes 2 x).
Proof.
  intros Hx. unfold to_bytes. change (256 ^ Z.of_nat 2) with 65536.
  destruct (Z.ltb_spec x 0); [lia|]. destruct (Z.ltb_spec x 65536); [done|lia].
Qed.

Lemma le_bytes_2_bytes (x : Z) : Forall is_byte (le_bytes 2 x).
Proof.
  cbn [le_bytes]. repeat constructor; unfold is_byte;
    apply Z.mod_pos_bound; lia.
Qed.

Lemma le_field_le_bytes (x : Z) :
  0 <= x < 65536 -> le_field (x mod 256) (x / 256 mod 256) = x.
Proof.
  intros Hx. unfold le_field.
  rewrite (Z.mod_small (x / 256)).
  - pose proof (Z.div_mod x 256). lia.
  - split; [apply Z.div_pos; lia|]. apply Z.div_lt_upper_bound; lia.
Qed.

Lemma land_u16 (x : Z) : Z.land x 0xFFFF = x mod 65536.
Proof. change 0xFFFF with (Z.ones 16). by rewrite Z.land_ones. Qed.

Lemma land_pow2_small (x : Z) : 0 <= x < 32768 -> Z.land x 32768 = 0.
Proof.
  intros Hx. apply Z.bits_inj'. intros n Hn.
  rewrite Z.land_spec, Z.bits_0.
  change 32768 with (2 ^ 15). rewrite Z.pow2_bits_eqb by lia.
  destruct (Z.eqb_spec 15 n) as [<-|_]; [|by rewrite andb_false_r].
  rewrite andb_true_r. rewrite Z.testbit_eqb by lia.
  rewrite Z.div_small by (change (2 ^ 15) with 32768; lia). reflexivity.
Qed.

Lemma lor_sign (x : Z) : 0 <= x < 32768 -> Z.lor x 0x8000 = x + 32768.
Proof.
  intros Hx. change 0x8000 with 32768.
  pose proof (land_pow2_small x Hx) as Hl.
  rewrite <- (Z.lxor_lor _ _ Hl). symmetry. by apply Z.add_nocarry_lxor.
Qed.

(** The four bytes, once the arithmetic has gone through. *)
Lemma encode_float_steps (self : Axis) (v : pynum) (a q : spec_float) (int_v ip : Z) :
  math_fabs v = Ok a ->
  py_round (PyFloat (binary64_mul a f10000)) = Ok int_v ->
  int_truediv int_v 10000 = Ok q ->
  py_int (PyFloat q) = Ok ip ->
  encode_float self v
    = Ok (le_bytes 2 (ip mod 65536)
          ++ le_bytes 2 (int_v mod 10000
                         + if py_lt v (PyInt 0) then 32768 else 0)).
Proof.
  intros Ha Hr Hq Hi. unfold encode_float.
  rewrite Ha. cbn [rbind]. rewrite Hr. cbn [rbind]. rewrite Hq. cbn [rbind].
  rewrite Hi. cbn [rbind]. rewrite !land_u16.
  pose proof (Z.mod_pos_bound ip 65536 ltac:(lia)).
  pose proof (Z.mod_pos_bound int_v 10000 ltac:(lia)).
  rewrite (Z.mod_small (int_v mod 10000)) by lia.
  rewrite to_bytes_u16 by done. cbn [rbind].
  destruct (py_lt v (PyInt 0)).
  - rewrite lor_sign by lia. rewrite to_bytes_u16 by lia. reflexivity.
  - rewrite Z.add_0_r. rewrite to_bytes_u16 by lia. reflexivity.
Qed.

Lemma math_fabs_abs (v : pynum) (a : spec_float) :
  math_fabs v = Ok a -> exists f, a = SFabs f.
Proof.
  destruct v as [n|f]; cbn [math_fabs].
  - destruct (float_of_int n) as [f|e]; cbn [rbind]; [|discriminate].
    intros [= <-]. by exists f.
  - intros [= <-]. by exists f.
Qed.

Lemma round_product_bounded (f : spec_float) :
  is_finite (binary64_mul (SFabs f) f10000) = true ->
  exists int_v,
    py_round (PyFloat (binary64_mul (SFabs f) f10000)) = Ok int_v /\
    0 <= int_v <= 2 ^ 1024.
Proof.
  destruct f as [s|s| |s m e]; cbn [SFabs]; try discriminate.
  - intros _. exists 0. split; [reflexivity|]. split; [lia|]. by vm_compute.
  - destruct (mul_10000_spec m e) as [-> Hb]. cbv zeta in *.
    by apply py_round_pack_bounded.
Qed.

(** Magnitudes below 2^1009 (about 5.5e303) are in the finite range:
    [m * 2^e] with [m] of [d] bits is below [2^(d + e)]. *)
Lemma product_finite_below_2_1009 (s : bool) (m : positive) (e : Z) :
  Zdigits2 (Z.pos m) + e <= 1009 ->
  is_finite (binary64_mul (SFabs (S754_finite s m e)) f10000) = true.
Proof.
  intros Hmag. cbn [SFabs].
  destruct (mul_10000_spec m e) as [-> _]. cbv zeta.
  apply is_finite_pack. rewrite fexp_binary64.
  pose proof (Zdigits2_bounds m) as [_ Hhi].
  pose proof (Zdigits2_pos (Z.pos m) ltac:(lia)) as Hd.
  set (dm := Zdigits2 (Z.pos m)) in *.
  assert (HM : Zdigits2 (Z.pos m * 5497558138880000) <= dm + 53).
  { apply Zdigits2_le; [lia|]. rewrite Z.pow_add_r by lia.
    assert (5497558138880000 < 2 ^ 53) by (by vm_compute).
    assert (0 < 2 ^ dm) by (apply Z.pow_pos_nonneg; lia). nia. }
  lia.
Qed.

(** C10, as stated, fails: at 1e305 the product with 10000.0 overflows to
    infinity and [round] raises [OverflowError]. *)
Lemma encode_float_overflow :
  let v := PyFloat (S754_finite false 5130671001622970 961) in
  is_real v = true /\
  encode_float (new_Axis "x" false) v
    = Raise (Exn OverflowError "cannot convert float infinity to integer").
Proof. vm_compute. by split. Qed.

(** C10, amended: whenever the product [|v| * 10000.0] is finite --
    whatever the magnitude of [v] otherwise -- [encode_float] returns exactly
    4 bytes, each in 0..255: the integer part of the scaled value reduced
    modulo 65536, then the remainder modulo 10000 with the sign bit, both
    little-endian. *)
Theorem encode_float_wraps (self : Axis) (v : pynum) (a : spec_float) :
  math_fabs v = Ok a ->
  is_finite (binary64_mul a f10000) = true ->
  exists bs int_v q ip,
    encode_float self v = Ok bs /\
    length bs = 4%nat /\ Forall is_byte bs /\
    py_round (PyFloat (binary64_mul a f10000)) = Ok int_v /\
    int_truediv int_v 10000 = Ok q /\
    py_int (PyFloat q) = Ok ip /\
    bs = le_bytes 2 (ip mod 65536)
         ++ le_bytes 2 (int_v mod 10000 + if py_lt v (PyInt 0) then 32768 else 0).
Proof.
  intros Ha Hfin.
  destruct (math_fabs_abs v a Ha) as [f ->].
  destruct (round_product_bounded f Hfin) as (int_v & Hr & Hiv).
  destruct (int_truediv_finite int_v Hiv) as (q & ip & Hq & Hip).
  eexists _, int_v, q, ip.
  split; [exact (encode_float_steps self v _ q int_v ip Ha Hr Hq Hip)|].
  split; [reflexivity|].
  split; [apply Forall_app; split; apply le_bytes_2_bytes|].
  by repeat split.
Qed.

(** -123456.789: the integer field holds 123456 mod 65536 = 57920. *)
Lemma encode_float_wraps_witness :
  let v := PyFloat (S754_finite true 8483885939586761 (-36)) in
  let a := S754_finite false 8483885939586761 (-36) in
  exists bs int_v q ip,
    encode_float (new_Axis "x" false) v = Ok bs /\
    length bs = 4%nat /\ Forall is_byte bs /\
    py_round (PyFloat (binary64_mul a f10000)) = Ok int_v /\
    int_truediv int_v 10000 = Ok q /\
    py_int (PyFloat q) = Ok ip /\
    bs = le_bytes 2 (ip mod 65536)
         ++ le_bytes 2 (int_v mod 10000 + if py_lt v (PyInt 0) then 32768 else 0).
Proof.
  intros v a.
  apply (encode_float_wraps (new_Axis "x" false) v a); reflexivity.
Defined.

(** ** Round trip of the fixed-point encoding *)

(** A binary64 value of magnitude at most 9999.9999 has a negative
    exponent. *)
Lemma small_float_exponent (s : bool) (m : positive) (e : Z) :
  bounded 53 1024 m e = true ->
  (Qabs (float_val (S754_finite s m e)) <= 99999999 # 10000)%Q ->
  e < 0 /\ Z.pos m * 10000 <= 99999999 * 2 ^ (- e).
Proof.
  intros Hb Hq. unfold bounded, canonical_mantissa in Hb.
  apply andb_true_iff in Hb as [Hc _]. apply Z.eqb_eq in Hc.
  rewrite fexp_binary64 in Hc.
  change (Z.pos (digits2_pos m)) with (Zdigits2 (Z.pos m)) in Hc.
  unfold float_val in Hq. destruct (Z.leb_spec 0 e) as [He|He].
  - exfalso.
    assert (0 < 2 ^ e) by (apply Z.pow_pos_nonneg; lia).
    assert (Hm : Z.pos m * 2 ^ e <= 9999).
    { unfold Qle, Qabs, inject_Z in Hq. cbn [Qnum Qden] in Hq.
      destruct s; cbn [cond_neg] in Hq; lia. }
    assert (Z.pos m < 2 ^ 14) by (change (2 ^ 14) with 16384; nia).
    pose proof (Zdigits2_le (Z.pos m) 14 ltac:(lia) ltac:(done)). lia.
  - split; [done|].
    assert (0 < 2 ^ (- e)) by (apply Z.pow_pos_nonneg; lia).
    unfold Qle, Qabs in Hq. cbn [Qnum Qden] in Hq.
    rewrite Z2Pos.id in Hq by done.
    destruct s; cbn [cond_neg] in Hq; lia.
Qed.

Lemma py_lt_zero_float (s : bool) (m : positive) (e : Z) :
  e < 0 -> py_lt (PyFloat (S754_finite s m e)) (PyInt 0) = s.
Proof.
  intros He. unfold py_lt, py_compare, int_float_compare.
  destruct (Z.leb_spec 0 e); [lia|]. cbn [fmap option_fmap option_map].
  by destruct s.
Qed.

(** The rounded scaled value of a small float is within one of the exact
    scaled value. *)
Lemma round_product_close (m : positive) (e : Z) :
  e < 0 ->
  Z.pos m * 10000 <= 99999999 * 2 ^ (- e) ->
  exists int_v,
    py_round (PyFloat (binary64_mul (S754_finite false m e) f10000)) = Ok int_v /\
    0 <= int_v <= 100000000 /\
    - 2 ^ (- e) <= int_v * 2 ^ (- e) - Z.pos m * 10000 <= 2 ^ (- e).
Proof.
  intros He Hm.
  destruct (mul_10000_spec m e) as [Hmul [Hm1lo Hm1hi]]. cbv zeta in *.
  set (M := Z.pos m * 5497558138880000) in *.
  set (E := e - 39) in *.
  set (sh := fexp 53 1024 (Zdigits2 M + E) - E) in *.
  set (k := Z.max sh 0) in *.
  set (m1 := round_half_even M (2 ^ k)) in *.
  set (W := 2 ^ (- e)) in *.
  assert (HW : 0 < W) by (apply Z.pow_pos_nonneg; lia).
  assert (Hk : 0 <= k) by lia.
  assert (HM : M = Z.pos m * 10000 * 2 ^ 39) by (subst M; lia).
  assert (HWE : 2 ^ (- E) = W * 2 ^ 39).
  { subst W E. rewrite <- Z.pow_add_r by lia. f_equal. lia. }
  (* the exponent after rounding stays below -1 *)
  assert (HdM : Zdigits2 M + E <= 27).
  { assert (Zdigits2 M <= 66 - e); [|subst E; lia].
    apply Zdigits2_le; [lia|].
    replace (66 - e) with (27 + 39 + - e) by lia.
    rewrite !Z.pow_add_r by lia. fold W.
    assert (99999999 < 2 ^ 27) by (by vm_compute).
    assert (0 < 2 ^ 39) by (by vm_compute). nia. }
  assert (He1 : E + k < -1).
  { subst k sh. rewrite fexp_binary64. subst E. lia. }
  rewrite Hmul. rewrite py_round_pack by lia.
  set (j := - (E + k)).
  set (int_v := round_half_even m1 (2 ^ j)).
  assert (HA : 0 < 2 ^ k) by (apply Z.pow_pos_nonneg; lia).
  assert (HB : 2 <= 2 ^ j).
  { change 2 with (2 ^ 1) at 1. apply Z.pow_le_mono_r; lia. }
  assert (HAB : 2 ^ k * 2 ^ j = W * 2 ^ 39).
  { rewrite <- HWE, <- Z.pow_add_r by lia. f_equal. lia. }
  pose proof (round_half_even_bounds M (2 ^ k) HA) as [_ Ha].
  pose proof (round_half_even_bounds m1 (2 ^ j) ltac:(lia)) as [_ Hb].
  fold m1 in Ha. fold int_v in Hb.
  assert (Hiv0 : 0 <= int_v) by (apply round_half_even_ge; lia).
  set (A := 2 ^ k) in *. set (B := 2 ^ j) in *.
  assert (Hclose : - (A * B) <= int_v * (A * B) - M <= A * B) by nia.
  rewrite HAB, HM in Hclose.
  assert (HP : 0 < 2 ^ 39) by (by vm_compute).
  set (P := 2 ^ 39) in *.
  assert (Hc : - W <= int_v * W - Z.pos m * 10000 <= W) by nia.
  exists int_v. split; [done|]. split; [|done]. nia.
Qed.

Lemma decode_fields (ip r : Z) (s : bool) :
  0 <= ip < 65536 -> 0 <= r < 10000 ->
  let bs := le_bytes 2 ip ++ le_bytes 2 (r + if s then 32768 else 0) in
  spec_sign_bit bs = s /\
  spec_decode_float bs =
    let mag := (inject_Z ip + (r # 10000))%Q in
    if s then (- mag)%Q else mag.
Proof.
  intros Hip Hr bs. subst bs. cbn [le_bytes app].
  set (F := r + if s then 32768 else 0).
  assert (HF : 0 <= F < 65536) by (subst F; destruct s; lia).
  assert (Hsign : Z.testbit F 15 = s).
  { rewrite Z.testbit_eqb by lia. change (2 ^ 15) with 32768.
    subst F. destruct s.
    - replace ((r + 32768) / 32768) with 1; [done|].
      apply (Z.div_unique_pos _ _ _ r); lia.
    - rewrite Z.add_0_r, Z.div_small by lia. reflexivity. }
  assert (Hlow : Z.land F 0x7FFF = r).
  { change 0x7FFF with (Z.ones 15). rewrite Z.land_ones by lia.
    change (2 ^ 15) with 32768. subst F. destruct s.
    - symmetry. apply (Z.mod_unique_pos _ _ 1); lia.
    - rewrite Z.add_0_r. apply Z.mod_small. lia. }
  unfold spec_decode_float, spec_sign_bit.
  rewrite !le_field_le_bytes by lia. rewrite Hsign, Hlow. done.
Qed.

Lemma decoded_close (iv ip r m W : Z) (s : bool) :
  0 < W -> iv = 10000 * ip + r ->
  - W <= iv * W - m * 10000 <= W ->
  (Qabs ((let mag := (inject_Z ip + (r # 10000))%Q in
          if s then (- mag)%Q else mag)
         - (cond_neg s m # Z.to_pos W)) <= 1 # 10000)%Q.
Proof.
  intros HW -> Hc. cbv zeta. apply Qabs_Qle_condition.
  destruct s; unfold Qle, Qminus, Qplus, Qopp, inject_Z;
    cbn [Qnum Qden cond_neg];
    rewrite ?Pos2Z.inj_mul, ?Z2Pos.id by done; split; nia.
Qed.

(** The float half of the round trip. *)
Lemma roundtrip_of_float (self : Axis) (f : spec_float) :
  is_real (PyFloat f) = true ->
  (Qabs (float_val f) <= 99999999 # 10000)%Q ->
  exists bs,
    encode_float self (PyFloat f) = Ok bs /\
    length bs = 4%nat /\
    (Qabs (spec_decode_float bs - float_val f) <= 1 # 10000)%Q /\
    (spec_sign_bit bs = true <-> (float_val f < 0)%Q).
Proof.
  intros Hreal Hq. cbn [is_real] in Hreal.
  apply andb_true_iff in Hreal as [Hvalid Hfin].
  destruct f as [s|s| |s m e]; try discriminate.
  - exists [0; 0; 0; 0]. split; [by destruct s|]. split; [done|].
    split; [by vm_compute|]. by split.
  - cbn [valid_binary] in Hvalid.
    destruct (small_float_exponent s m e Hvalid Hq) as [He Hm].
    destruct (round_product_close m e He Hm) as (int_v & Hr & Hiv & Hc).
    destruct (int_truediv_floor int_v) as (q & Hdiv & Hip).
    { assert (100000000 < 2 ^ 52) by (by vm_compute). lia. }
    pose proof (encode_float_steps self (PyFloat (S754_finite s m e))
                  (S754_finite false m e) q int_v (int_v / 10000)
                  eq_refl Hr Hdiv Hip) as Henc.
    rewrite (py_lt_zero_float s m e He) in Henc.
    assert (Hipr : 0 <= int_v / 10000 < 65536).
    { split; [apply Z.div_pos; lia|]. apply Z.div_lt_upper_bound; lia. }
    rewrite (Z.mod_small (int_v / 10000)) in Henc by done.
    pose proof (Z.mod_pos_bound int_v 10000 ltac:(lia)) as Hrr.
    destruct (decode_fields (int_v / 10000) (int_v mod 10000) s Hipr Hrr)
      as [Hsign Hdec].
    eexists. split; [exact Henc|]. split; [reflexivity|].
    rewrite Hsign, Hdec. unfold float_val.
    destruct (Z.leb_spec 0 e); [lia|]. split.
    + apply (decoded_close int_v (int_v / 10000) (int_v mod 10000) (Z.pos m)
               (2 ^ (- e)) s); [apply Z.pow_pos_nonneg; lia| |done].
      apply Z.div_mod. lia.
    + unfold Qlt. cbn [Qnum Qden]. destruct s; cbn [cond_neg]; split; try done; lia.
Qed.

Lemma forall_range_sound (fuel : nat) (f : Z -> bool) (lo len : Z) :
  forall_range fuel f lo len = true ->
  forall j, lo <= j < lo + len -> f j = true.
Proof.
  revert lo len. induction fuel as [|k IH]; intros lo len Hall j Hj;
    cbn [forall_range] in Hall.
  - apply orb_true_iff in Hall as [Hall|Hall]; [lia|].
    apply andb_true_iff in Hall as [Hlen Hf].
    replace j with lo by lia. done.
  - destruct (Z.leb_spec len 1).
    + apply orb_true_iff in Hall as [Hall|Hall]; [lia|].
      replace j with lo by lia. done.
    + apply andb_true_iff in Hall as [H1 H2].
      destruct (Z.lt_ge_cases j (lo + len / 2)).
      * apply (IH _ _ H1). lia.
      * apply (IH _ _ H2). lia.
Qed.

Lemma int_roundtrip_all : forall_range 15 int_roundtrip_ok (-9999) 19999 = true.
Proof. vm_compute. reflexivity. Qed.

(** C3: for every real [v] with [|v| <= 9999.9999] that Python can hold,
    [encode_float] returns 4 bytes that decode to within 0.0001 of [v], and
    the high bit of the fractional field is set exactly when [v < 0]. *)
Theorem encode_float_roundtrip (self : Axis) (v : pynum) :
  is_real v = true ->
  (Qabs (num_val v) <= 99999999 # 10000)%Q ->
  exists bs,
    encode_float self v = Ok bs /\
    length bs = 4%nat /\
    (Qabs (spec_decode_float bs - num_val v) <= 1 # 10000)%Q /\
    (spec_sign_bit bs = true <-> (num_val v < 0)%Q).
Proof.
  intros Hreal Hq. destruct v as [n|f]; [|by apply roundtrip_of_float].
  cbn [num_val] in *.
  assert (Hn : -9999 <= n <= 9999).
  { unfold Qle, Qabs, inject_Z in Hq. cbn [Qnum Qden] in Hq. lia. }
  pose proof (forall_range_sound _ _ _ _ int_roundtrip_all n ltac:(lia)) as Hok.
  unfold int_roundtrip_ok in Hok.
  change (encode_float (new_Axis "x" false) (PyInt n))
    with (encode_float self (PyInt n)) in Hok.
  destruct (encode_float self (PyInt n)) as [bs|err]; [|discriminate].
  exists bs. split; [done|].
  apply andb_true_iff in Hok as [Hok Hs]. apply andb_true_iff in Hok as [Hl Hd].
  split; [by apply Nat.eqb_eq|]. split; [by apply Qle_bool_iff|].
  apply Bool.eqb_prop in Hs. rewrite Hs. unfold Qlt, inject_Z. cbn [Qnum Qden].
  destruct (Z.ltb_spec n 0); split; try done; lia.
Qed.

Lemma encode_float_roundtrip_witness :
  let v := PyFloat (S754_finite true 6755399441055744 (-52)) in
  exists bs,
    encode_float (new_Axis "x" false) v = Ok bs /\
    length bs = 4%nat /\
    (Qabs (spec_decode_float bs - num_val v) <= 1 # 10000)%Q /\
    (spec_sign_bit bs = true <-> (num_val v < 0)%Q).
Proof.
  intros v.
  apply (encode_float_roundtrip (new_Axis "x" false) v).
  - reflexivity.
  - vm_compute. discriminate.
Defined.

(** The binary64 value nearest to 9999.9999 lies just above it; it is
    encoded like 9999.9999 itself. *)
Lemma encode_float_at_literal_bound :
  (99999999 # 10000 < float_val f9999_9999)%Q /\
  exists bs,
    encode_float (new_Axis "x" false) (PyFloat f9999_9999) = Ok bs /\
    (spec_decode_float bs == 99999999 # 10000)%Q /\ spec_sign_bit bs = false.
Proof.
  split; [by vm_compute|].
  exists [0x0F; 0x27; 0x0F; 0x27]. split; [by vm_compute|]. by split.
Qed.

(** * Further properties of the codec *)

(** X1: on a byte, [sign_extend] is the two's-complement reading: the result
    lies in -128..127, it is the byte itself up to 127 and the byte minus
    256 above, and reducing it modulo 256 gives the byte back. *)
Theorem sign_extend_twos_complement (b : Z) :
  0 <= b < 256 ->
  -128 <= sign_extend b <= 127 /\
  sign_extend b = (if b <=? 127 then b else b - 256) /\
  sign_extend b mod 256 = b.
Proof.
  intros Hb. unfold sign_extend.
  destruct (Z.ltb_spec 127 b); destruct (Z.leb_spec b 127); try lia.
  - split; [lia|]. split; [lia|].
    symmetry. apply (Z.mod_unique_pos _ _ (-1)); lia.
  - split; [lia|]. split; [lia|]. apply Z.mod_small. lia.
Qed.

Lemma sign_extend_twos_complement_witness :
  -128 <= sign_extend 0x81 <= 127 /\
  sign_extend 0x81 = (if 0x81 <=? 127 then 0x81 else 0x81 - 256) /\
  sign_extend 0x81 mod 256 = 0x81.
Proof. apply (sign_extend_twos_complement 0x81). lia. Defined.

Lemma le_bytes_length (len : nat) (x : Z) : length (le_bytes len x) = len.
Proof. revert x. induction len as [|k IH]; intros x; cbn [le_bytes length]; auto. Qed.

Lemma le_bytes_bytes (len : nat) (x : Z) : Forall is_byte (le_bytes len x).
Proof.
  revert x. induction len as [|k IH]; intros x; cbn [le_bytes]; constructor; [|apply IH].
  unfold is_byte. apply Z.mod_pos_bound. lia.
Qed.

Lemma to_bytes_shape (x : Z) (len : nat) (signed : bool) (r : list Z) :
  to_bytes x len signed = Ok r -> length r = len /\ Forall is_byte r.
Proof.
  unfold to_bytes. intros H.
  repeat match type of H with
         | (if ?c then _ else _) = _ => destruct c
         end; try discriminate; injection H as <-;
    auto using le_bytes_length, le_bytes_bytes.
Qed.

(** X2: on an integer axis, for a value whose integer part is below 32768,
    [encode_s16] returns two bytes that read back, low byte first, as that
    integer part, with negative values read back as 0. *)
Theorem encode_s16_roundtrip (self : Axis) (v : pynum) (n : Z) :
  integerAxis self = true ->
  py_int v = Ok n ->
  n < 32768 ->
  exists lo hi,
    encode_s16 self v = Ok [lo; hi] /\
    is_byte lo /\ 0 <= hi < 128 /\
    le_field lo hi = Z.max n 0.
Proof.
  intros Hint Hv Hn.
  exists (Z.max n 0 mod 256), (Z.max n 0 / 256 mod 256).
  split; [by apply encode_s16_in_range|].
  assert (Hq : 0 <= Z.max n 0 / 256 < 128).
  { split; [apply Z.div_pos; lia|]. apply Z.div_lt_upper_bound; lia. }
  split; [unfold is_byte; apply Z.mod_pos_bound; lia|].
  split; [rewrite Z.mod_small; lia|].
  apply le_field_le_bytes. lia.
Qed.

Lemma encode_s16_roundtrip_witness :
  exists lo hi,
    encode_s16 (new_Axis "feed" true) (PyInt (-7)) = Ok [lo; hi] /\
    is_byte lo /\ 0 <= hi < 128 /\
    le_field lo hi = Z.max (-7) 0.
Proof.
  apply (encode_s16_roundtrip (new_Axis "feed" true) (PyInt (-7)) (-7));
    [reflexivity | reflexivity | lia].
Defined.

(** X3: what [limit_num] returns is never beyond the axis's bound on either
    side, and is a fixed point: limiting it again changes nothing.  On an
    integer axis it is an [int] between 0 and 65535. *)
Theorem limit_num_clamps (self : Axis) (x y : pynum) :
  limit_num self x = Ok y ->
  py_gt y (max_units self) = false /\
  py_lt y (py_neg (max_units self)) = false /\
  limit_num self y = Ok y /\
  (integerAxis self = true -> exists c, y = PyInt c /\ 0 <= c <= 65535).
Proof.
  unfold max_units. destruct (integerAxis self) eqn:Hint.
  - intros Hl. destruct (py_int x) as [n|e] eqn:Hx.
    + rewrite (limit_num_integer self x n Hint Hx) in Hl. injection Hl as <-.
      set (c := Z.min (Z.max n 0) 0xFFFF).
      assert (Hc : 0 <= c <= 65535) by (subst c; lia).
      split; [|split; [|split]].
      * unfold py_gt, py_compare.
        match goal with |- context [?a ?= ?b] => destruct (Z.compare_spec a b) end;
          try done; lia.
      * unfold py_lt, py_neg, py_compare.
        match goal with |- context [?a ?= ?b] => destruct (Z.compare_spec a b) end;
          try done; lia.
      * rewrite (limit_num_integer self (PyInt c) c Hint eq_refl).
        do 2 f_equal. lia.
      * intros _. by exists c.
    + unfold limit_num in Hl. rewrite Hint, Hx in Hl. discriminate.
  - unfold limit_num. rewrite Hint. cbn [rbind].
    destruct (py_gt x (PyFloat f9999_9999)) eqn:Hgt.
    { intros [= <-]. by vm_compute. }
    destruct (py_lt x (py_neg (PyFloat f9999_9999))) eqn:Hlt.
    { intros [= <-]. by vm_compute. }
    intros [= <-]. rewrite Hgt, Hlt. by repeat split.
Qed.

Lemma limit_num_clamps_witness :
  let self := new_Axis "x" false in
  let y := PyFloat (SFopp f9999_9999) in
  py_gt y (max_units self) = false /\
  py_lt y (py_neg (max_units self)) = false /\
  limit_num self y = Ok y /\
  (integerAxis self = true -> exists c, y = PyInt c /\ 0 <= c <= 65535).
Proof.
  intros self y.
  apply (limit_num_clamps self (PyInt (-20000)) y). reflexivity.
Defined.

(** Whatever [display] returns is as wide as the axis's field, 2 bytes on
    an integer axis and 4 on a float axis, and every element is a byte. *)
Lemma display_shape (self : Axis) (v : pynum) (bs : list Z) :
  display self v = Ok bs ->
  length bs = (if integerAxis self then 2%nat else 4%nat) /\ Forall is_byte bs.
Proof.
  unfold display. destruct (integerAxis self).
  - unfold encode_s16. intros H.
    destruct (limit_num self v) as [l|]; cbn [rbind] in H; [|discriminate].
    destruct (py_int l) as [n|]; cbn [rbind] in H; [|discriminate].
    by apply to_bytes_shape in H.
  - unfold encode_float. intros H.
    destruct (math_fabs v) as [a|]; cbn [rbind] in H; [|discriminate].
    destruct (py_round _) as [int_v|]; cbn [rbind] in H; [|discriminate].
    destruct (int_truediv int_v 10000) as [q|]; cbn [rbind] in H; [|discriminate].
    destruct (py_int (PyFloat q)) as [ip|]; cbn [rbind] in H; [|discriminate].
    destruct (to_bytes (Z.land ip 0xFFFF) 2 false) as [r1|] eqn:H1;
      cbn [rbind] in H; [|discriminate].
    destruct (to_bytes _ 2 false) as [r2|] eqn:H2 in H; cbn [rbind] in H; [|discriminate].
    injection H as <-.
    apply to_bytes_shape in H1 as [L1 B1]. apply to_bytes_shape in H2 as [L2 B2].
    rewrite length_app, L1, L2. split; [done|]. by apply Forall_app.
Qed.

(** X4: the four display properties of an axis ([wc_display], [mc_display]
    and their aliases [actual_display], [setrate_display]) return, when they
    return, a field of the axis's width -- 2 bytes on an integer axis, 4 on
    a float axis -- whose elements are all bytes. *)
Theorem display_properties_width (self : Axis) (bs : list Z) :
  wc_display self = Ok bs \/ mc_display self = Ok bs \/
  actual_display self = Ok bs \/ setrate_display self = Ok bs ->
  length bs = (if integerAxis self then 2%nat else 4%nat) /\ Forall is_byte bs.
Proof.
  intros [H|[H|[H|H]]]; revert H.
  - apply display_shape.
  - apply display_shape.
  - apply (display_shape self (actual self)).
  - apply (display_shape self (setrate self)).
Qed.

Lemma display_properties_width_witness :
  let feed := set_machine_coordinate (PyInt 32767) (new_Axis "feed" true) in
  length [0xFF; 0x7F] = (if integerAxis feed then 2%nat else 4%nat) /\
  Forall is_byte [0xFF; 0x7F].
Proof.
  intros feed. apply (display_properties_width feed [0xFF; 0x7F]).
  right; right; right. reflexivity.
Defined.

Lemma py_round_ok_finite (p : spec_float) (iv : Z) :
  py_round (PyFloat p) = Ok iv -> is_finite p = true.
Proof. by destruct p. Qed.

(** The steps of [encode_float] behind a returned result. *)
Lemma encode_float_inv (self : Axis) (v : pynum) :
  forall a int_v,
    math_fabs v = Ok a ->
    py_round (PyFloat (binary64_mul a f10000)) = Ok int_v ->
    exists q ip,
      int_truediv int_v 10000 = Ok q /\ py_int (PyFloat q) = Ok ip /\
      0 <= int_v /\
      encode_float self v
        = Ok (le_bytes 2 (ip mod 65536)
              ++ le_bytes 2 (int_v mod 10000
                             + if py_lt v (PyInt 0) then 32768 else 0)).
Proof.
  intros a int_v Ha Hr.
  destruct (math_fabs_abs v a Ha) as [f ->].
  destruct (round_product_bounded f (py_round_ok_finite _ _ Hr)) as (iv & Hr' & Hiv).
  assert (iv = int_v) as -> by congruence.
  destruct (int_truediv_finite int_v Hiv) as (q & ip & Hq & Hip).
  exists q, ip. split; [done|]. split; [done|]. split; [lia|].
  exact (encode_float_steps self v _ q int_v ip Ha Hr Hq Hip).
Qed.

(** Where [encode_float] can fail: at [math.fabs] or at [round]. *)
Lemma encode_float_raise_inv (self : Axis) (v : pynum) (e : exn) :
  encode_float self v = Raise e <->
  math_fabs v = Raise e \/
  exists a, math_fabs v = Ok a /\
            py_round (PyFloat (binary64_mul a f10000)) = Raise e.
Proof.
  destruct (math_fabs v) as [a|e1] eqn:Ha.
  - destruct (py_round (PyFloat (binary64_mul a f10000))) as [int_v|e2] eqn:Hr.
    + destruct (encode_float_inv self v a int_v Ha Hr) as (q & ip & _ & _ & _ & ->).
      split; [discriminate|]. intros [?|(a' & Ha' & Hr')]; [discriminate|].
      injection Ha' as <-. congruence.
    + unfold encode_float. rewrite Ha. cbn [rbind]. rewrite Hr. cbn [rbind].
      split.
      * intros [= <-]. right. by exists a.
      * intros [?|(a' & Ha' & Hr')]; [discriminate|].
        injection Ha' as <-. congruence.
  - unfold encode_float. rewrite Ha. cbn [rbind]. split.
    + intros [= <-]. by left.
    + intros [[= <-]|(a' & ? & _)]; [done|discriminate].
Qed.

Lemma encode_float_error_class (self : Axis) (v : pynum) (e : exn) :
  encode_float self v = Raise e ->
  exn_cls e = OverflowError \/ exn_cls e = ValueError.
Proof.
  intros He. apply encode_float_raise_inv in He as [Hf|(a & _ & Hr)].
  - destruct v as [n|f]; cbn [math_fabs] in Hf; [|discriminate].
    unfold float_of_int in Hf.
    destruct (binary_normalize 53 1024 n 0 false); cbn [rbind] in Hf;
      try discriminate. injection Hf as <-. by left.
  - destruct (binary64_mul a f10000); cbn [py_round] in Hr; try discriminate;
      injection Hr as <-; [by left|by right].
Qed.

(** X5: [encode_float] can fail in two places only, the conversion of an
    over-large [int] to a float and the rounding of a product that is
    infinite or NaN; the division, the masking and the two [to_bytes] calls
    never fail.  So it raises nothing but [OverflowError] and [ValueError]. *)
Theorem encode_float_fails_only_at_conversion (self : Axis) (v : pynum) :
  (forall e, encode_float self v = Raise e <->
     math_fabs v = Raise e \/
     exists a, math_fabs v = Ok a /\
               py_round (PyFloat (binary64_mul a f10000)) = Raise e) /\
  (forall e, encode_float self v = Raise e ->
     exn_cls e = OverflowError \/ exn_cls e = ValueError).
Proof.
  split; intros e.
  - apply encode_float_raise_inv.
  - apply encode_float_error_class.
Qed.

Lemma py_lt_zero_finite (s : bool) (m : positive) (e : Z) :
  py_lt (PyFloat (S754_finite s m e)) (PyInt 0) = s.
Proof.
  unfold py_lt, py_compare, int_float_compare.
  cbn [fmap option_fmap option_map].
  assert (0 < 2 ^ (- e) \/ e >= 0) as Hp.
  { destruct (Z.leb_spec 0 e); [right; lia|left; apply Z.pow_pos_nonneg; lia]. }
  destruct (Z.leb_spec 0 e).
  - assert (0 < 2 ^ e) by (apply Z.pow_pos_nonneg; lia).
    destruct s; cbn [cond_neg].
    + destruct (Z.compare_spec 0 (- (Z.pos m * 2 ^ e))); try done; nia.
    + destruct (Z.compare_spec 0 (Z.pos m * 2 ^ e)); try done; nia.
  - destruct s; cbn [cond_neg]; reflexivity.
Qed.

(** X6: the sign of a float only shows in the sign bit.  When a positive
    value is encoded, its negative is encoded to the same integer field and
    the same count of ten-thousandths, with 0x8000 added to the fractional
    field. *)
Theorem encode_float_sign_symmetry (self : Axis) (m : positive) (e : Z) (bs : list Z) :
  encode_float self (PyFloat (S754_finite false m e)) = Ok bs ->
  exists ip r,
    0 <= ip < 65536 /\ 0 <= r < 10000 /\
    bs = le_bytes 2 ip ++ le_bytes 2 r /\
    encode_float self (PyFloat (S754_finite true m e))
      = Ok (le_bytes 2 ip ++ le_bytes 2 (r + 32768)).
Proof.
  intros Hpos.
  destruct (py_round (PyFloat (binary64_mul (S754_finite false m e) f10000)))
    as [int_v|err] eqn:Hr.
  - destruct (encode_float_inv self (PyFloat (S754_finite false m e)) _ int_v eq_refl Hr)
      as (q & ip & Hq & Hip & Hiv & Henc).
    destruct (encode_float_inv self (PyFloat (S754_finite true m e)) _ int_v eq_refl Hr)
      as (q' & ip' & Hq' & Hip' & _ & Henc').
    assert (q' = q) as -> by congruence. assert (ip' = ip) as -> by congruence.
    rewrite py_lt_zero_finite in Henc, Henc'. rewrite Z.add_0_r in Henc.
    exists (ip mod 65536), (int_v mod 10000).
    split; [apply Z.mod_pos_bound; lia|]. split; [apply Z.mod_pos_bound; lia|].
    split; [congruence|exact Henc'].
  - exfalso. unfold encode_float in Hpos. cbn [math_fabs SFabs rbind] in Hpos.
    rewrite Hr in Hpos. discriminate.
Qed.

Lemma encode_float_sign_symmetry_witness :
  exists ip r,
    0 <= ip < 65536 /\ 0 <= r < 10000 /\
    [1; 0; 136; 19] = le_bytes 2 ip ++ le_bytes 2 r /\
    encode_float (new_Axis "x" false) (PyFloat (S754_finite true 6755399441055744 (-52)))
      = Ok (le_bytes 2 ip ++ le_bytes 2 (r + 32768)).
Proof.
  apply (encode_float_sign_symmetry (new_Axis "x" false) 6755399441055744 (-52)).
  reflexivity.
Defined.

(** ** The lookup tables *)

Lemma foldl_insert_lookup `{Countable K} {V} (items : list (K * V)) (m : gmap K V)
    (k : K) (v : V) :
  NoDup (keys items) ->
  (forall k', k' ∈ keys items -> m !! k' = None) ->
  foldl (fun m kv => <[kv.1 := kv.2]> m) m items !! k = Some v <->
  (k, v) ∈ items \/ m !! k = Some v.
Proof.
  revert m. induction items as [|[k0 v0] items IH]; intros m Hnd Hfresh.
  - cbn [foldl]. rewrite elem_of_nil. tauto.
  - cbn [keys map fst] in Hnd, Hfresh. apply NoDup_cons in Hnd as [Hk0 Hnd].
    cbn [foldl fst snd]. rewrite IH; [|exact Hnd|].
    + rewrite elem_of_cons, lookup_insert_Some.
      assert (m !! k0 = None) as Hm by (apply Hfresh, elem_of_cons; by left).
      split.
      * intros [?|[[-> ->]|[? ?]]]; [by left; right|by left; left|by right].
      * intros [[[= -> ->]|?]|Hk]; [by right; left|by left|].
        right; right. split; [|done]. intros ->. congruence.
    + intros k' Hk'. rewrite lookup_insert_ne.
      * apply Hfresh, elem_of_cons. by right.
      * intros ->. done.
Qed.

Lemma dict_lookup `{Countable K} {V} (items : list (K * V)) (k : K) (v : V) :
  NoDup (keys items) ->
  dict items !! k = Some v <-> (k, v) ∈ items.
Proof.
  intros Hnd. unfold dict. rewrite foldl_insert_lookup; [|done|done].
  rewrite lookup_empty. split; [intros [?|?]; done|by left].
Qed.

Lemma inverse_items_elem {K V} (items : list (K * V)) (k : K) (v : V) :
  (v, k) ∈ inverse_items items <-> (k, v) ∈ items.
Proof.
  induction items as [|[k0 v0] items IH]; cbn [inverse_items map fst snd].
  - by rewrite !elem_of_nil.
  - rewrite !elem_of_cons. unfold inverse_items in IH. rewrite IH.
    split; (intros [[= -> ->]|?]; [by left|by right]).
Qed.

(** X7: the inverse tables built by [reset] are inverses indeed: a code
    maps back to a name exactly when the name maps to that code, for the
    buttons, the axis switch and the multipliers.  (No table repeats a name
    or a code, so the dict comprehension loses nothing.) *)
Theorem inverse_tables_round_trip (name : string) (code : Z) :
  (button_names !! name = Some code <-> code2Button !! code = Some name) /\
  (axis_select_switch !! name = Some code <-> code2Axis !! code = Some name) /\
  (multiplier_values !! name = Some code <-> code2Range !! code = Some name).
Proof.
  unfold button_names, code2Button, axis_select_switch, code2Axis,
    multiplier_values, code2Range.
  repeat split; intros Hl.
  all: first
    [ apply dict_lookup; [by apply (bool_decide_unpack _)|];
      apply inverse_items_elem;
      apply dict_lookup in Hl; [exact Hl|by apply (bool_decide_unpack _)]
    | apply dict_lookup; [by apply (bool_decide_unpack _)|];
      apply dict_lookup in Hl; [|by apply (bool_decide_unpack _)];
      by apply inverse_items_elem in Hl ].
Qed.

(** ** Inbound reports *)

(** X8: with no handler registered, a 6-byte report whose switch byte is
    mapped only records the switch position; the two button bytes are never
    looked up, so they may hold anything. *)
Theorem report_without_handler (d0 d1 d2 d3 d4 d5 : Z) (sw : string) (st : hb04) :
  code2Axis !! d3 = Some sw ->
  receiveUSBEvents_dispatch None [d0; d1; d2; d3; d4; d5] st
    = (Ok tt, set_axis_switch sw st).
Proof.
  intros Hax. unfold receiveUSBEvents_dispatch, try_except, newUSBEvent.
  unfold bind at 1. cbn [length Nat.eqb py_assert ret].
  unfold bind at 1. cbn [getitem lookup list_lookup ret].
  unfold bind at 1. unfold table_lookup at 1. rewrite Hax. cbn [ret].
  unfold bind at 1. cbn [modify]. reflexivity.
Qed.

Lemma report_without_handler_witness :
  receiveUSBEvents_dispatch None [0x04; 0xEE; 0xEE; 0x18; 0; 0xEE] listening
    = (Ok tt, set_axis_switch "a" listening).
Proof.
  apply (report_without_handler 0x04 0xEE 0xEE 0x18 0 0xEE "a" listening).
  reflexivity.
Defined.

(** ** Outbound packets *)

Lemma build_packets_prefix (l rest : list Z) :
  length l = 42%nat -> build_packets (l ++ rest) = build_packets l.
Proof.
  intros Hlen.
  do 42 (destruct l as [|? l]; [discriminate Hlen|]).
  destruct l; [|discriminate Hlen].
  vm_compute. reflexivity.
Qed.

(** The first loop of [sendData] never fails, and reads the first 42
    elements of the padded list only. *)
Lemma sendData_packets (data : list Z) :
  exists ps,
    build_packets (data ++ replicate (42 - length data) 0) = Ok ps /\
    length ps = 6%nat /\
    Forall (fun p => length p = 8%nat /\ head p = Some 0x06) ps /\
    concat (map tail ps) = take 42 (data ++ replicate (42 - length data) 0).
Proof.
  set (padded := data ++ replicate (42 - length data) 0).
  assert (Hlen : (42 <= length padded)%nat).
  { subst padded. rewrite length_app, length_replicate. lia. }
  assert (Ht : length (take 42 padded) = 42%nat) by (rewrite length_take; lia).
  assert (Hb : build_packets padded = build_packets (take 42 padded)).
  { rewrite <- (take_drop 42 padded) at 1. by apply build_packets_prefix. }
  rewrite Hb. exact (build_packets_42 _ Ht).
Qed.

Lemma take_padded_bytes (data : list Z) :
  Forall is_byte (take 42 data) ->
  Forall is_byte (take 42 (data ++ replicate (42 - length data) 0)).
Proof.
  intros Hb. rewrite take_app. apply Forall_app. split; [exact Hb|].
  apply Forall_take, Forall_replicate. unfold is_byte. lia.
Qed.

(** X9: [sendData] on a list of any length.  A short list is padded with
    zeros, of a long one only the first 42 elements are used (the rest need
    not even be bytes): six packets of 8 bytes starting with 0x06 are handed
    to the device, carrying those 42 bytes in order. *)
Theorem sendData_pads_and_truncates (data : list Z) (st : hb04) (d : usb_device) :
  dev st = Some d ->
  Forall is_byte (take 42 data) ->
  exists ps,
    sendData data st = (Ok tt, set_usb_out (usb_out st ++ ps) st) /\
    length ps = 6%nat /\
    Forall (fun p => length p = 8%nat /\ head p = Some 0x06) ps /\
    concat (map tail ps) = take 42 (data ++ replicate (42 - length data) 0).
Proof.
  intros Hdev Hb.
  destruct (sendData_packets data) as (ps & Hps & Hn & Hshape & Hcat).
  exists ps. split; [|by repeat split].
  unfold sendData, bind, lift. rewrite Hps.
  apply (send_packets_ok _ _ d Hdev).
  apply packets_are_bytes; [exact Hshape|].
  rewrite Hcat. by apply take_padded_bytes.
Qed.

Lemma sendData_pads_and_truncates_witness :
  exists ps,
    sendData [0xFE; 0xFD; 0x0C] listening
      = (Ok tt, set_usb_out (usb_out listening ++ ps) listening) /\
    length ps = 6%nat /\
    Forall (fun p => length p = 8%nat /\ head p = Some 0x06) ps /\
    concat (map tail ps) = take 42 ([0xFE; 0xFD; 0x0C] ++ replicate (42 - 3) 0).
Proof.
  apply (sendData_pads_and_truncates [0xFE; 0xFD; 0x0C] listening
           {| kernel_driver_active := false; accepts := fun _ => true;
              attaches := true |}).
  - reflexivity.
  - cbn [take]. repeat constructor; unfold is_byte; lia.
Defined.

Lemma bytes_bad (p : list Z) (st : hb04) :
  ~ Forall is_byte p ->
  bytes p st = (Raise (Exn ValueError "bytes must be in range(0, 256)"), st).
Proof.
  intros Hp. unfold bytes.
  destruct (forallb _ p) eqn:Hf; [|reflexivity].
  exfalso. apply Hp. rewrite Forall_forall. intros b Hb.
  rewrite forallb_forall in Hf. apply list_elem_of_In in Hb.
  specialize (Hf b Hb). unfold is_byte. lia.
Qed.

(** X10: the sending loop stops at the first packet holding an element that
    is not a byte: the packets before it have been handed to the device, the
    ones after it never are, and [ValueError] leaves the loop. *)
Theorem send_packets_stops_at_bad_packet (ps : list (list Z)) (p : list Z)
    (rest : list (list Z)) (st : hb04) (d : usb_device) :
  dev st = Some d ->
  Forall (Forall is_byte) ps ->
  ~ Forall is_byte p ->
  send_packets (ps ++ p :: rest) st
    = (Raise (Exn ValueError "bytes must be in range(0, 256)"),
       set_usb_out (usb_out st ++ ps) st).
Proof.
  revert st. induction ps as [|q ps IH]; intros st Hd Hps Hp.
  - cbn [app send_packets]. unfold bind at 1. rewrite (bytes_bad _ _ Hp).
    unfold set_usb_out. rewrite app_nil_r. by rewrite hb04_eta.
  - apply Forall_cons in Hps as [Hq Hps].
    cbn [app send_packets]. unfold bind at 1. rewrite (bytes_ok _ _ Hq).
    unfold bind at 1, try_except, bind at 1, ctrl_transfer, bind at 1, get_dev,
      bind at 1, gets. rewrite Hd. cbn.
    destruct (accepts d q); cbn.
    + unfold py_assert. rewrite Z.eqb_refl. cbn.
      rewrite IH; [|done|done|done]. cbn. by rewrite <- app_assoc.
    + rewrite IH; [|done|done|done]. cbn. by rewrite <- app_assoc.
Qed.

Lemma send_packets_stops_at_bad_packet_witness :
  send_packets ([[0x06; 1]] ++ [0x06; 256] :: [[0x06; 2]]) listening
    = (Raise (Exn ValueError "bytes must be in range(0, 256)"),
       set_usb_out (usb_out listening ++ [[0x06; 1]]) listening).
Proof.
  apply (send_packets_stops_at_bad_packet [[0x06; 1]] [0x06; 256] [[0x06; 2]] listening
           {| kernel_driver_active := false; accepts := fun _ => true;
              attaches := true |}).
  - reflexivity.
  - repeat constructor; unfold is_byte; lia.
  - intros H. apply Forall_cons in H as [_ H]. apply Forall_cons in H as [H _].
    unfold is_byte in H. lia.
Defined.

Lemma send_packets_no_device (ps : list (list Z)) (st : hb04) :
  dev st = None ->
  Forall (Forall is_byte) ps ->
  send_packets ps st = (Ok tt, st).
Proof.
  intros Hd. induction ps as [|p ps IH]; intros Hps; [reflexivity|].
  apply Forall_cons in Hps as [Hp Hps].
  cbn [send_packets]. unfold bind at 1. rewrite (bytes_ok _ _ Hp).
  unfold bind at 1, try_except, bind at 1, ctrl_transfer, bind at 1, get_dev,
    bind at 1, gets. rewrite Hd. cbn. by apply IH.
Qed.

(** X11: before a device has been found, [sendData] sends nothing and
    reports nothing: each transfer fails on the missing [dev] attribute, the
    [except Exception] around it swallows the error, and the call returns
    normally with the driver object untouched. *)
Theorem sendData_without_device (data : list Z) (st : hb04) :
  dev st = None ->
  Forall is_byte (take 42 data) ->
  sendData data st = (Ok tt, st).
Proof.
  intros Hdev Hb.
  destruct (sendData_packets data) as (ps & Hps & Hn & Hshape & Hcat).
  unfold sendData, bind, lift. rewrite Hps.
  apply (send_packets_no_device _ _ Hdev).
  apply packets_are_bytes; [exact Hshape|].
  rewrite Hcat. by apply take_padded_bytes.
Qed.

Lemma sendData_without_device_witness :
  sendData [0xFE; 0xFD; 0x0C] fresh = (Ok tt, fresh).
Proof.
  apply (sendData_without_device [0xFE; 0xFD; 0x0C] fresh).
  - reflexivity.
  - cbn [take]. repeat constructor; unfold is_byte; lia.
Defined.

(** ** Methods that only send *)

Lemma set_usb_out_same (s : hb04) : set_usb_out (usb_out s ++ []) s = s.
Proof. unfold set_usb_out. rewrite app_nil_r. apply hb04_eta. Qed.

Lemma only_sends_ret {A} (a : A) : only_sends (ret a).
Proof. intros s. exists []. symmetry. apply set_usb_out_same. Qed.

Lemma only_sends_raise {A} (e : exn) : only_sends (@raise A e).
Proof. intros s. exists []. symmetry. apply set_usb_out_same. Qed.

Lemma only_sends_lift {A} (r : result A) : only_sends (lift r).
Proof. intros s. exists []. symmetry. apply set_usb_out_same. Qed.

Lemma only_sends_gets {A} (f : hb04 -> A) : only_sends (gets f).
Proof. intros s. exists []. symmetry. apply set_usb_out_same. Qed.

Lemma only_sends_bind {A B} (c : M A) (k : A -> M B) :
  only_sends c -> (forall a, only_sends (k a)) -> only_sends (bind c k).
Proof.
  intros Hc Hk s. unfold bind. destruct (Hc s) as [o1 H1].
  destruct (c s) as [[a|e] s1]; cbn [snd] in *; [|by exists o1].
  destruct (Hk a s1) as [o2 H2]. exists (o1 ++ o2).
  rewrite H2, H1. cbn [usb_out set_usb_out]. unfold set_usb_out.
  cbn. by rewrite app_assoc.
Qed.

Lemma only_sends_try {A} (c : M A) (catch : exn -> bool) (h : exn -> M A) :
  only_sends c -> (forall e, only_sends (h e)) -> only_sends (try_except c catch h).
Proof.
  intros Hc Hh s. unfold try_except. destruct (Hc s) as [o1 H1].
  destruct (c s) as [[a|e] s1]; cbn [snd] in *; [by exists o1|].
  destruct (catch e); [|by exists o1].
  destruct (Hh e s1) as [o2 H2]. exists (o1 ++ o2).
  rewrite H2, H1. unfold set_usb_out. cbn. by rewrite app_assoc.
Qed.

Lemma only_sends_if {A} (b : bool) (c1 c2 : M A) :
  only_sends c1 -> only_sends c2 -> only_sends (if b then c1 else c2).
Proof. by destruct b. Qed.

Lemma only_sends_get_dev : only_sends get_dev.
Proof.
  unfold get_dev. apply only_sends_bind; [apply only_sends_gets|].
  intros [d|]; [apply only_sends_ret|apply only_sends_raise].
Qed.

Lemma only_sends_ctrl_transfer (p : list Z) : only_sends (ctrl_transfer p).
Proof.
  unfold ctrl_transfer. apply only_sends_bind; [apply only_sends_get_dev|].
  intros d. apply only_sends_bind.
  - intros s. by exists [p].
  - intros _. apply only_sends_if; [apply only_sends_ret|apply only_sends_raise].
Qed.

Lemma only_sends_send_packets (ps : list (list Z)) : only_sends (send_packets ps).
Proof.
  induction ps as [|p ps IH]; cbn [send_packets]; [apply only_sends_ret|].
  apply only_sends_bind.
  { unfold bytes. apply only_sends_if; [apply only_sends_ret|apply only_sends_raise]. }
  intros _data. apply only_sends_bind; [|intros _; exact IH].
  apply only_sends_try; [|intros _; apply only_sends_ret].
  apply only_sends_bind; [apply only_sends_ctrl_transfer|].
  intros r. unfold py_assert.
  apply only_sends_if; [apply only_sends_ret|apply only_sends_raise].
Qed.

Lemma only_sends_sendData (data : list Z) : only_sends (sendData data).
Proof.
  unfold sendData. apply only_sends_bind; [apply only_sends_lift|].
  intros ps. apply only_sends_send_packets.
Qed.

Lemma only_sends_axis_attr (n : string) : only_sends (axis_attr n).
Proof.
  unfold axis_attr. apply only_sends_bind; [apply only_sends_gets|].
  intros al. apply only_sends_lift.
Qed.

Ltac only_sends_step :=
  lazymatch goal with
  | |- only_sends (bind _ _) => apply only_sends_bind; [|intros ?]
  | |- only_sends (axis_attr _) => apply only_sends_axis_attr
  | |- only_sends (sendData _) => apply only_sends_sendData
  | |- only_sends (lift _) => apply only_sends_lift
  | |- only_sends (gets _) => apply only_sends_gets
  | |- only_sends (ret _) => apply only_sends_ret
  end.

Lemma only_sends_updateDisplay : only_sends updateDisplay.
Proof. unfold updateDisplay. repeat only_sends_step. Qed.

(** ** What a refresh can raise *)

Lemma raises_only_ret {A} (P : exn -> bool) (a : A) : raises_only P (ret a).
Proof. intros s e H. discriminate H. Qed.

Lemma raises_only_gets {A} (P : exn -> bool) (f : hb04 -> A) : raises_only P (gets f).
Proof. intros s e H. discriminate H. Qed.

Lemma raises_only_raise {A} (P : exn -> bool) (e : exn) :
  P e = true -> raises_only P (@raise A e).
Proof. intros He s e' [= <-]. exact He. Qed.

Lemma raises_only_lift {A} (P : exn -> bool) (r : result A) :
  (forall e, r = Raise e -> P e = true) -> raises_only P (lift r).
Proof. intros Hr s e H. by apply Hr. Qed.

Lemma raises_only_bind {A B} (P : exn -> bool) (c : M A) (k : A -> M B) :
  raises_only P c -> (forall a, raises_only P (k a)) -> raises_only P (bind c k).
Proof.
  intros Hc Hk s e. unfold bind. specialize (Hc s).
  destruct (c s) as [[a|e1] s1]; cbn [fst] in *.
  - apply Hk.
  - intros [= <-]. by apply Hc.
Qed.

(** A handler that catches every class the body can raise, and passes. *)
Lemma raises_only_try_pass (P Q : exn -> bool) (c : M unit) :
  raises_only Q c -> raises_only P (try_except c Q (fun _ => pass)%method).
Proof.
  intros Hc s e. unfold try_except. specialize (Hc s).
  destruct (c s) as [[a|e1] s1]; cbn [fst] in *; [discriminate|].
  rewrite (Hc e1 eq_refl). discriminate.
Qed.

Lemma raises_only_get_dev : raises_only is_Exception get_dev.
Proof.
  unfold get_dev. apply raises_only_bind; [apply raises_only_gets|].
  intros [d|]; [apply raises_only_ret|by apply raises_only_raise].
Qed.

Lemma raises_only_send_packets (ps : list (list Z)) :
  raises_only is_Exception (send_packets ps).
Proof.
  induction ps as [|p ps IH]; cbn [send_packets]; [apply raises_only_ret|].
  apply raises_only_bind.
  { unfold bytes. destruct (forallb _ p);
      [apply raises_only_ret|by apply raises_only_raise]. }
  intros _data. apply raises_only_bind; [|intros _; exact IH].
  apply raises_only_try_pass.
  apply raises_only_bind.
  - unfold ctrl_transfer. apply raises_only_bind; [apply raises_only_get_dev|].
    intros d. apply raises_only_bind; [intros s e H; discriminate H|].
    intros _. destruct (accepts d _data);
      [apply raises_only_ret|by apply raises_only_raise].
  - intros r. unfold py_assert.
    destruct (r =? _); [apply raises_only_ret|by apply raises_only_raise].
Qed.

Lemma raises_only_sendData (data : list Z) : raises_only is_Exception (sendData data).
Proof.
  unfold sendData. apply raises_only_bind.
  - apply raises_only_lift. intros e He.
    destruct (sendData_packets data) as (ps & Hps & _). congruence.
  - intros ps. apply raises_only_send_packets.
Qed.

Lemma raises_only_axis_attr (n : string) : raises_only is_Exception (axis_attr n).
Proof.
  unfold axis_attr. apply raises_only_bind; [apply raises_only_gets|].
  intros al. apply raises_only_lift. unfold getattr_axis.
  destruct (al !! n); [discriminate|]. by intros e [= <-].
Qed.

Lemma py_int_error_class (x : pynum) (e : exn) :
  py_int x = Raise e -> exn_cls e = OverflowError \/ exn_cls e = ValueError.
Proof.
  destruct x as [n|[]]; cbn [py_int]; try discriminate;
    intros [= <-]; [by left|by right].
Qed.

Lemma to_bytes_error_class (n : Z) (len : nat) (signed : bool) (e : exn) :
  to_bytes n len signed = Raise e -> exn_cls e = OverflowError.
Proof.
  unfold to_bytes. destruct signed.
  - destruct (_ && _); [discriminate|]. by intros [= <-].
  - destruct (n <? 0); [by intros [= <-]|].
    destruct (n <? _); [discriminate|]. by intros [= <-].
Qed.

Lemma limit_num_raise (self : Axis) (x : pynum) (e : exn) :
  limit_num self x = Raise e -> py_int x = Raise e.
Proof.
  unfold limit_num. destruct (integerAxis self).
  - destruct (py_int x) as [n|e1]; cbn [rbind]; [|by intros [= <-]].
    destruct (py_gt _ _); [discriminate|]. destruct (py_lt _ _); discriminate.
  - cbn [rbind]. destruct (py_gt _ _); [discriminate|].
    destruct (py_lt _ _); discriminate.
Qed.

Lemma encode_s16_error_class (self : Axis) (v : pynum) (e : exn) :
  encode_s16 self v = Raise e -> exn_cls e = OverflowError \/ exn_cls e = ValueError.
Proof.
  unfold encode_s16. destruct (limit_num self v) as [l|e1] eqn:Hl; cbn [rbind].
  - destruct (py_int l) as [n|e2] eqn:Hn; cbn [rbind].
    + intros H. left. by apply to_bytes_error_class in H.
    + intros [= <-]. by apply py_int_error_class in Hn.
  - intros [= <-]. apply limit_num_raise in Hl. by apply py_int_error_class in Hl.
Qed.

Lemma display_error_class (self : Axis) (v : pynum) (e : exn) :
  display self v = Raise e -> exn_cls e = OverflowError \/ exn_cls e = ValueError.
Proof.
  unfold display. destruct (integerAxis self).
  - apply encode_s16_error_class.
  - apply encode_float_error_class.
Qed.

Lemma display_raises_exception (self : Axis) (v : pynum) (e : exn) :
  display self v = Raise e -> is_Exception e = true.
Proof.
  intros H. apply display_error_class in H. unfold is_Exception.
  destruct H as [-> | ->]; reflexivity.
Qed.

Ltac raises_only_step :=
  lazymatch goal with
  | |- raises_only _ (bind _ _) => apply raises_only_bind; [|intros ?]
  | |- raises_only _ (axis_attr _) => apply raises_only_axis_attr
  | |- raises_only _ (sendData _) => apply raises_only_sendData
  | |- raises_only _ (lift _) =>
      apply raises_only_lift; intros ?; apply display_raises_exception
  | |- raises_only _ (gets _) => apply raises_only_gets
  | |- raises_only _ (ret _) => apply raises_only_ret
  end.

Lemma raises_only_updateDisplay : raises_only is_Exception updateDisplay.
Proof. unfold updateDisplay. repeat raises_only_step. Qed.

(** [fatal] prints, disconnects and always ends by raising [SystemExit]. *)
Lemma fatal_outcome {A} (exc : option exn) (msg : string) (st : hb04) :
  exists st1,
    fatal (A := A) exc msg st = (Raise (Exn SystemExit "1"), st1) /\
    running st1 = false /\ disconnecting st1 = true /\
    stdout st1 = stdout st ++ [Line ("### FATAL: " +:+ msg); Traceback exc] /\
    usb_out st1 = usb_out st.
Proof.
  unfold fatal. unfold bind at 1. unfold print at 1, modify at 1.
  unfold bind at 1. unfold print_exc at 1, modify at 1.
  unfold bind at 1.
  destruct (disconnect_returns
              (set_stdout (stdout (set_stdout (stdout st ++ [Line ("### FATAL: " +:+ msg)]) st)
                           ++ [Traceback exc])
                 (set_stdout (stdout st ++ [Line ("### FATAL: " +:+ msg)]) st)))
    as (st1 & Hd & Hrun & Hdis & Hout & Husb).
  rewrite Hd. exists st1. split; [reflexivity|].
  split; [exact Hrun|]. split; [exact Hdis|]. split; [|exact Husb].
  rewrite Hout. cbn [stdout set_stdout]. by rewrite <- app_assoc.
Qed.

(** [forceDisplayUpdate] returns, having only sent packets, or ends the
    program through [fatal]. *)
Lemma forceDisplayUpdate_cases (st : hb04) :
  let r := forceDisplayUpdate st in
  (r.1 = Ok tt /\ exists out, r.2 = set_usb_out (usb_out st ++ out) st) \/
  (r.1 = Raise (Exn SystemExit "1") /\
   exists e out, r.2 = (fatal (A := unit) (Some e)
                          ("updateDisplay failing with " +:+ exn_msg e)
                          (set_usb_out (usb_out st ++ out) st)).2).
Proof.
  cbv zeta. unfold forceDisplayUpdate, try_except.
  pose proof (raises_only_updateDisplay st) as Hexc.
  destruct (only_sends_updateDisplay st) as [out Hout].
  destruct (updateDisplay st) as [[[]|e] s1]; cbn [snd fst] in *.
  - left. split; [reflexivity|]. by exists out.
  - right. rewrite (Hexc e eq_refl). subst s1.
    destruct (fatal_outcome (A := unit) (Some e)
                ("updateDisplay failing with " +:+ exn_msg e)
                (set_usb_out (usb_out st ++ out) st)) as (s2 & Hf & _).
    rewrite Hf. split; [reflexivity|]. exists e, out. by rewrite Hf.
Qed.

Lemma forceDisplayUpdate_result (st : hb04) :
  (forceDisplayUpdate st).1 = Ok tt \/
  (forceDisplayUpdate st).1 = Raise (Exn SystemExit "1").
Proof.
  destruct (forceDisplayUpdate_cases st) as [[H _]|[H _]]; [by left|by right].
Qed.

(** X12: a display refresh returns normally or ends in [fatal]; nothing
    else leaves it.  When it returns, the driver object is as before but for
    the packets handed to the device.  Otherwise [updateDisplay] raised an
    [Exception]: the failure is printed with that exception's message and
    traceback, the running flag is cleared, and [SystemExit] is raised. *)
Theorem forceDisplayUpdate_outcome (st : hb04) :
  let r := forceDisplayUpdate st in
  (r.1 = Ok tt /\ exists out, r.2 = set_usb_out (usb_out st ++ out) st) \/
  (r.1 = Raise (Exn SystemExit "1") /\
   running r.2 = false /\ disconnecting r.2 = true /\
   exists e out,
     is_Exception e = true /\
     updateDisplay st = (Raise e, set_usb_out (usb_out st ++ out) st) /\
     usb_out r.2 = usb_out st ++ out /\
     stdout r.2 = stdout st
                    ++ [Line ("### FATAL: updateDisplay failing with " +:+ exn_msg e);
                        Traceback (Some e)]).
Proof.
  cbv zeta. unfold forceDisplayUpdate, try_except.
  pose proof (raises_only_updateDisplay st) as Hexc.
  destruct (only_sends_updateDisplay st) as [out Hout].
  destruct (updateDisplay st) as [[[]|e] s1]; cbn [snd fst] in *.
  - left. split; [reflexivity|]. by exists out.
  - right. rewrite (Hexc e eq_refl).
    set (msg := "updateDisplay failing with " +:+ exn_msg e).
    destruct (fatal_outcome (A := unit) (Some e) msg s1)
      as (s2 & Hf & Hrun & Hdis & Hso & Huo).
    rewrite Hf. cbn [fst snd]. split; [reflexivity|].
    split; [exact Hrun|]. split; [exact Hdis|].
    exists e, out. split; [by apply Hexc|]. split; [by rewrite Hout|].
    rewrite Huo, Hso, Hout. by split.
Qed.

(** ** The display frame *)

(** The frame built by [updateDisplay], given the ten encoded fields. *)
Lemma updateDisplay_layout (st : hb04) (d : usb_device)
    (xa y z feed spindle : Axis) (wx wy wz mx my mz fa sa fs ss : list Z) :
  dev st = Some d ->
  axis_list st !! (if String.eqb (axis_switch st) "a" then "a" else "x") = Some xa ->
  axis_list st !! "y" = Some y ->
  axis_list st !! "z" = Some z ->
  axis_list st !! "feed" = Some feed ->
  axis_list st !! "spindle" = Some spindle ->
  integerAxis xa = false -> integerAxis y = false -> integerAxis z = false ->
  integerAxis feed = true -> integerAxis spindle = true ->
  wc_display xa = Ok wx -> wc_display y = Ok wy -> wc_display z = Ok wz ->
  mc_display xa = Ok mx -> mc_display y = Ok my -> mc_display z = Ok mz ->
  actual_display feed = Ok fa -> actual_display spindle = Ok sa ->
  setrate_display feed = Ok fs -> setrate_display spindle = Ok ss ->
  is_byte (Z.lor (icon st) (multiplier_code st)) ->
  is_byte (units st) ->
  exists ps,
    updateDisplay st = (Ok tt, set_usb_out (usb_out st ++ ps) st) /\
    length ps = 6%nat /\
    Forall (fun p => length p = 8%nat /\ head p = Some 0x06) ps /\
    concat (map tail ps) =
      [0xFE; 0xFD; 0x0C] ++ wx ++ wy ++ wz ++ mx ++ my ++ mz
        ++ fa ++ sa ++ fs ++ ss
        ++ [Z.lor (icon st) (multiplier_code st); units st] ++ replicate 5 0.
Proof.
  intros Hdev Hxa Hy Hz Hfeed Hspindle Ixa Iy Iz Ifeed Ispindle
    Hwx Hwy Hwz Hmx Hmy Hmz Hfa Hsa Hfs Hss Hic Hun.
  set (data := [0xFE; 0xFD; 0x0C] ++ wx ++ wy ++ wz ++ mx ++ my ++ mz
                 ++ fa ++ sa ++ fs ++ ss
                 ++ [Z.lor (icon st) (multiplier_code st); units st]).
  assert (Hupd : updateDisplay st = sendData data st).
  { cbv [updateDisplay bind gets axis_attr getattr_axis lift ret].
    repeat (progress (rewrite ?Hxa, ?Hwx, ?Hy, ?Hwy, ?Hz, ?Hwz, ?Hmx, ?Hmy, ?Hmz,
                        ?Hfeed, ?Hfa, ?Hspindle, ?Hsa, ?Hfs, ?Hss;
                      cbv beta iota zeta)).
    f_equal. subst data. rewrite <- !app_assoc. reflexivity. }
  pose proof (display_shape _ _ _ Hwx) as [Lwx Bwx].
  pose proof (display_shape _ _ _ Hwy) as [Lwy Bwy].
  pose proof (display_shape _ _ _ Hwz) as [Lwz Bwz].
  pose proof (display_shape _ _ _ Hmx) as [Lmx Bmx].
  pose proof (display_shape _ _ _ Hmy) as [Lmy Bmy].
  pose proof (display_shape _ _ _ Hmz) as [Lmz Bmz].
  pose proof (display_shape _ _ _ Hfa) as [Lfa Bfa].
  pose proof (display_shape _ _ _ Hsa) as [Lsa Bsa].
  pose proof (display_shape _ _ _ Hfs) as [Lfs Bfs].
  pose proof (display_shape _ _ _ Hss) as [Lss Bss].
  rewrite Ixa in Lwx, Lmx. rewrite Iy in Lwy, Lmy. rewrite Iz in Lwz, Lmz.
  rewrite Ifeed in Lfa, Lfs. rewrite Ispindle in Lsa, Lss.
  cbv iota in Lwx, Lmx, Lwy, Lmy, Lwz, Lmz, Lfa, Lfs, Lsa, Lss.
  assert (Hlen : length data = 37%nat).
  { subst data. rewrite !length_app, Lwx, Lwy, Lwz, Lmx, Lmy, Lmz, Lfa, Lsa, Lfs, Lss.
    reflexivity. }
  assert (Hbytes : Forall is_byte data).
  { subst data. cbn [app].
    do 3 (constructor; [unfold is_byte; lia|]).
    repeat (apply Forall_app; split; [done|]).
    do 2 (constructor; [assumption|]). constructor. }
  destruct (sendData_packets data) as (ps & Hps & Hn & Hshape & Hcat).
  rewrite Hlen in Hcat. change (42 - 37)%nat with 5%nat in Hcat.
  rewrite take_ge in Hcat by (rewrite length_app, length_replicate; lia).
  exists ps. split; [|split; [exact Hn|split; [exact Hshape|]]].
  - rewrite Hupd. unfold sendData, bind, lift. rewrite Hps.
    apply (send_packets_ok _ _ d Hdev).
    apply packets_are_bytes; [exact Hshape|].
    rewrite Hcat. apply Forall_app. split; [exact Hbytes|].
    apply Forall_replicate. unfold is_byte. lia.
  - rewrite Hcat. subst data. by rewrite <- !app_assoc.
Qed.

Lemma axis_modes_lookup (st : hb04) (n : string) (a a0 : Axis) :
  axis_modes st = axis_modes (reset st) ->
  axis_list st !! n = Some a ->
  reset_axis_list !! n = Some a0 ->
  name a = name a0 /\ integerAxis a = integerAxis a0.
Proof.
  intros Hm Ha Ha0.
  assert (H : axis_modes st !! n = axis_modes (reset st) !! n) by by rewrite Hm.
  unfold axis_modes in H. rewrite !lookup_fmap in H.
  cbn [reset axis_list] in H. rewrite Ha, Ha0 in H. cbn in H.
  by injection H.
Qed.

(** X13: the layout of the display frame.  On a driver whose axes have the
    modes [reset] gave them, when the fields encode and the two attribute
    bytes are bytes, a refresh hands the device six packets carrying, in
    order: FE FD 0C; the work coordinates of x (of a when the switch is on
    a), y and z; their machine coordinates; feed and spindle actual; feed
    and spindle set rate; icon | multiplier; units; and five zero bytes. *)
Theorem updateDisplay_frame (st : hb04) (d : usb_device)
    (xa y z feed spindle : Axis) (wx wy wz mx my mz fa sa fs ss : list Z) :
  axis_modes st = axis_modes (reset st) ->
  dev st = Some d ->
  axis_list st !! (if String.eqb (axis_switch st) "a" then "a" else "x") = Some xa ->
  axis_list st !! "y" = Some y ->
  axis_list st !! "z" = Some z ->
  axis_list st !! "feed" = Some feed ->
  axis_list st !! "spindle" = Some spindle ->
  wc_display xa = Ok wx -> wc_display y = Ok wy -> wc_display z = Ok wz ->
  mc_display xa = Ok mx -> mc_display y = Ok my -> mc_display z = Ok mz ->
  actual_display feed = Ok fa -> actual_display spindle = Ok sa ->
  setrate_display feed = Ok fs -> setrate_display spindle = Ok ss ->
  is_byte (Z.lor (icon st) (multiplier_code st)) ->
  is_byte (units st) ->
  exists ps,
    updateDisplay st = (Ok tt, set_usb_out (usb_out st ++ ps) st) /\
    length ps = 6%nat /\
    Forall (fun p => length p = 8%nat /\ head p = Some 0x06) ps /\
    concat (map tail ps) =
      [0xFE; 0xFD; 0x0C] ++ wx ++ wy ++ wz ++ mx ++ my ++ mz
        ++ fa ++ sa ++ fs ++ ss
        ++ [Z.lor (icon st) (multiplier_code st); units st] ++ replicate 5 0.
Proof.
  intros Hm Hdev Hxa Hy Hz Hfeed Hspindle
    Hwx Hwy Hwz Hmx Hmy Hmz Hfa Hsa Hfs Hss Hic Hun.
  assert (Ixa : integerAxis xa = false).
  { destruct (String.eqb (axis_switch st) "a").
    - by destruct (axis_modes_lookup st "a" xa (new_Axis "a" false) Hm Hxa eq_refl).
    - by destruct (axis_modes_lookup st "x" xa (new_Axis "x" false) Hm Hxa eq_refl). }
  destruct (axis_modes_lookup st "y" y (new_Axis "y" false) Hm Hy eq_refl) as [_ Iy].
  destruct (axis_modes_lookup st "z" z (new_Axis "z" false) Hm Hz eq_refl) as [_ Iz].
  destruct (axis_modes_lookup st "feed" feed (new_Axis "feed" true) Hm Hfeed eq_refl)
    as [_ Ifeed].
  destruct (axis_modes_lookup st "spindle" spindle (new_Axis "spindle" true) Hm
              Hspindle eq_refl) as [_ Ispindle].
  cbn [integerAxis new_Axis] in *.
  destruct (updateDisplay_layout st d xa y z feed spindle wx wy wz mx my mz fa sa fs ss)
    as (ps & Hu & Hn & Hshape & Hcat); try done.
  by exists ps.
Qed.

Lemma updateDisplay_frame_witness :
  exists ps,
    updateDisplay listening = (Ok tt, set_usb_out (usb_out listening ++ ps) listening) /\
    length ps = 6%nat /\
    Forall (fun p => length p = 8%nat /\ head p = Some 0x06) ps /\
    concat (map tail ps) =
      [0xFE; 0xFD; 0x0C] ++ [0; 0; 0; 0] ++ [0; 0; 0; 0] ++ [0; 0; 0; 0]
        ++ [0; 0; 0; 0] ++ [0; 0; 0; 0] ++ [0; 0; 0; 0]
        ++ [0; 0] ++ [0; 0] ++ [0; 0] ++ [0; 0]
        ++ [Z.lor (icon listening) (multiplier_code listening); units listening]
        ++ replicate 5 0.
Proof.
  apply (updateDisplay_frame listening
           {| kernel_driver_active := false; accepts := fun _ => true;
              attaches := true |}
           (new_Axis "x" false) (new_Axis "y" false) (new_Axis "z" false)
           (new_Axis "feed" true) (new_Axis "spindle" true));
    try reflexivity; vm_compute; split; congruence.
Defined.

(** ** set_display_attribute on a known name *)

Ltac eval_tables a :=
  let u := eval vm_compute in (units_values !! a) in
  change (units_values !! a) with u;
  let i := eval vm_compute in (icon_values !! a) in
  change (icon_values !! a) with i;
  let m := eval vm_compute in (multiplier_values !! a) in
  change (multiplier_values !! a) with m.

(** Every name of [display_attributes] is in exactly one of the three
    tables, and the method sets that attribute before it refreshes. *)
Lemma set_display_attribute_known (attribute : string) (st : hb04) :
  attribute ∈ display_attributes ->
  exists st',
    set_display_attribute attribute st = forceDisplayUpdate st' /\
    ((exists v, units_values !! attribute = Some v /\
                icon_values !! attribute = None /\
                multiplier_values !! attribute = None /\ st' = set_units v st) \/
     (exists v, icon_values !! attribute = Some v /\
                units_values !! attribute = None /\
                multiplier_values !! attribute = None /\ st' = set_icon v st) \/
     (exists v, multiplier_values !! attribute = Some v /\
                units_values !! attribute = None /\
                icon_values !! attribute = None /\ st' = set_multiplier_code v st)).
Proof.
  intros Hin. unfold set_display_attribute.
  rewrite (bool_decide_eq_true_2 _ Hin). cbn [negb].
  unfold display_attributes in Hin.
  cbn [keys map fst app units_values_items icon_values_items
         multiplier_values_items] in Hin.
  rewrite !elem_of_cons, elem_of_nil in Hin.
  repeat (destruct Hin as [->|Hin];
    [ match goal with
      | |- context [units_values !! ?a] => eval_tables a
      end;
      cbv beta iota; unfold bind, modify; eexists; split; [reflexivity|];
      first [ left; eexists; by repeat split
            | right; left; eexists; by repeat split
            | right; right; eexists; by repeat split ]
    | ]).
  destruct Hin.
Qed.

(** X14: on a name of [display_attributes], [set_display_attribute] stores
    the table's code in the one attribute whose table has the name -- units,
    icon or multiplier -- and leaves the other two, the axes and the switch
    position as they were; it then returns, or ends in [fatal] when the
    refresh fails. *)
Theorem set_display_attribute_sets_one (attribute : string) (st : hb04) :
  attribute ∈ display_attributes ->
  let r := set_display_attribute attribute st in
  (r.1 = Ok tt \/ r.1 = Raise (Exn SystemExit "1")) /\
  axis_list r.2 = axis_list st /\ axis_switch r.2 = axis_switch st /\
  ((exists v, units_values !! attribute = Some v /\ units r.2 = v /\
              icon r.2 = icon st /\ multiplier_code r.2 = multiplier_code st) \/
   (exists v, icon_values !! attribute = Some v /\ icon r.2 = v /\
              units r.2 = units st /\ multiplier_code r.2 = multiplier_code st) \/
   (exists v, multiplier_values !! attribute = Some v /\ multiplier_code r.2 = v /\
              units r.2 = units st /\ icon r.2 = icon st)).
Proof.
  intros Hin. cbv zeta.
  destruct (set_display_attribute_known attribute st Hin) as (st' & -> & Hcases).
  destruct (keeps_forceDisplayUpdate st') as (Hal & Hic & Hun & Hmu & Hsw & _).
  split; [apply forceDisplayUpdate_result|].
  rewrite Hal, Hic, Hun, Hmu, Hsw.
  destruct Hcases as [(v & Hv & _ & _ & ->)|[(v & Hv & _ & _ & ->)|(v & Hv & _ & _ & ->)]].
  - split; [reflexivity|]. split; [reflexivity|]. left. by exists v.
  - split; [reflexivity|]. split; [reflexivity|]. right; left. by exists v.
  - split; [reflexivity|]. split; [reflexivity|]. right; right. by exists v.
Qed.

Lemma set_display_attribute_sets_one_witness :
  let r := set_display_attribute "inch" listening in
  (r.1 = Ok tt \/ r.1 = Raise (Exn SystemExit "1")) /\
  axis_list r.2 = axis_list listening /\ axis_switch r.2 = axis_switch listening /\
  ((exists v, units_values !! "inch" = Some v /\ units r.2 = v /\
              icon r.2 = icon listening /\
              multiplier_code r.2 = multiplier_code listening) \/
   (exists v, icon_values !! "inch" = Some v /\ icon r.2 = v /\
              units r.2 = units listening /\
              multiplier_code r.2 = multiplier_code listening) \/
   (exists v, multiplier_values !! "inch" = Some v /\ multiplier_code r.2 = v /\
              units r.2 = units listening /\ icon r.2 = icon listening)).
Proof.
  apply (set_display_attribute_sets_one "inch" listening).
  apply (bool_decide_unpack _). vm_compute. exact I.
Defined.

(** X15: the last branch of [set_display_attribute] is dead: whatever the
    name and the state, the call returns, raises the [NameError] of the
    warning (exactly when the name is not a display attribute), or ends in
    [fatal]; [RuntimeError] is never raised. *)
Theorem set_display_attribute_outcomes (attribute : string) (st : hb04) :
  let r := (set_display_attribute attribute st).1 in
  (r = Ok tt \/ r = Raise (Exn SystemExit "1") \/
   r = Raise (Exn NameError "name 'value' is not defined")) /\
  (r = Raise (Exn NameError "name 'value' is not defined") <->
   attribute ∉ display_attributes) /\
  (forall msg, r <> Raise (Exn RuntimeError msg)).
Proof.
  cbv zeta. destruct (decide (attribute ∈ display_attributes)) as [Hin|Hnin].
  - destruct (set_display_attribute_known attribute st Hin) as (st' & -> & _).
    destruct (forceDisplayUpdate_result st') as [-> | ->].
    + split; [by left|]. split; [|discriminate]. split; [discriminate|done].
    + split; [by right; left|]. split; [|discriminate]. split; [discriminate|done].
  - unfold set_display_attribute.
    rewrite (bool_decide_eq_false_2 _ Hnin). cbn [negb raise fst].
    split; [by right; right|]. split; [done|discriminate].
Qed.

(** ** axis_value and the refresh it forces *)

(** [updateDisplay] builds its list without touching the driver object,
    and hands it to [sendData]. *)
Lemma updateDisplay_frame_data (st : hb04) :
  updateDisplay st = bind (lift (frame_data st)) sendData st.
Proof.
  cbv [updateDisplay frame_data bind gets axis_attr lift ret rbind].
  repeat match goal with
         | |- context [match getattr_axis ?al ?n with _ => _ end] =>
             destruct (getattr_axis al n); [|reflexivity]
         | |- context [match wc_display ?a with _ => _ end] =>
             destruct (wc_display a); [|reflexivity]
         | |- context [match mc_display ?a with _ => _ end] =>
             destruct (mc_display a); [|reflexivity]
         | |- context [match actual_display ?a with _ => _ end] =>
             destruct (actual_display a); [|reflexivity]
         | |- context [match setrate_display ?a with _ => _ end] =>
             destruct (setrate_display a); [|reflexivity]
         end.
  by rewrite <- !app_assoc.
Qed.

Lemma send_packets_returns_bytes (ps : list (list Z)) (st s' : hb04) (d : usb_device) :
  dev st = Some d ->
  send_packets ps st = (Ok tt, s') ->
  Forall (Forall is_byte) ps.
Proof.
  revert st. induction ps as [|p ps IH]; intros st Hd Hs; [constructor|].
  cbn [send_packets] in Hs. unfold bind at 1 in Hs.
  assert (Hp : Forall is_byte p).
  { unfold bytes in Hs. destruct (forallb _ p) eqn:Hf; [|discriminate Hs].
    rewrite Forall_forall. intros b Hin.
    rewrite forallb_forall in Hf. apply list_elem_of_In in Hin.
    specialize (Hf b Hin). unfold is_byte. lia. }
  constructor; [exact Hp|].
  rewrite (bytes_ok _ _ Hp) in Hs. unfold bind at 1 in Hs.
  pose proof (send_packets_ok [p] st d Hd) as Hone.
  cbn [send_packets] in Hone. unfold bind at 1 in Hone.
  rewrite (bytes_ok _ _ Hp) in Hone. unfold bind at 1 in Hone.
  specialize (Hone ltac:(by repeat constructor)).
  destruct (try_except _ _ _ st) as [[[]|e] s1]; [|discriminate Hone].
  cbn in Hone. injection Hone as ->.
  by apply (IH (set_usb_out (usb_out st ++ [p]) st)).
Qed.

(** When the sending loop returns, every packet was made of bytes and was
    handed to the device. *)
Lemma send_packets_returns (ps : list (list Z)) (st s' : hb04) (d : usb_device) :
  dev st = Some d ->
  send_packets ps st = (Ok tt, s') ->
  s' = set_usb_out (usb_out st ++ ps) st.
Proof.
  intros Hd Hs.
  pose proof (send_packets_returns_bytes ps st s' d Hd Hs) as Hb.
  rewrite (send_packets_ok ps st d Hd Hb) in Hs. congruence.
Qed.

(** A refresh that returns, on a driver with a device: the list built from
    the driver object went out in six packets, and nothing else changed. *)
Lemma refresh_returns (st : hb04) (d : usb_device) :
  dev st = Some d ->
  (forceDisplayUpdate st).1 = Ok tt ->
  exists data ps,
    frame_data st = Ok data /\
    (forceDisplayUpdate st).2 = set_usb_out (usb_out st ++ ps) st /\
    length ps = 6%nat /\
    Forall (fun p => length p = 8%nat /\ head p = Some 0x06) ps /\
    concat (map tail ps) = take 42 (data ++ replicate (42 - length data) 0).
Proof.
  intros Hd Hok.
  assert (Hu : exists s', updateDisplay st = (Ok tt, s')
                          /\ (forceDisplayUpdate st).2 = s').
  { unfold forceDisplayUpdate, try_except in *.
    pose proof (raises_only_updateDisplay st) as Hexc.
    destruct (updateDisplay st) as [[[]|e] s1]; [by exists s1|].
    exfalso. rewrite (Hexc e eq_refl) in Hok.
    by destruct (fatal_outcome (A := unit) (Some e)
                   ("updateDisplay failing with " +:+ exn_msg e) s1)
         as (s2 & Hf & _); rewrite Hf in Hok. }
  destruct Hu as (s' & Hu & ->).
  rewrite updateDisplay_frame_data in Hu. unfold bind at 1, lift at 1 in Hu.
  destruct (frame_data st) as [data|e]; [|discriminate Hu].
  destruct (sendData_packets data) as (ps & Hps & Hn & Hshape & Hcat).
  exists data, ps. split; [reflexivity|].
  split; [|by repeat split].
  unfold sendData, bind, lift in Hu. rewrite Hps in Hu.
  by apply (send_packets_returns ps st s' d).
Qed.

(** C9: for a known axis name, with only the work coordinate or only the
    machine coordinate given, [axis_value] stores the given value in that
    field of that axis object and changes nothing else in the driver
    object: the other coordinate, the name and the mode of that axis, every
    other axis, the display attributes and the switch position are as
    before.  It then runs the display refresh on exactly that state before
    returning; when a device is attached and the call returns, what went out
    is the frame of the updated state, in six packets of 8 bytes starting
    with 0x06, and the driver object is the updated state with those
    packets recorded. *)
Theorem axis_value_sets_one_coordinate (axis_name : string) (ax : Axis) (v : pynum) (st : hb04) :
  axis_list st !! axis_name = Some ax ->
  (let st1 := set_axis_list (alter (set_work_coordinate v) axis_name (axis_list st)) st in
   let r := axis_value axis_name (Some v) None st in
   r = forceDisplayUpdate st1 /\
   same_settings st1 r.2 /\
   axis_list r.2 !! axis_name =
     Some {| name := name ax; integerAxis := integerAxis ax;
             work_coordinate := v;
             machine_coordinate := machine_coordinate ax |} /\
   (forall other, other <> axis_name ->
      axis_list r.2 !! other = axis_list st !! other) /\
   icon r.2 = icon st /\ units r.2 = units st /\
   multiplier_code r.2 = multiplier_code st /\ axis_switch r.2 = axis_switch st /\
   (forall d, dev st = Some d -> r.1 = Ok tt ->
      exists data ps,
        frame_data st1 = Ok data /\
        r.2 = set_usb_out (usb_out st ++ ps) st1 /\
        length ps = 6%nat /\
        Forall (fun p => length p = 8%nat /\ head p = Some 0x06) ps /\
        concat (map tail ps) = take 42 (data ++ replicate (42 - length data) 0))) /\
  (let st1 := set_axis_list (alter (set_machine_coordinate v) axis_name (axis_list st)) st in
   let r := axis_value axis_name None (Some v) st in
   r = forceDisplayUpdate st1 /\
   same_settings st1 r.2 /\
   axis_list r.2 !! axis_name =
     Some {| name := name ax; integerAxis := integerAxis ax;
             work_coordinate := work_coordinate ax;
             machine_coordinate := v |} /\
   (forall other, other <> axis_name ->
      axis_list r.2 !! other = axis_list st !! other) /\
   icon r.2 = icon st /\ units r.2 = units st /\
   multiplier_code r.2 = multiplier_code st /\ axis_switch r.2 = axis_switch st /\
   (forall d, dev st = Some d -> r.1 = Ok tt ->
      exists data ps,
        frame_data st1 = Ok data /\
        r.2 = set_usb_out (usb_out st ++ ps) st1 /\
        length ps = 6%nat /\
        Forall (fun p => length p = 8%nat /\ head p = Some 0x06) ps /\
        concat (map tail ps) = take 42 (data ++ replicate (42 - length data) 0))).
Proof.
  intros Hax. split.
  - cbv zeta. rewrite (axis_value_known _ _ (Some v) None st Hax).
    set (st1 := set_axis_list _ st).
    pose proof (keeps_forceDisplayUpdate st1) as Hk.
    split; [reflexivity|]. split; [exact Hk|].
    destruct Hk as (Hal & Hic & Hun & Hmu & Hsw & _).
    rewrite Hal, Hic, Hun, Hmu, Hsw.
    split; [subst st1; cbn [axis_list set_axis_list];
            by rewrite lookup_alter_eq, Hax|].
    split; [intros other Hne; subst st1; cbn [axis_list set_axis_list];
            by rewrite lookup_alter_ne|].
    do 4 (split; [reflexivity|]).
    intros d Hd Hok. exact (refresh_returns st1 d Hd Hok).
  - cbv zeta. rewrite (axis_value_known _ _ None (Some v) st Hax).
    set (st1 := set_axis_list _ st).
    pose proof (keeps_forceDisplayUpdate st1) as Hk.
    split; [reflexivity|]. split; [exact Hk|].
    destruct Hk as (Hal & Hic & Hun & Hmu & Hsw & _).
    rewrite Hal, Hic, Hun, Hmu, Hsw.
    split; [subst st1; cbn [axis_list set_axis_list];
            by rewrite lookup_alter_eq, Hax|].
    split; [intros other Hne; subst st1; cbn [axis_list set_axis_list];
            by rewrite lookup_alter_ne|].
    do 4 (split; [reflexivity|]).
    intros d Hd Hok. exact (refresh_returns st1 d Hd Hok).
Qed.

Lemma axis_value_sets_one_coordinate_witness :
  let v := PyFloat (S754_finite false 6755399441055744 (-52)) in
  let ax := new_Axis "x" false in
  (let st1 := set_axis_list (alter (set_work_coordinate v) "x" (axis_list listening))
                listening in
   let r := axis_value "x" (Some v) None listening in
   r = forceDisplayUpdate st1 /\
   same_settings st1 r.2 /\
   axis_list r.2 !! "x" =
     Some {| name := name ax; integerAxis := integerAxis ax;
             work_coordinate := v;
             machine_coordinate := machine_coordinate ax |} /\
   (forall other, other <> "x" ->
      axis_list r.2 !! other = axis_list listening !! other) /\
   icon r.2 = icon listening /\ units r.2 = units listening /\
   multiplier_code r.2 = multiplier_code listening /\
   axis_switch r.2 = axis_switch listening /\
   (forall d, dev listening = Some d -> r.1 = Ok tt ->
      exists data ps,
        frame_data st1 = Ok data /\
        r.2 = set_usb_out (usb_out listening ++ ps) st1 /\
        length ps = 6%nat /\
        Forall (fun p => length p = 8%nat /\ head p = Some 0x06) ps /\
        concat (map tail ps) = take 42 (data ++ replicate (42 - length data) 0))) /\
  (let st1 := set_axis_list (alter (set_machine_coordinate v) "x" (axis_list listening))
                listening in
   let r := axis_value "x" None (Some v) listening in
   r = forceDisplayUpdate st1 /\
   same_settings st1 r.2 /\
   axis_list r.2 !! "x" =
     Some {| name := name ax; integerAxis := integerAxis ax;
             work_coordinate := work_coordinate ax;
             machine_coordinate := v |} /\
   (forall other, other <> "x" ->
      axis_list r.2 !! other = axis_list listening !! other) /\
   icon r.2 = icon listening /\ units r.2 = units listening /\
   multiplier_code r.2 = multiplier_code listening /\
   axis_switch r.2 = axis_switch listening /\
   (forall d, dev listening = Some d -> r.1 = Ok tt ->
      exists data ps,
        frame_data st1 = Ok data /\
        r.2 = set_usb_out (usb_out listening ++ ps) st1 /\
        length ps = 6%nat /\
        Forall (fun p => length p = 8%nat /\ head p = Some 0x06) ps /\
        concat (map tail ps) = take 42 (data ++ replicate (42 - length data) 0))).
Proof.
  intros v ax.
  apply (axis_value_sets_one_coordinate "x" ax v listening).
  reflexivity.
Defined.

(** The frame that goes out after x's work coordinate was set to 1.5: the
    work field of x holds 01 00 88 13, every other field is zero. *)
Lemma frame_data_after_axis_value :
  let v := PyFloat (S754_finite false 6755399441055744 (-52)) in
  frame_data (set_axis_list (alter (set_work_coordinate v) "x" (axis_list listening))
                listening)
    = Ok ([0xFE; 0xFD; 0x0C] ++ [0x01; 0x00; 0x88; 0x13] ++ replicate 28 0 ++ [1; 0]).
Proof. vm_compute. reflexivity. Qed.

(** ** axis_value, whatever its arguments *)

Lemma axis_modes_alter (st : hb04) (n : string) (f : Axis -> Axis) :
  (forall a, name (f a) = name a /\ integerAxis (f a) = integerAxis a) ->
  axis_modes (set_axis_list (alter f n (axis_list st)) st) = axis_modes st.
Proof.
  intros Hf. unfold axis_modes. cbn [axis_list set_axis_list].
  apply map_eq. intros k. rewrite !lookup_fmap.
  destruct (decide (k = n)) as [->|Hne].
  - rewrite lookup_alter_eq. destruct (axis_list st !! n) as [a|]; [|done].
    cbn. destruct (Hf a) as [-> ->]. done.
  - by rewrite lookup_alter_ne.
Qed.

Lemma axis_modes_same (s s' : hb04) :
  same_settings s s' -> axis_modes s' = axis_modes s.
Proof. intros (Hal & _). unfold axis_modes. by rewrite Hal. Qed.

(** X16: [axis_value] never adds or removes an axis and never changes an
    axis's name or mode, whatever it is given; axes other than the named one
    keep their coordinates; on the named axis each coordinate that is given
    is stored and each that is left out is kept; and the call returns or
    ends in [fatal] from the refresh -- no other exception leaves it. *)
Theorem axis_value_keeps_axes (axis_name : string) (wc mc : option pynum) (st : hb04) :
  let r := axis_value axis_name wc mc st in
  (r.1 = Ok tt \/ r.1 = Raise (Exn SystemExit "1")) /\
  axis_modes r.2 = axis_modes st /\
  (forall other, other <> axis_name ->
     axis_list r.2 !! other = axis_list st !! other) /\
  axis_list r.2 !! axis_name =
    (fun ax => {| name := name ax; integerAxis := integerAxis ax;
                  work_coordinate := default (work_coordinate ax) wc;
                  machine_coordinate := default (machine_coordinate ax) mc |})
      <$> axis_list st !! axis_name.
Proof.
  cbv zeta. destruct (axis_list st !! axis_name) as [ax|] eqn:Hax.
  - rewrite (axis_value_known axis_name ax wc mc st Hax).
    split; [apply forceDisplayUpdate_result|].
    match goal with |- context [forceDisplayUpdate ?s] => set (st' := s) end.
    pose proof (keeps_forceDisplayUpdate st') as Hk.
    rewrite (axis_modes_same _ _ Hk). destruct Hk as (-> & _).
    subst st'. split; [|split].
    + destruct wc as [w|], mc as [m|]; rewrite ?axis_modes_alter; done.
    + intros other Hne.
      destruct wc as [w|], mc as [m|]; cbn [axis_list set_axis_list];
        rewrite ?lookup_alter_ne; done.
    + destruct wc as [w|], mc as [m|]; cbn [axis_list set_axis_list];
        rewrite ?lookup_alter_eq, ?Hax; cbn; try done.
      by destruct ax.
  - destruct (unknown_axis_falls_through axis_name wc mc st Hax) as (st1 & Hf & ->).
    split; [apply forceDisplayUpdate_result|].
    pose proof (keeps_fatal (A := unit) None ("### Can't find axis " +:+ axis_name) st)
      as Hk1.
    rewrite Hf in Hk1. cbn [snd] in Hk1.
    pose proof (keeps_forceDisplayUpdate st1) as Hk2.
    pose proof (same_settings_trans _ _ _ Hk1 Hk2) as Hk.
    rewrite (axis_modes_same _ _ Hk). destruct Hk as (-> & _).
    split; [done|]. split; [done|]. by rewrite Hax.
Qed.

(** ** disconnect and fatal *)

(** X17: [disconnect] always returns normally, whatever the device does:
    it clears the running flag, sets the disconnecting flag, and leaves the
    settings, the output and the [reattach] mark alone.  The kernel driver
    is attached only if the driver had recorded detaching it, a device is
    there, and the attach goes through; when the query or the attach fails,
    the error is swallowed and the device is left as it was. *)
Theorem disconnect_best_effort (st : hb04) :
  exists st1,
    disconnect st = (Ok tt, st1) /\
    running st1 = false /\ disconnecting st1 = true /\
    same_settings st st1 /\
    stdout st1 = stdout st /\ usb_out st1 = usb_out st /\
    reattach st1 = reattach st /\
    dev st1 = (fun d => {| kernel_driver_active :=
                             kernel_driver_active d || (reattach st && attaches d);
                           accepts := accepts d; attaches := attaches d |})
                <$> dev st /\
    (forall d, dev st = Some d -> attaches d = false -> dev st1 = Some d).
Proof.
  destruct st as [al ic un mu sw re rc ru di d so uo hc].
  destruct re, d as [[[] w []]|]; eexists; (split; [reflexivity|]);
    repeat split; try done; by intros d' [= <-].
Qed.

(** X18: [fatal] never returns.  It prints the message and the traceback,
    disconnects, and raises [SystemExit] with code 1 -- so whatever follows
    a call of [fatal] in a method is not run. *)
Theorem fatal_never_returns {A B} (exc : option exn) (msg : string)
    (k : A -> M B) (st : hb04) :
  exists st1,
    fatal (A := A) exc msg st = (Raise (Exn SystemExit "1"), st1) /\
    bind (fatal exc msg) k st = (Raise (Exn SystemExit "1"), st1) /\
    is_Exception (Exn SystemExit "1") = false /\
    running st1 = false /\ disconnecting st1 = true /\
    same_settings st st1 /\
    stdout st1 = stdout st ++ [Line ("### FATAL: " +:+ msg); Traceback exc].
Proof.
  destruct (fatal_outcome (A := A) exc msg st) as (st1 & Hf & Hrun & Hdis & Hout & _).
  pose proof (keeps_fatal (A := A) exc msg st) as Hk. rewrite Hf in Hk.
  exists st1. unfold bind at 1. rewrite Hf.
  split; [reflexivity|]. split; [reflexivity|]. split; [reflexivity|].
  split; [exact Hrun|]. split; [exact Hdis|]. split; [exact Hk|exact Hout].
Qed.

(** ** reset *)

(** X19: after [reset] there are exactly eight axes, each stored under its
    own name with both coordinates 0.0; feed, feed-actual, spindle and
    spindle-actual are the integer axes; and resetting again changes
    nothing. *)
Theorem reset_axes (self : hb04) (n : string) :
  reset (reset self) = reset self /\
  (is_Some (axis_list (reset self) !! n) <->
   n ∈ ["x"; "y"; "z"; "a"; "feed"; "feed-actual"; "spindle"; "spindle-actual"]) /\
  (forall a, axis_list (reset self) !! n = Some a ->
     a = new_Axis n (bool_decide
                       (n ∈ ["feed"; "feed-actual"; "spindle"; "spindle-actual"]))).
Proof.
  split; [reflexivity|]. cbn [reset axis_list].
  unfold reset_axis_list. cbn [foldl]. split.
  - rewrite !elem_of_cons, elem_of_nil. unfold is_Some. split.
    + intros [a Ha].
      repeat (apply lookup_insert_Some in Ha as [[<- _]|[_ Ha]]; [tauto|]).
      by rewrite lookup_empty in Ha.
    + intros Hn. repeat (destruct Hn as [->|Hn]; [by eexists|]). destruct Hn.
  - intros a Ha.
    repeat (apply lookup_insert_Some in Ha as [[<- <-]|[_ Ha]]; [reflexivity|]).
    by rewrite lookup_empty in Ha.
Qed.

(** X20: the frame of a driver that has just been reset.  With a device
    attached, the first refresh after [reset] sends FE FD 0C, thirty-two
    zero bytes for the ten fields, 01 for the multiplier, 00 for the units,
    and five zero bytes of padding. *)
Theorem refresh_after_reset (self : hb04) (d : usb_device) :
  dev self = Some d ->
  exists ps,
    updateDisplay (reset self)
      = (Ok tt, set_usb_out (usb_out self ++ ps) (reset self)) /\
    length ps = 6%nat /\
    Forall (fun p => length p = 8%nat /\ head p = Some 0x06) ps /\
    concat (map tail ps) = [0xFE; 0xFD; 0x0C] ++ replicate 32 0 ++ [1; 0] ++ replicate 5 0.
Proof.
  intros Hdev.
  destruct (updateDisplay_layout (reset self) d
              (new_Axis "x" false) (new_Axis "y" false) (new_Axis "z" false)
              (new_Axis "feed" true) (new_Axis "spindle" true)
              [0; 0; 0; 0] [0; 0; 0; 0] [0; 0; 0; 0]
              [0; 0; 0; 0] [0; 0; 0; 0] [0; 0; 0; 0]
              [0; 0] [0; 0] [0; 0] [0; 0])
    as (ps & Hu & Hn & Hshape & Hcat);
    try reflexivity; try exact Hdev; try (vm_compute; split; congruence).
  exists ps. split; [exact Hu|]. split; [exact Hn|]. split; [exact Hshape|].
  rewrite Hcat. reflexivity.
Qed.

Lemma refresh_after_reset_witness :
  exists ps,
    updateDisplay (reset listening)
      = (Ok tt, set_usb_out (usb_out listening ++ ps) (reset listening)) /\
    length ps = 6%nat /\
    Forall (fun p => length p = 8%nat /\ head p = Some 0x06) ps /\
    concat (map tail ps) = [0xFE; 0xFD; 0x0C] ++ replicate 32 0 ++ [1; 0] ++ replicate 5 0.
Proof.
  apply (refresh_after_reset listening
           {| kernel_driver_active := false; accepts := fun _ => true;
              attaches := true |}).
  reflexivity.
Defined.

(** ** Connecting *)

Lemma find_loop_polls (n : nat) (rest : list (option usb_device)) (once : bool)
    (st : hb04) :
  disconnecting st = false ->
  find_loop (replicate n None ++ rest) once st
    = find_loop rest (once || (0 <? n)%nat) (after_polls n once st).
Proof.
  revert once st. induction n as [|n IH]; intros once st Hdis.
  - cbn [replicate app after_polls]. by rewrite orb_false_r.
  - cbn [replicate app find_loop]. unfold bind at 1, gets at 1. rewrite Hdis.
    unfold bind at 1, modify at 1. unfold bind at 1.
    assert (Hstep : (if negb once
                     then print "HB04 not found. Please attach to continue..."
                     else pass%method) (set_dev None st)
                    = (Ok tt, after_polls 1 once st)).
    { destruct st, once; cbn; by rewrite ?app_nil_r. }
    rewrite Hstep. rewrite IH by (by destruct st, once).
    change (0 <? S n)%nat with true. rewrite orb_true_r. cbn [orb].
    f_equal. destruct n; [reflexivity|].
    destruct st, once; cbn; by rewrite ?app_nil_r.
Qed.

(** X21: while no device is found, [connect_hb04] goes on polling and
    prints its notice once, at the first unsuccessful poll, however many
    polls follow; the driver is not running and nothing is sent. *)
Theorem connect_hb04_notice_once (n : nat) (st : hb04) :
  (0 < n)%nat ->
  let r := connect_hb04 (replicate n None) (Ok tt) st in
  r.1 = Ok None /\
  stdout r.2 = stdout st ++ [Line "HB04 not found. Please attach to continue..."] /\
  dev r.2 = None /\ running r.2 = running st /\ usb_out r.2 = usb_out st /\
  same_settings st r.2.
Proof.
  intros Hn. cbv zeta.
  assert (Hr : connect_hb04 (replicate n None) (Ok tt) st
               = (Ok None, after_polls n false (set_disconnecting false st))).
  { unfold connect_hb04. unfold bind at 1, modify at 1. unfold bind at 1.
    rewrite <- (app_nil_r (replicate n None)).
    rewrite find_loop_polls by reflexivity.
    by destruct n. }
  rewrite Hr. destruct n as [|n]; [lia|]. by repeat split.
Qed.

Lemma connect_hb04_notice_once_witness :
  let r := connect_hb04 (replicate 3 None) (Ok tt) fresh in
  r.1 = Ok None /\
  stdout r.2 = stdout fresh ++ [Line "HB04 not found. Please attach to continue..."] /\
  dev r.2 = None /\ running r.2 = running fresh /\ usb_out r.2 = usb_out fresh /\
  same_settings fresh r.2.
Proof. apply (connect_hb04_notice_once 3 fresh). lia. Defined.

(** What the re-attachment in [disconnect] does to the device object: the
    kernel driver holds the device afterwards if it held it before, or if
    the driver had recorded detaching it and the attach went through. *)
Lemma disconnect_dev (st : hb04) :
  dev (disconnect st).2
    = (fun d => {| kernel_driver_active :=
                     kernel_driver_active d || (reattach st && attaches d);
                   accepts := accepts d; attaches := attaches d |}) <$> dev st /\
  reattach (disconnect st).2 = reattach st /\
  (disconnect st).1 = Ok tt.
Proof.
  destruct st as [al ic un mu sw re rc ru di d so uo hc].
  by destruct re, d as [[[] w []]|].
Qed.

Lemma fatal_dev {A} (exc : option exn) (msg : string) (st : hb04) :
  dev (fatal (A := A) exc msg st).2
    = (fun d => {| kernel_driver_active :=
                     kernel_driver_active d || (reattach st && attaches d);
                   accepts := accepts d; attaches := attaches d |}) <$> dev st /\
  reattach (fatal (A := A) exc msg st).2 = reattach st.
Proof.
  destruct st as [al ic un mu sw re rc ru di d so uo hc].
  by destruct re, d as [[[] w []]|].
Qed.

(** A refresh followed by [disconnect]: whether the refresh returned or
    ended in [fatal], the device ends as one [disconnect] leaves it. *)
Lemma refresh_then_disconnect (st : hb04) :
  dev (disconnect (forceDisplayUpdate st).2).2
    = (fun d => {| kernel_driver_active :=
                     kernel_driver_active d || (reattach st && attaches d);
                   accepts := accepts d; attaches := attaches d |}) <$> dev st /\
  (disconnect (forceDisplayUpdate st).2).1 = Ok tt.
Proof.
  split; [|by destruct (disconnect_dev (forceDisplayUpdate st).2) as (_ & _ & ?)].
  destruct (forceDisplayUpdate_cases st) as [[_ [out ->]]|[_ (e & out & ->)]].
  - by destruct (disconnect_dev (set_usb_out (usb_out st ++ out) st)) as [-> _].
  - match goal with |- context [disconnect ?s] =>
      destruct (disconnect_dev s) as [-> _] end.
    destruct (fatal_dev (A := unit) (Some e)
                ("updateDisplay failing with " +:+ exn_msg e)
                (set_usb_out (usb_out st ++ out) st)) as [-> ->].
    cbn [dev reattach set_usb_out].
    destruct (dev st) as [d|]; [|done]. cbn. f_equal. f_equal.
    by destruct (reattach st), (kernel_driver_active d), (attaches d).
Qed.

Lemma fatal_any_type {A B} (exc : option exn) (msg : string) (st : hb04) :
  (fatal (A := A) exc msg st).2 = (fatal (A := B) exc msg st).2.
Proof.
  unfold fatal, bind, print, print_exc, modify, sys_exit, raise.
  match goal with |- context [disconnect ?s] => by destruct (disconnect s) as [[[]|?] ?] end.
Qed.

(** Whatever follows a call of [fatal] is not run. *)
Lemma fatal_bind {A B} (exc : option exn) (msg : string) (k : A -> M B) (st : hb04) :
  bind (fatal exc msg) k st = fatal exc msg st.
Proof.
  pose proof (fatal_any_type (A := A) (B := B) exc msg st) as Hs.
  destruct (fatal_outcome (A := A) exc msg st) as (s2 & Hf & _).
  destruct (fatal_outcome (A := B) exc msg st) as (s3 & Hf3 & _).
  unfold bind. rewrite Hf, Hf3 in *. cbn [snd] in Hs. by rewrite Hs.
Qed.

(** What [connect_hb04] does once a device is found, after [n]
    unsuccessful polls. *)
Lemma connect_hb04_found_eq (n : nat) (d : usb_device)
    (rest : list (option usb_device)) (endpoint_in : result unit) (st : hb04) :
  connect_hb04 (replicate n None ++ Some d :: rest) endpoint_in st =
    let st2 := found_state n d st in
    match endpoint_in with
    | Ok _ =>
        bind forceDisplayUpdate (fun _ => ret (Some tt))
          (set_running true (set_stdout (stdout st2 ++ [Line "Found HB04"]) st2))
    | Raise e => fatal (Some e) "Found, but failed to connect to HB04" st2
    end.
Proof.
  unfold connect_hb04. unfold bind at 1, modify at 1. unfold bind at 1.
  rewrite find_loop_polls by reflexivity.
  assert (Hdis : disconnecting (after_polls n false (set_disconnecting false st)) = false)
    by (by destruct n).
  cbn [find_loop]. unfold bind at 1, gets at 1. rewrite Hdis.
  unfold bind at 1, modify at 1. cbn [ret].
  unfold bind at 1, get_dev, bind at 1, gets at 1. cbn [dev set_dev ret].
  cbv zeta. unfold found_state.
  destruct (kernel_driver_active d).
  - unfold bind at 1. unfold bind at 1, modify at 1, modify at 1.
    destruct endpoint_in as [[]|e].
    + unfold bind at 1, try_except, lift.
      unfold bind at 1, print at 1, modify at 1.
      unfold bind at 1, startListening, modify at 1. reflexivity.
    + unfold try_except at 1, lift at 1. cbn [any_exn].
      match goal with |- bind ?c ?k ?s = _ =>
        change (bind c k s) with (bind (fatal (A := unit) (Some e)
                  "Found, but failed to connect to HB04") k s) end.
      apply fatal_bind.
  - unfold bind at 1. cbn [ret].
    destruct endpoint_in as [[]|e].
    + unfold bind at 1, try_except, lift.
      unfold bind at 1, print at 1, modify at 1.
      unfold bind at 1, startListening, modify at 1. reflexivity.
    + unfold try_except at 1, lift at 1. cbn [any_exn].
      match goal with |- bind ?c ?k ?s = _ =>
        change (bind c k s) with (bind (fatal (A := unit) (Some e)
                  "Found, but failed to connect to HB04") k s) end.
      apply fatal_bind.
Qed.

Lemma found_state_fields (n : nat) (d : usb_device) (st : hb04) :
  let st2 := found_state n d st in
  dev st2 = Some {| kernel_driver_active := false; accepts := accepts d;
                    attaches := attaches d |} /\
  reattach st2 = reattach st || kernel_driver_active d /\
  disconnecting st2 = false /\ running st2 = running st /\
  usb_out st2 = usb_out st /\ same_settings st st2 /\
  stdout st2 = stdout st ++ (if (0 <? n)%nat
                             then [Line "HB04 not found. Please attach to continue..."]
                             else []).
Proof.
  cbv zeta. unfold found_state. destruct d as [k w], st, n, k; cbn;
    rewrite ?app_nil_r, ?orb_true_r, ?orb_false_r; by repeat split.
Qed.

(** X22: when a device is found and its inbound endpoint is there,
    [connect_hb04] takes the device from the kernel driver if it holds it
    (and records that it did), prints "Found HB04" -- after the one notice if
    there were unsuccessful polls --, sets the running flag, and ends with a
    display refresh on that state. *)
Theorem connect_hb04_found (n : nat) (d : usb_device)
    (rest : list (option usb_device)) (st : hb04) :
  exists st3,
    connect_hb04 (replicate n None ++ Some d :: rest) (Ok tt) st
      = bind forceDisplayUpdate (fun _ => ret (Some tt)) st3 /\
    running st3 = true /\ disconnecting st3 = false /\
    dev st3 = Some {| kernel_driver_active := false; accepts := accepts d;
                      attaches := attaches d |} /\
    reattach st3 = reattach st || kernel_driver_active d /\
    usb_out st3 = usb_out st /\ same_settings st st3 /\
    stdout st3 = stdout st
                   ++ (if (0 <? n)%nat
                       then [Line "HB04 not found. Please attach to continue..."]
                       else [])
                   ++ [Line "Found HB04"].
Proof.
  rewrite connect_hb04_found_eq. cbv zeta.
  destruct (found_state_fields n d st) as (Hdev & Hre & Hdis & _ & Huo & Hsame & Hso).
  eexists. split; [reflexivity|].
  cbn [running disconnecting dev reattach usb_out stdout set_running set_stdout].
  rewrite Hso, <- app_assoc.
  split; [reflexivity|]. split; [exact Hdis|]. split; [exact Hdev|].
  split; [exact Hre|]. split; [exact Huo|]. split; [exact Hsame|reflexivity].
Qed.

(** X23: when the device is found but its inbound endpoint is not,
    [connect_hb04] ends in [fatal]: "Found HB04" is not printed, the driver
    is not running and nothing is sent.  [fatal] disconnects, so a kernel
    driver that [connect_hb04] had detached (or that was marked for
    re-attachment before) is attached again if the attach goes through; if
    it fails, the failure is swallowed and the device stays detached, with
    the same [SystemExit] and the same output. *)
Theorem connect_hb04_no_endpoint (n : nat) (d : usb_device)
    (rest : list (option usb_device)) (e : exn) (st : hb04) :
  let r := connect_hb04 (replicate n None ++ Some d :: rest) (Raise e) st in
  r.1 = Raise (Exn SystemExit "1") /\
  running r.2 = false /\ usb_out r.2 = usb_out st /\
  dev r.2 = Some {| kernel_driver_active :=
                      (reattach st || kernel_driver_active d) && attaches d;
                    accepts := accepts d; attaches := attaches d |} /\
  stdout r.2 = stdout st
                 ++ (if (0 <? n)%nat
                     then [Line "HB04 not found. Please attach to continue..."]
                     else [])
                 ++ [Line "### FATAL: Found, but failed to connect to HB04";
                     Traceback (Some e)].
Proof.
  cbv zeta. rewrite connect_hb04_found_eq. cbv zeta.
  destruct (found_state_fields n d st) as (Hdev & Hre & _ & _ & Huo & _ & Hso).
  destruct (fatal_dev (A := option unit) (Some e) "Found, but failed to connect to HB04"
              (found_state n d st)) as [Hd _].
  destruct (fatal_outcome (A := option unit) (Some e)
              "Found, but failed to connect to HB04" (found_state n d st))
    as (s2 & Hf & Hrun & _ & Hout & Husb).
  rewrite Hf in *. cbn [fst snd] in *.
  split; [reflexivity|]. split; [exact Hrun|]. split; [congruence|]. split.
  - rewrite Hd, Hdev, Hre. reflexivity.
  - rewrite Hout, Hso, <- app_assoc. reflexivity.
Qed.

(** X24: connecting and then disconnecting.  Starting with nothing marked
    for re-attachment, [disconnect] after [connect_hb04] returns normally,
    whether the first refresh succeeded or ended in [fatal], and whatever
    the device does.  If the attach goes through, the device is handed back
    as it was found; if it fails, a device that the kernel driver held is
    left detached. *)
Theorem connect_then_disconnect (n : nat) (d : usb_device)
    (rest : list (option usb_device)) (st : hb04) :
  reattach st = false ->
  let r := connect_hb04 (replicate n None ++ Some d :: rest) (Ok tt) st in
  (disconnect r.2).1 = Ok tt /\
  dev (disconnect r.2).2
    = Some {| kernel_driver_active := kernel_driver_active d && attaches d;
              accepts := accepts d; attaches := attaches d |} /\
  (attaches d = true -> dev (disconnect r.2).2 = Some d).
Proof.
  intros Hre. cbv zeta. rewrite connect_hb04_found_eq. cbv zeta.
  destruct (found_state_fields n d st) as (Hdev & Hre2 & _).
  set (st3 := set_running true _).
  assert (Hs : (bind forceDisplayUpdate (fun _ => ret (Some tt)) st3).2
               = (forceDisplayUpdate st3).2).
  { unfold bind. by destruct (forceDisplayUpdate st3) as [[[]|?] ?]. }
  rewrite Hs. destruct (refresh_then_disconnect st3) as [-> ->]. subst st3.
  cbn [dev reattach set_running set_stdout]. rewrite Hdev, Hre2, Hre.
  cbn. split; [reflexivity|]. split; [reflexivity|].
  intros Ha. destruct d as [k w a]. cbn in *. subst a. by rewrite andb_true_r.
Qed.

Lemma connect_then_disconnect_witness :
  let d := {| kernel_driver_active := true; accepts := fun _ => true;
              attaches := false |} in
  let r := connect_hb04 (replicate 2 None ++ Some d :: []) (Ok tt) fresh in
  (disconnect r.2).1 = Ok tt /\
  dev (disconnect r.2).2
    = Some {| kernel_driver_active := kernel_driver_active d && attaches d;
              accepts := accepts d; attaches := attaches d |} /\
  (attaches d = true -> dev (disconnect r.2).2 = Some d).
Proof.
  intros d. apply (connect_then_disconnect 2 d [] fresh). reflexivity.
Defined.

(** ** The display loop *)

(** X25: [displayPeriodically] does not stop by itself.  With the running
    flag clear it returns at once and sends nothing; with the flag set, it
    refreshes again and again: however many rounds are allowed, it is still
    looping with the flag set, or a refresh has ended in [fatal]. *)
Theorem displayPeriodically_never_returns (fuel : nat) (st : hb04) :
  running st = true ->
  let r := displayPeriodically fuel st in
  displayPeriodically fuel (set_running false st)
    = (Ok (Some tt), set_running false st) /\
  ((r.1 = Ok None /\ running r.2 = true) \/
   (r.1 = Raise (Exn SystemExit "1") /\ running r.2 = false)).
Proof.
  intros Hrun. cbv zeta. split; [by destruct fuel|].
  revert st Hrun. induction fuel as [|fuel IH]; intros st Hrun.
  - left. cbn [displayPeriodically]. unfold bind, gets. rewrite Hrun. by split.
  - assert (Hstep : displayPeriodically (S fuel) st
                    = bind forceDisplayUpdate (fun _ => displayPeriodically fuel) st).
    { cbn [displayPeriodically]. unfold bind at 1, gets at 1. by rewrite Hrun. }
    rewrite Hstep. unfold bind.
    pose proof (forceDisplayUpdate_cases st) as Hc. cbv zeta in Hc.
    destruct (forceDisplayUpdate st) as [[[]|e1] s1]; cbn [fst snd] in Hc.
    + destruct Hc as [[_ [out ->]]|[? _]]; [|discriminate].
      apply IH. exact Hrun.
    + destruct Hc as [[? _]|[[= ->] (e & out & ->)]]; [discriminate|].
      right. split; [reflexivity|]. cbn [snd].
      by destruct (fatal_outcome (A := unit) (Some e)
                     ("updateDisplay failing with " +:+ exn_msg e)
                     (set_usb_out (usb_out st ++ out) st)) as (s2 & -> & ? & _).
Qed.

Lemma displayPeriodically_never_returns_witness :
  let r := displayPeriodically 2 listening in
  displayPeriodically 2 (set_running false listening)
    = (Ok (Some tt), set_running false listening) /\
  ((r.1 = Ok None /\ running r.2 = true) \/
   (r.1 = Raise (Exn SystemExit "1") /\ running r.2 = false)).
Proof. apply (displayPeriodically_never_returns 2 listening). reflexivity. Defined.

(** ** The receive loop *)

Lemma receiveUSBEvents_report (connect : M (option unit)) (h : option handler)
    (data : list Z) (reads : list read_result) (st : hb04) :
  running st = true ->
  receiveUSBEvents connect h (Report data :: reads) st
    = bind (receiveUSBEvents_dispatch h data)
        (fun _ => receiveUSBEvents connect h reads) st.
Proof.
  intros Hrun. cbn [receiveUSBEvents]. unfold bind at 1, gets at 1.
  by rewrite Hrun.
Qed.

Lemma dispatch_decoded (h : handler) (d0 d1 d2 d3 d4 d5 : Z) (ev : Event) (st : hb04) :
  code2Axis !! d3 = Some (axis ev) ->
  code2Button !! d1 = Some (button ev) ->
  code2Button !! d2 = Some (button2 ev) ->
  increment ev = sign_extend d4 ->
  receiveUSBEvents_dispatch (Some h) [d0; d1; d2; d3; d4; d5] st
    = (Ok tt, (h ev (set_handler_calls (handler_calls st ++ [ev])
                       (set_axis_switch (axis ev) st))).2).
Proof.
  intros Hax H1 H2 Hinc. unfold receiveUSBEvents_dispatch, try_except.
  rewrite (newUSBEvent_decoded h d0 d1 d2 d3 d4 d5 _ _ _ st Hax H1 H2).
  cbv zeta. rewrite <- Hinc. by destruct ev.
Qed.

(** X26: the receive loop hands well-formed reports to the handler one by
    one, in the order read.  With a handler that leaves the running flag
    alone, after a run of such reports the handler has been called with
    exactly their events, in order, and the loop is waiting for the next
    report. *)
Theorem receiveUSBEvents_in_order (connect : M (option unit)) (h : handler)
    (reports : list (list Z)) (evs : list Event) (st : hb04) :
  plain_handler h ->
  running st = true ->
  Forall2 decodes reports evs ->
  let r := receiveUSBEvents connect (Some h) (map Report reports) st in
  r.1 = Ok None /\ running r.2 = true /\
  handler_calls r.2 = handler_calls st ++ evs.
Proof.
  intros Hh Hrun Hdec. cbv zeta. revert st Hrun.
  induction Hdec as [|data ev reports evs Hd _ IH]; intros st Hrun.
  - cbn [map receiveUSBEvents]. unfold bind, gets. rewrite Hrun.
    cbn. by rewrite app_nil_r.
  - cbn [map]. rewrite receiveUSBEvents_report by exact Hrun.
    destruct Hd as (d0 & d1 & d2 & d3 & d4 & d5 & -> & Hax & H1 & H2 & Hinc).
    unfold bind.
    rewrite (dispatch_decoded h d0 d1 d2 d3 d4 d5 ev st Hax H1 H2 Hinc).
    set (st1 := set_handler_calls _ _).
    destruct (Hh ev st1) as [Hr Hc].
    destruct (IH (h ev st1).2) as (Hres & Hrun' & Hcalls).
    { rewrite Hr. subst st1. exact Hrun. }
    split; [exact Hres|]. split; [exact Hrun'|].
    rewrite Hcalls, Hc. subst st1. cbn [handler_calls set_handler_calls].
    by rewrite <- app_assoc.
Qed.

Lemma receiveUSBEvents_in_order_witness :
  let h : handler := fun ev => print (button ev) in
  let evs := [ {| button := "start"; button2 := ""; axis := "z"; increment := -1 |};
               {| button := ""; button2 := ""; axis := "off"; increment := 0 |} ] in
  let r := receiveUSBEvents (ret None) (Some h)
             (map Report [[0x04; 0x02; 0; 0x13; 0xFF; 0x02]; [0x04; 0; 0; 0; 0; 0]])
             listening in
  r.1 = Ok None /\ running r.2 = true /\
  handler_calls r.2 = handler_calls listening ++ evs.
Proof.
  intros h evs.
  apply (receiveUSBEvents_in_order (ret None) h
           [[0x04; 0x02; 0; 0x13; 0xFF; 0x02]; [0x04; 0; 0; 0; 0; 0]] evs listening).
  - intros ev s. by split.
  - reflexivity.
  - repeat constructor.
    + exists 0x04, 0x02, 0, 0x13, 0xFF, 0x02. by repeat split.
    + exists 0x04, 0, 0, 0, 0, 0. by repeat split.
Defined.

(** X27: a report of the wrong length, or with an unmapped switch byte,
    ends the receive loop: the handler is not called for it, [fatal] raises
    [SystemExit], and the reads that would follow are never made. *)
Theorem receiveUSBEvents_stops_at_bad_report (connect : M (option unit))
    (h : option handler) (data : list Z) (reads : list read_result) (st : hb04) :
  running st = true ->
  length data <> 6%nat \/ (exists b, data !! 3%nat = Some b /\ code2Axis !! b = None) ->
  let r := receiveUSBEvents connect h (Report data :: reads) st in
  r = receiveUSBEvents connect h [Report data] st /\
  r.1 = Raise (Exn SystemExit "1") /\
  running r.2 = false /\ handler_calls r.2 = handler_calls st.
Proof.
  intros Hrun Hbad. cbv zeta.
  assert (Hn : exists e, newUSBEvent h data st = (Raise e, st)).
  { destruct (decide (length data = 6%nat)) as [Hlen|Hlen].
    - destruct Hbad as [?|(b & Hb & Hax)]; [done|].
      do 6 (destruct data as [|? data]; [discriminate Hlen|]).
      destruct data; [|discriminate Hlen].
      cbn in Hb. injection Hb as ->. eexists.
      by apply newUSBEvent_bad_axis.
    - eexists. by apply newUSBEvent_bad_length. }
  destruct Hn as [e Hn].
  pose proof (dispatch_fatal h data e st Hn) as (Hc & Hr & Hrun' & _).
  rewrite !receiveUSBEvents_report by exact Hrun.
  unfold bind.
  destruct (receiveUSBEvents_dispatch h data st) as [[[]|e1] s1];
    cbn [fst snd] in *; [discriminate|].
  by injection Hr as ->.
Qed.

Lemma receiveUSBEvents_stops_at_bad_report_witness :
  let h : option handler := Some (fun _ => ret tt) in
  let r := receiveUSBEvents (ret None) h
             [Report [0x04; 0; 0; 0x33; 0; 0]; Report [0x04; 0; 0; 0x11; 0; 0]]
             listening in
  r = receiveUSBEvents (ret None) h [Report [0x04; 0; 0; 0x33; 0; 0]] listening /\
  r.1 = Raise (Exn SystemExit "1") /\
  running r.2 = false /\ handler_calls r.2 = handler_calls listening.
Proof.
  intros h.
  apply (receiveUSBEvents_stops_at_bad_report (ret None) h [0x04; 0; 0; 0x33; 0; 0]
           [Report [0x04; 0; 0; 0x11; 0; 0]] listening).
  - reflexivity.
  - right. exists 0x33. by split.
Defined.

Lemma bind_ext {A B} (c : M A) (k1 k2 : A -> M B) (st : hb04) :
  (forall a s, k1 a s = k2 a s) -> bind c k1 st = bind c k2 st.
Proof. intros Hk. unfold bind. destruct (c st) as [[a|e] s]; [apply Hk|done]. Qed.

(** X28: timeouts, and exceptions of [dev.read] that are not [USBError]s,
    leave no trace: a run of the receive loop is the same run with those
    reads taken out, wherever they come in the sequence. *)
Theorem receiveUSBEvents_skips_timeouts (connect : M (option unit))
    (h : option handler) (reads : list read_result) (st : hb04) :
  receiveUSBEvents connect h reads st
    = receiveUSBEvents connect h (List.filter (fun r => negb (skipped r)) reads) st.
Proof.
  revert st. induction reads as [|r reads IH]; intros st; [reflexivity|].
  destruct r as [data|errno|e]; cbn [List.filter skipped negb].
  - cbn [receiveUSBEvents]. apply bind_ext. intros run s.
    destruct (negb run); [reflexivity|]. apply bind_ext. intros _ s'. apply IH.
  - destruct (bool_decide (errno = Some ETIMEDOUT)) eqn:Ht; cbn [negb].
    + rewrite <- IH. cbn [receiveUSBEvents]. rewrite Ht.
      unfold bind, gets. destruct (running st) eqn:Hrun; cbn [negb]; [reflexivity|].
      destruct reads as [|[]]; cbn [receiveUSBEvents]; unfold bind, gets;
        by rewrite Hrun.
    + cbn [receiveUSBEvents]. rewrite Ht. apply bind_ext. intros run s.
      destruct (negb run); [reflexivity|].
      destruct (bool_decide (errno = Some ENODEV)); [|reflexivity].
      apply bind_ext. intros _ s1. apply bind_ext. intros [c|] s2; [|reflexivity].
      apply bind_ext. intros _ s3. apply IH.
  - destruct (is_Exception e) eqn:He; cbn [negb].
    + rewrite <- IH. cbn [receiveUSBEvents]. rewrite He.
      unfold bind, gets. destruct (running st) eqn:Hrun; cbn [negb]; [reflexivity|].
      destruct reads as [|[]]; cbn [receiveUSBEvents]; unfold bind, gets;
        by rewrite Hrun.
    + cbn [receiveUSBEvents]. by rewrite He.
Qed.

(** While no device is found, [connect_hb04] only polls. *)
Lemma connect_hb04_polling (n : nat) (endpoint_in : result unit) (st : hb04) :
  connect_hb04 (replicate n None) endpoint_in st
    = (Ok None, after_polls n false (set_disconnecting false st)).
Proof.
  unfold connect_hb04. unfold bind at 1, modify at 1. unfold bind at 1.
  rewrite <- (app_nil_r (replicate n None)).
  rewrite find_loop_polls by reflexivity.
  by destruct n.
Qed.

(** X29: a [USBError] of [dev.read] that is neither a timeout nor a lost
    device ends the receive loop: after a notice when the device is busy,
    the thread that runs [reconnect] is started and the loop is left.  The
    handler is not called, the reads that would follow are never made, and
    the loop itself does not touch the running flag: it is [reconnect] that
    clears it, and for as long as no device is found the driver stays not
    running and not reconnecting. *)
Theorem receiveUSBEvents_usb_error_ends_loop (connect : M (option unit))
    (h : option handler) (errno : option Z) (reads : list read_result) (st : hb04) :
  running st = true ->
  errno <> Some ETIMEDOUT ->
  errno <> Some ENODEV ->
  let st' :=
    if bool_decide (errno = Some EBUSY)
    then set_stdout (stdout st ++ [Line "### Device in use by another program"]) st
    else st in
  receiveUSBEvents connect h (USBError errno :: reads) st
    = (Ok (Some ReconnectStarted), st') /\
  handler_calls st' = handler_calls st /\
  forall n endpoint_in,
    let r := reconnect (replicate n None) endpoint_in st' in
    r.1 = Ok None /\ running r.2 = false /\ reconnecting r.2 = false /\
    handler_calls r.2 = handler_calls st.
Proof.
  intros Hrun Ht Hn st'. split; [|split].
  - cbn [receiveUSBEvents]. unfold bind at 1, gets at 1.
    rewrite Hrun. cbn [negb].
    rewrite (bool_decide_eq_false_2 _ Ht), (bool_decide_eq_false_2 _ Hn).
    subst st'. by destruct (bool_decide (errno = Some EBUSY)).
  - subst st'. by destruct (bool_decide (errno = Some EBUSY)).
  - intros n endpoint_in.
    assert (Hr : reconnect (replicate n None) endpoint_in st'
                 = (Ok None,
                    after_polls n false
                      (set_disconnecting false
                         (set_reconnecting false
                            (set_running false (set_reconnecting true st')))))).
    { unfold reconnect. unfold bind at 1, modify at 1.
      unfold bind at 1, modify at 1. unfold bind at 1, modify at 1.
      apply connect_hb04_polling. }
    cbv zeta. rewrite Hr. subst st'.
    by destruct n, (bool_decide (errno = Some EBUSY)).
Qed.

Lemma receiveUSBEvents_usb_error_ends_loop_witness :
  let st' :=
    if bool_decide (Some EBUSY = Some EBUSY)
    then set_stdout (stdout listening
                       ++ [Line "### Device in use by another program"]) listening
    else listening in
  receiveUSBEvents (ret None) None
      (USBError (Some EBUSY) :: [Report [0x04; 0; 0; 0x11; 0; 0]]) listening
    = (Ok (Some ReconnectStarted), st') /\
  handler_calls st' = handler_calls listening /\
  forall n endpoint_in,
    let r := reconnect (replicate n None) endpoint_in st' in
    r.1 = Ok None /\ running r.2 = false /\ reconnecting r.2 = false /\
    handler_calls r.2 = handler_calls listening.
Proof.
  apply (receiveUSBEvents_usb_error_ends_loop (ret None) None (Some EBUSY)
           [Report [0x04; 0; 0; 0x11; 0; 0]] listening).
  - reflexivity.
  - intros H. vm_compute in H. congruence.
  - intros H. vm_compute in H. congruence.
Defined.
